(** * DeepShield: heuristic "real" / "ai-generated" scoring

    A shallow embedding of [backend/main.py] (the two FastAPI handlers
    [analyze_text] and [analyze_image]) and the properties its
    specification states about them.

    Modelling choices.
    - A Python [str] is a [string] whose characters are the code points
      U+0000 to U+00FF. On these, [str.lower], the white space of
      [str.split] and [str.strip] and the regular-expression class [\w]
      are the Unicode ones, as Python 3 has them; [Py] defines them.
    - A Python [float] is an IEEE 754 binary64 number: the primitive type
      [float], whose operations are specified by [SpecFloat].
    - A statement that can raise has an [option] type, [None] standing
      for the exception: a division raises [ZeroDivisionError] when its
      divisor is 0.
    - [x ** 2] on floats is computed by the C library's [pow], whose
      rounding differs from one library to the next: it is a parameter of
      the text handler.
    - [random.uniform(-0.05, 0.05)] is an input of the handlers (the
      argument [jitter]).
    - Pillow and the way an exception prints are parameters of the image
      handler. *)

From Stdlib Require Import ZArith List String Ascii Bool Lia.
From Stdlib Require Import Floats.
Import ListNotations.

#[local] Set Warnings "-inexact-float".
#[local] Open Scope string_scope.
#[local] Open Scope Z_scope.

(** Sequencing of statements that can raise. *)
Notation "x <- e ;; k" :=
  (match e with Some x => k | None => None end)
  (at level 61, e at next level, right associativity).

(** ** Python built-ins over strings and numbers *)

Module Py.

Definition len (s : string) : Z := Z.of_nat (String.length s).

Definition code (c : ascii) : N := N_of_ascii c.

Definition in_range (lo hi : N) (c : ascii) : bool :=
  (N.leb lo (code c) && N.leb (code c) hi)%bool.

(** [str.isspace], the white space of [split()] and [strip()]: TAB..CR,
    FS..US, the space, NEL (U+0085) and the no-break space (U+00A0). *)
Definition isspace (c : ascii) : bool :=
  (in_range 9 13 c || in_range 28 32 c
   || N.eqb (code c) 133 || N.eqb (code c) 160)%bool.

(** [str.isalpha]: the letters A-Z and a-z, the ordinal indicators
    (U+00AA, U+00BA), the micro sign (U+00B5) and the letters U+00C0 to
    U+00FF, which leave out the signs U+00D7 and U+00F7. *)
Definition isalpha (c : ascii) : bool :=
  (in_range 65 90 c || in_range 97 122 c
   || N.eqb (code c) 170 || N.eqb (code c) 181 || N.eqb (code c) 186
   || in_range 192 214 c || in_range 216 246 c || in_range 248 255 c)%bool.

(** The characters with a decimal, digit or numeric value: 0-9, the
    superscripts U+00B2, U+00B3 and U+00B9, the fractions U+00BC to
    U+00BE. *)
Definition isnumeric (c : ascii) : bool :=
  (in_range 48 57 c
   || N.eqb (code c) 178 || N.eqb (code c) 179 || N.eqb (code c) 185
   || in_range 188 190 c)%bool.

(** [str.isalnum] *)
Definition isalnum (c : ascii) : bool := (isalpha c || isnumeric c)%bool.

(** The class [\w] of a [str] pattern: alphanumeric or the underscore. *)
Definition isword (c : ascii) : bool :=
  (isalnum c || N.eqb (code c) 95)%bool.

(** The letters with a lower-case form: A-Z and U+00C0 to U+00DE but
    U+00D7; the form is 32 code points above. *)
Definition isupper (c : ascii) : bool :=
  (in_range 65 90 c || in_range 192 214 c || in_range 216 222 c)%bool.

Definition lower_char (c : ascii) : ascii :=
  if isupper c then ascii_of_N (code c + 32) else c.

(** [s.lower()] *)
Fixpoint lower (s : string) : string :=
  match s with
  | EmptyString => EmptyString
  | String c r => String (lower_char c) (lower r)
  end.

Definition nonempty (s : string) : bool :=
  match s with EmptyString => false | String _ _ => true end.

(** [sub in s] *)
Fixpoint contains (sub s : string) : bool :=
  (prefix sub s
   || match s with EmptyString => false | String _ r => contains sub r end)%bool.

(** [s.count(sub)]: occurrences found from left to right, the search
    resuming after each one ([skip] is what is left of the last one). *)
Fixpoint count_from (sub s : string) (skip : nat) : Z :=
  match s with
  | EmptyString => 0
  | String _ r =>
      match skip with
      | S k => count_from sub r k
      | O => if prefix sub s
             then 1 + count_from sub r (String.length sub - 1)
             else count_from sub r 0
      end
  end.

Definition count (s sub : string) : Z :=
  match sub with
  | EmptyString => len s + 1
  | String _ _ => count_from sub s 0
  end.

(** The pieces of [s] between the characters of a class, empty ones too. *)
Fixpoint pieces (sep : ascii -> bool) (s : string) : list string :=
  match s with
  | EmptyString => [EmptyString]
  | String c r =>
      if sep c then EmptyString :: pieces sep r
      else match pieces sep r with
           | p :: ps => String c p :: ps
           | [] => [String c EmptyString]
           end
  end.

(** [s.split()]: the maximal runs of characters that are not spaces. *)
Definition split (s : string) : list string :=
  filter nonempty (pieces isspace s).

(** [re.findall(r'\b\w+\b', s)]: the maximal runs of word characters. *)
Definition findall_words (s : string) : list string :=
  filter nonempty (pieces (fun c => negb (isword c)) s).

(** [re.split(r'[.!?]+', s)]: a run of separators separates once. *)
Fixpoint re_split_runs (sep : ascii -> bool) (s : string) (in_run : bool)
  : list string :=
  match s with
  | EmptyString => [EmptyString]
  | String c r =>
      if sep c then
        if in_run then re_split_runs sep r true
        else EmptyString :: re_split_runs sep r true
      else match re_split_runs sep r false with
           | p :: ps => String c p :: ps
           | [] => [String c EmptyString]
           end
  end.

Definition is_sentence_end (c : ascii) : bool :=
  (N.eqb (code c) 46 || N.eqb (code c) 33 || N.eqb (code c) 63)%bool.

Definition re_split_sentences (s : string) : list string :=
  re_split_runs is_sentence_end s false.

Fixpoint lstrip (s : string) : string :=
  match s with
  | EmptyString => EmptyString
  | String c r => if isspace c then lstrip r else s
  end.

Fixpoint rstrip (s : string) : string :=
  match s with
  | EmptyString => EmptyString
  | String c r =>
      let r' := rstrip r in
      if (isspace c && negb (nonempty r'))%bool then EmptyString
      else String c r'
  end.

(** [s.strip()] *)
Definition strip (s : string) : string := rstrip (lstrip s).

(** [sep.join(ws)] *)
Fixpoint join (sep : string) (ws : list string) : string :=
  match ws with
  | [] => EmptyString
  | [w] => w
  | w :: rest => w ++ sep ++ join sep rest
  end.

(** [sum] over integers *)
Definition sum (xs : list Z) : Z := fold_left Z.add xs 0.

(** [len] of a list *)
Definition len_list {A : Type} (xs : list A) : Z := Z.of_nat (List.length xs).

(** [len(set(ws))] *)
Definition len_set (ws : list string) : Z :=
  Z.of_nat (List.length (nodup string_dec ws)).

(** A [dict] from strings to counts, in insertion order. *)
Definition dict := list (string * Z).

Fixpoint dict_get (d : dict) (k : string) (default : Z) : Z :=
  match d with
  | [] => default
  | (k', v) :: r => if String.eqb k' k then v else dict_get r k default
  end.

Fixpoint dict_set (d : dict) (k : string) (v : Z) : dict :=
  match d with
  | [] => [(k, v)]
  | (k', v') :: r =>
      if String.eqb k' k then (k', v) :: r else (k', v') :: dict_set r k v
  end.

(** [d[k] = d.get(k, 0) + 1] *)
Definition dict_count (d : dict) (k : string) : dict :=
  dict_set d k (dict_get d k 0 + 1).

Definition values (d : dict) : list Z := map snd d.

(** *** Floats *)

(** [float(n)], exact below 2^53. *)
Definition float_of_Z (n : Z) : float :=
  SF2Prim (binary_normalize prec emax n 0 false).

(** The quotient of two integers rounded once, which below 2^53 is the
    quotient of the converted operands. *)
Definition quotient (a b : Z) : float := (float_of_Z a / float_of_Z b)%float.

(** [a / b] on integers; it raises [ZeroDivisionError] when [b] is 0. *)
Definition truediv (a b : Z) : option float :=
  if b =? 0 then None else Some (quotient a b).

(** [x / n], a float by an integer; the same exception. *)
Definition fdiv (x : float) (n : Z) : option float :=
  if n =? 0 then None else Some (x / float_of_Z n)%float.

(** [int(x)]: truncation towards zero; NaN and the infinities raise. *)
Definition int (x : float) : option Z :=
  match Prim2SF x with
  | S754_zero _ => Some 0
  | S754_finite s m e =>
      let a := if 0 <=? e then Z.pos m * 2 ^ e else Z.pos m / 2 ^ (- e) in
      Some (if s then - a else a)
  | S754_infinity _ | S754_nan => None
  end.

(** [min(a, b)] and [max(a, b)] keep their first argument unless the
    second is strictly smaller (larger), also when one is a NaN. *)
Definition fmin (a b : float) : float := if (b <? a)%float then b else a.
Definition fmax (a b : float) : float := if (a <? b)%float then b else a.

(** [sum] over floats, from the left, starting from the integer 0. *)
Definition fsum (xs : list float) : float := fold_left PrimFloat.add xs 0%float.

End Py.

(** ** The response model and the HTTP outcomes *)

Record AnalysisResponse := {
  status : string;      (* "real" or "ai-generated" *)
  confidence : Z        (* 0-100 *)
}.

(** What a handler does: it returns a response, raises an
    [HTTPException], or fails on an exception nobody catches. *)
Inductive outcome :=
| Returned (r : AnalysisResponse)
| HTTPException (status_code : Z) (detail : string)
| Unhandled.

(** The two counters of a handler, [ai_indicators]/[human_indicators]
    in the text handler and [ai_score]/[human_score] in the image one. *)
Record tally := { ai : Z; human : Z }.

Definition add_ai (k : Z) (t : tally) : tally :=
  {| ai := ai t + k; human := human t |}.
Definition add_human (k : Z) (t : tally) : tally :=
  {| ai := ai t; human := human t + k |}.

(** A signal adds at most [ka] to the first counter and [kh] to the
    second, and takes nothing away. *)
Definition grows (ka kh : Z) (f : tally -> tally) : Prop :=
  forall t, ai t <= ai (f t) <= ai t + ka
            /\ human t <= human (f t) <= human t + kh.

(** The same for a signal that could raise: it does not. *)
Definition returns (ka kh : Z) (f : tally -> option tally) : Prop :=
  forall t, exists t', f t = Some t'
                       /\ ai t <= ai t' <= ai t + ka
                       /\ human t <= human t' <= human t + kh.

(** The end of both handlers (main.py 156-169 and 278-291): jitter, the
    clamp to [0, 1], the label, the confidence and its band [lo, hi]. *)
Definition respond (ai_probability jitter : float) (lo hi : Z) : outcome :=
  let ai_probability :=
    Py.fmax 0 (Py.fmin 1 (ai_probability + jitter)) in
  let is_ai := (0.5 <? ai_probability)%float in
  match (if is_ai then Py.int (ai_probability * 100)
         else Py.int ((1 - ai_probability) * 100)) with
  | None => Unhandled
  | Some confidence =>
      let confidence := Z.max lo (Z.min hi confidence) in
      Returned {| status := if is_ai then "ai-generated" else "real";
                  confidence := confidence |}
  end.

(** ** The text handler, [analyze_text] *)

Module Text.

Section Platform.

(** [x ** y] on floats. CPython hands it to the C library's [pow], which
    need not round the square the way a product is rounded. (It raises
    [OverflowError] for a base beyond 2^511 only, which no count of words
    comes near.) *)
Variable pow : float -> float -> float.

Definition LF : string := String (ascii_of_N 10) EmptyString.

Definition sentences_of (text : string) : list string :=
  map Py.strip
    (filter (fun s => Py.nonempty (Py.strip s)) (Py.re_split_sentences text)).

(** 1. Sentence structure analysis (main.py 70-71: two divisions by
    the number of sentences). *)
Definition variance_of (sentence_lengths : list Z) : option float :=
  avg_length <- Py.truediv (Py.sum sentence_lengths)
                  (Py.len_list sentence_lengths) ;;
  Py.fdiv
    (Py.fsum (map (fun x => pow (Py.float_of_Z x - avg_length) 2)
                  sentence_lengths))
    (Py.len_list sentence_lengths).

Definition sentence_structure (sentences : list string) (t : tally)
  : option tally :=
  if 3 <=? Py.len_list sentences then
    let sentence_lengths := map (fun s => Py.len_list (Py.split s)) sentences in
    variance <- variance_of sentence_lengths ;;
    Some (if (variance <? 20)%float then add_ai 2 t else add_human 1 t)
  else Some t.

(** 2. AI-typical transition words and phrases *)
Definition formal_transitions : list string :=
  [ "furthermore"; "moreover"; "in addition"; "consequently";
    "therefore"; "subsequently"; "nevertheless"; "additionally";
    "in conclusion"; "it is important to note"; "it should be noted" ].

Definition transitions (text_lower : string) (t : tally) : tally :=
  let formal_count :=
    Py.len_list (filter (fun phrase => Py.contains phrase text_lower)
                        formal_transitions) in
  if 2 <=? formal_count then add_ai 2 t else t.

(** 3. Repetitive phrasing patterns *)
Definition record_start (common_starts : Py.dict) (sentence : string) : Py.dict :=
  let words := Py.split sentence in
  if 2 <=? Py.len_list words then
    let start := Py.lower (Py.join " " (firstn 2 words)) in
    Py.dict_count common_starts start
  else common_starts.

Definition repeated_starts (sentences : list string) (t : tally) : tally :=
  let common_starts := fold_left record_start sentences [] in
  if existsb (fun count => 3 <=? count) (Py.values common_starts)
  then add_ai 2 t else t.

(** 4. Hedging words *)
Definition hedging_words : list string :=
  [ "may"; "might"; "could"; "possibly"; "perhaps"; "generally" ].

Definition hedging (text_lower : string) (t : tally) : tally :=
  let hedging_count :=
    Py.sum (map (fun word => Py.count text_lower (" " ++ word ++ " "))
                hedging_words) in
  if 3 <=? hedging_count then add_ai 1 t else t.

(** 5. Personal pronouns *)
Definition pronouns (text text_lower : string) (t : tally) : tally :=
  let personal_pronouns :=
    Py.count text_lower " i " + Py.count text_lower " my "
    + Py.count text_lower " me " + Py.count text_lower "i'm" in
  if 2 <=? personal_pronouns then add_human 2 t
  else if ((personal_pronouns =? 0) && (200 <? Py.len text))%bool
       then add_ai 1 t else t.

(** 6. Contractions *)
Definition contractions : list string :=
  [ "n't"; "'ll"; "'re"; "'ve"; "'d"; "'m"; "'s" ].

Definition contraction_use (text : string) (t : tally) : tally :=
  let contraction_count :=
    Py.sum (map (fun c => Py.count text c) contractions) in
  if 2 <=? contraction_count then add_human 2 t
  else if ((contraction_count =? 0) && (150 <? Py.len text))%bool
       then add_ai 1 t else t.

(** 7. Exclamation points and questions *)
Definition expressiveness (text : string) (t : tally) : tally :=
  let excitement := Py.count text "!" + Py.count text "?" in
  if 2 <=? excitement then add_human 1 t else t.

(** 8. Lists and formatting *)
Definition lists (text : string) (t : tally) : tally :=
  if ((2 <=? Py.count text (LF ++ "-")) || (2 <=? Py.count text (LF ++ "*"))
      || (1 <=? Py.count text (LF ++ "1.")))%bool
  then add_ai 1 t else t.

(** 9. "Grammar errors" *)
Definition grammar (text_lower : string) (t : tally) : tally :=
  if (Py.contains " alot " text_lower || Py.contains " there " text_lower
      || Py.contains " their " text_lower)%bool
  then add_human 1 t else t.

(** 10. Vocabulary diversity *)
Definition vocabulary (text_lower : string) (t : tally) : option tally :=
  let words := Py.findall_words text_lower in
  let unique_words := Py.len_set words in
  let total_words := Py.len_list words in
  if 0 <? total_words then
    diversity <- Py.truediv unique_words total_words ;;
    Some (if (0.7 <? diversity)%float then add_human 1 t
          else if (diversity <? 0.5)%float then add_ai 1 t
          else t)
  else Some t.

(** The counters after the ten signals (main.py 59-146). *)
Definition indicators (text : string) : option tally :=
  let text_lower := Py.lower text in
  let t := {| ai := 0; human := 0 |} in
  let sentences := sentences_of text in
  t <- sentence_structure sentences t ;;
  let t := transitions text_lower t in
  let t := repeated_starts sentences t in
  let t := hedging text_lower t in
  let t := pronouns text text_lower t in
  let t := contraction_use text t in
  let t := expressiveness text t in
  let t := lists text t in
  let t := grammar text_lower t in
  vocabulary text_lower t.

(** The probability before the jitter (main.py 148-154). *)
Definition ai_probability (t : tally) : option float :=
  let total_indicators := ai t + human t in
  if total_indicators =? 0 then Some 0.45%float
  else Py.truediv (ai t) total_indicators.

Definition too_short : string :=
  "Text must be at least 50 characters long for accurate analysis".

(** An exception of the scoring reaches nobody's [except]. *)
Definition analyze_text (text : string) (jitter : float) : outcome :=
  if Py.len text <? 50 then HTTPException 400 too_short
  else
    match indicators text with
    | None => Unhandled
    | Some t =>
        match ai_probability t with
        | None => Unhandled
        | Some ai_probability => respond ai_probability jitter 60 90
        end
    end.

End Platform.

End Text.

(** ** The image handler, [analyze_image] *)

Module Image.

(** The upload: the declared content type and the bytes read from it. *)
Record UploadFile := {
  content_type : option string;
  contents : list Byte.byte
}.

(** What the handler reads from the decoded RGB image. [None] stands for
    a call that raises. *)
Record PILImage := {
  size : Z * Z;
  getextrema : option (list (Z * Z));
  getexif : option (list Z)
}.

(** An exception raised inside the [try] block of main.py 184-201. *)
Inductive raised :=
| RaisedHTTP (status_code : Z) (detail : string)
| RaisedByPIL (message : string).

Definition bad_type : string :=
  "Invalid file type. Please upload an image (JPG, PNG, WebP)".
Definition too_large : string := "File size exceeds 5MB limit".
Definition bad_image : string := "Invalid image file: ".

(** 1. Dimensions *)
Definition common_ai_dimensions : list (Z * Z) :=
  [ (512, 512); (1024, 1024); (768, 768);
    (1024, 1024); (1792, 1024); (1024, 1792);
    (1024, 576); (576, 1024) ].

Definition pair_in (p : Z * Z) (l : list (Z * Z)) : bool :=
  existsb (fun q => (fst p =? fst q) && (snd p =? snd q))%bool l.

Definition dimensions (width height : Z) (t : tally) : tally :=
  if (pair_in (width, height) common_ai_dimensions
      || pair_in (height, width) common_ai_dimensions)%bool
  then add_ai 3 t else t.

(** 2. Multiples of 64 or 128 *)
Definition multiples (width height : Z) (t : tally) : tally :=
  if (((width mod 128 =? 0) && (height mod 128 =? 0))
      || ((width mod 64 =? 0) && (height mod 64 =? 0)))%bool
  then add_ai 2 t else add_human 1 t.

(** 3. Aspect ratio *)
Definition perfect_ratios : list float :=
  [ 1.0; 1.5; 0.67; 1.77; 0.56; 1.91 ]%float.

Definition aspect (width height : Z) (t : tally) : option tally :=
  aspect_ratio <- (if 0 <? height then Py.truediv width height
                   else Some 1%float) ;;
  Some (if existsb (fun ratio => (abs (aspect_ratio - ratio) <? 0.05)%float)
                   perfect_ratios
        then add_ai 1 t else t).

(** 4. File size *)
Definition compression (file_size width height : Z) (t : tally)
  : option tally :=
  let pixels := width * height in
  if 0 <? pixels then
    bytes_per_pixel <- Py.truediv file_size pixels ;;
    Some (if ((2.0 <=? bytes_per_pixel)
              && (bytes_per_pixel <=? 4.0))%float%bool
          then add_ai 1 t else t)
  else Some t.

(** 5. Colour properties, inside [try]: an exception, before any counter
    has changed, leaves the counters as they are. *)
Definition colours (image : PILImage) (t : tally) : tally :=
  match getextrema image with
  | None => t
  | Some stat =>
      let ranges := map (fun '(min_val, max_val) => max_val - min_val) stat in
      match Py.truediv (Py.sum ranges) 3 with
      | None => t
      | Some avg_range =>
          let t := if (200 <? avg_range)%float then add_ai 2 t
                   else if (avg_range <? 150)%float then add_human 1 t
                   else t in
          if existsb (fun '(min_val, max_val) =>
                        (min_val =? 0) || (max_val =? 255))%bool stat
          then add_ai 1 t else t
      end
  end.

(** 6. EXIF data *)
Definition exif_data (image : PILImage) (t : tally) : tally :=
  match getexif image with
  | None => add_ai 1 t
  | Some exif =>
      if (negb (Py.len_list exif =? 0) && (5 <? Py.len_list exif))%bool
      then add_human 3 t else add_ai 2 t
  end.

(** The counters after the six signals (main.py 204-269). *)
Definition scores (file_size : Z) (image : PILImage) : option tally :=
  let '(width, height) := size image in
  let t := {| ai := 0; human := 0 |} in
  let t := dimensions width height t in
  let t := multiples width height t in
  t <- aspect width height t ;;
  t <- compression file_size width height t ;;
  let t := colours image t in
  Some (exif_data image t).

(** The probability before the jitter (main.py 271-276). *)
Definition ai_probability (t : tally) : option float :=
  let total_score := ai t + human t in
  if total_score =? 0 then Some 0.5%float
  else Py.truediv (ai t) total_score.

Section Handler.

(** Pillow: [Image.open], [verify], the second [Image.open] and
    [convert('RGB')] on the bytes; [inl msg] when one of them raises an
    exception that prints as [msg]. *)
Variable open_rgb : list Byte.byte -> string + PILImage.

(** [str(e)] for an [HTTPException], which depends on the framework's
    version. *)
Variable str_http : Z -> string -> string.

Definition str (e : raised) : string :=
  match e with
  | RaisedHTTP status_code detail => str_http status_code detail
  | RaisedByPIL message => message
  end.

Definition is_image_type (ct : option string) : bool :=
  match ct with
  | None => false
  | Some s => (Py.nonempty s && prefix "image/" s)%bool
  end.

(** The [try] body, main.py 185-198. *)
Definition load (file : UploadFile) : raised + PILImage :=
  if 5 * 1024 * 1024 <? Py.len_list (contents file)
  then inl (RaisedHTTP 400 too_large)
  else match open_rgb (contents file) with
       | inl message => inl (RaisedByPIL message)
       | inr image => inr image
       end.

Definition analyze_image (file : UploadFile) (jitter : float) : outcome :=
  if negb (is_image_type (content_type file)) then HTTPException 400 bad_type
  else
    match load file with
    | inl e => HTTPException 400 (bad_image ++ str e)
    | inr image =>
        let file_size := Py.len_list (contents file) in
        match scores file_size image with
        | None => Unhandled
        | Some t =>
            match ai_probability t with
            | None => Unhandled
            | Some ai_probability => respond ai_probability jitter 65 88
            end
        end
    end.

End Handler.

End Image.

(** ** Binary64 numbers as integers

    A finite binary64 number is an integer number of units of 2^-1074.
    The definitions below state, on such integers, what [SpecFloat]'s
    rounding computes. *)

Module Binary64.

Definition digits (n : Z) : Z := Z.log2 n + 1.

(** The record after [k + 1] one-bit shifts of an exact mantissa. *)
Definition shifted (m : Z) (k : nat) : shr_record :=
  {| shr_m := m / 2 ^ (Z.of_nat k + 1);
     shr_r := Z.odd (m / 2 ^ Z.of_nat k);
     shr_s := negb (m mod 2 ^ Z.of_nat k =? 0) |}.

(** [rne M n]: the integer nearest to [M / 2^n]. *)
Definition rne (M n : Z) : Z :=
  let q := M / 2 ^ n in
  let r2 := 2 * (M mod 2 ^ n) in
  if r2 <? 2 ^ n then q
  else if 2 ^ n <? r2 then q + 1
  else if Z.even q then q else q + 1.

Definition fexp64 : Z -> Z := fexp prec emax.

(** The float a positive mantissa and an exponent round to, once the
    exponent is at most the one of the format. *)
Definition rounded (s : bool) (m1 e1 : Z) : spec_float :=
  if m1 =? 0 then S754_zero s
  else if m1 <? 2 ^ 53 then S754_finite s (Z.to_pos m1) e1
  else S754_finite s (Z.to_pos (2 ^ 52)) (e1 + 1).

(** The value of a finite float, in units of 2^-1074. *)
Definition V (x : spec_float) : option Z :=
  match x with
  | S754_zero _ => Some 0
  | S754_finite s m e => Some (cond_Zopp s (Z.pos m * 2 ^ (e + 1074)))
  | S754_infinity _ | S754_nan => None
  end.

(** The value a non-negative integer number of units rounds to. *)
Definition RV (N : Z) : Z :=
  let n := Z.max (digits N - 53) 0 in rne N n * 2 ^ n.

(** The same on signed numbers. *)
Definition RVs (N : Z) : Z := if N <? 0 then - RV (- N) else RV N.

Definition hundred : spec_float := S754_finite false 7036874417766400 (-46).

Definition Vf (x : float) : option Z := V (Prim2SF x).

(** The value of a finite float, as a number of units of 2^-1074. *)
Definition units (x : float) : Z :=
  match Vf x with Some a => a | None => 0 end.

End Binary64.

(** ** The documented scoring, for comparison

    Section 4 of the specification, read signal by signal. Each signal
    is a function of the input alone and gives what it adds to the two
    tallies; the tallies are the sums. Numbers are computed the way the
    documented language computes them (binary64 quotients). *)

Module Spec.

(** *** Combine *)

Definition round_down (x : float) : Z :=
  match Py.int x with Some z => z | None => 0 end.

Definition probability (default : float) (t : tally) : float :=
  let total := ai t + human t in
  if total =? 0 then default else Py.quotient (ai t) total.

Definition response (p : float) (lo hi : Z) : AnalysisResponse :=
  if (0.5 <? p)%float then
    {| status := "ai-generated";
       confidence := Z.max lo (Z.min hi (round_down (p * 100))) |}
  else
    {| status := "real";
       confidence := Z.max lo (Z.min hi (round_down ((1 - p) * 100))) |}.

(** *** What a signal adds *)

Definition nothing : tally := {| ai := 0; human := 0 |}.
Definition to_ai (k : Z) : tally := {| ai := k; human := 0 |}.
Definition to_human (k : Z) : tally := {| ai := 0; human := k |}.

Definition plus (a b : tally) : tally :=
  {| ai := ai a + ai b; human := human a + human b |}.

Definition tallies (signals : list tally) : tally :=
  fold_left plus signals nothing.

(** *** 4.1 TextHeuristicScorer *)

Section Platform.

Variable pow : float -> float -> float.

(** "Split into sentences on ./!/? runs, discard empty fragments": the
    fragments are trimmed, one of blanks is empty. *)
Definition sentences (text : string) : list string :=
  filter Py.nonempty (map Py.strip (Py.re_split_sentences text)).

Definition word_count (sentence : string) : Z :=
  Py.len_list (Py.split sentence).

(** The variance of the word counts: the mean of the squared deviations
    from the mean, each square taken by [**], the sum taken from the
    left. *)
Definition variance (counts : list Z) : float :=
  let n := Py.len_list counts in
  let mean := Py.quotient (Py.sum counts) n in
  let squares := map (fun x => pow (Py.float_of_Z x - mean) 2) counts in
  (Py.fsum squares / Py.float_of_Z n)%float.

Definition text_1 (text : string) : tally :=
  if 3 <=? Py.len_list (sentences text) then
    if (variance (map word_count (sentences text)) <? 20)%float
    then to_ai 2 else to_human 1
  else nothing.

Definition transition_phrases : list string :=
  [ "furthermore"; "moreover"; "in addition"; "consequently"; "therefore";
    "subsequently"; "nevertheless"; "additionally"; "in conclusion";
    "it is important to note"; "it should be noted" ].

(** A case-insensitive substring match. *)
Definition occurs_in (text phrase : string) : bool :=
  Py.contains phrase (Py.lower text).

Definition text_2 (text : string) : tally :=
  if 2 <=? Py.len_list (filter (occurs_in text) transition_phrases)
  then to_ai 2 else nothing.

(** The two-word opener of a sentence that has two words. *)
Definition opener (sentence : string) : list string :=
  match Py.split sentence with
  | first :: second :: _ => [Py.lower (first ++ " " ++ second)]
  | _ => []
  end.

Definition openers (text : string) : list string :=
  flat_map opener (sentences text).

Definition times (x : string) (l : list string) : Z :=
  Z.of_nat (count_occ string_dec l x).

Definition text_3 (text : string) : tally :=
  if existsb (fun o => 3 <=? times o (openers text)) (openers text)
  then to_ai 2 else nothing.

Definition hedging_words : list string :=
  [ "may"; "might"; "could"; "possibly"; "perhaps"; "generally" ].

(** A word surrounded by single spaces. *)
Definition standalone (word : string) : string := " " ++ word ++ " ".

Definition text_4 (text : string) : tally :=
  if 3 <=? Py.sum (map (fun word => Py.count text (standalone word))
                       hedging_words)
  then to_ai 1 else nothing.

Definition first_person_markers : list string :=
  [ " i "; " my "; " me "; "i'm" ].

Definition text_5 (text : string) : tally :=
  let markers :=
    Py.sum (map (Py.count (Py.lower text)) first_person_markers) in
  if 2 <=? markers then to_human 2
  else if ((markers =? 0) && (200 <? Py.len text))%bool then to_ai 1
  else nothing.

Definition contraction_markers : list string :=
  [ "n't"; "'ll"; "'re"; "'ve"; "'d"; "'m"; "'s" ].

Definition text_6 (text : string) : tally :=
  let markers := Py.sum (map (Py.count text) contraction_markers) in
  if 2 <=? markers then to_human 2
  else if ((markers =? 0) && (150 <? Py.len text))%bool then to_ai 1
  else nothing.

Definition text_7 (text : string) : tally :=
  if 2 <=? Py.count text "!" + Py.count text "?"
  then to_human 1 else nothing.

Definition newline : string := String (ascii_of_N 10) EmptyString.

Definition text_8 (text : string) : tally :=
  if ((2 <=? Py.count text (newline ++ "-"))
      || (2 <=? Py.count text (newline ++ "*"))
      || (1 <=? Py.count text (newline ++ "1.")))%bool
  then to_ai 1 else nothing.

Definition text_9 (text : string) : tally :=
  if existsb (occurs_in text) [ " alot "; " there "; " their " ]
  then to_human 1 else nothing.

(** "Word tokens (alphanumeric runs)". *)
Definition alphanumeric_runs (text : string) : list string :=
  filter Py.nonempty (Py.pieces (fun c => negb (Py.isalnum c)) text).


(** Without a token there is no diversity and nothing is added. *)
Definition text_10 (tokens : list string) : tally :=
  if Py.len_list tokens =? 0 then nothing
  else
    let diversity := Py.quotient (Py.len_set tokens) (Py.len_list tokens) in
    if (0.7 <? diversity)%float then to_human 1
    else if (diversity <? 0.5)%float then to_ai 1
    else nothing.

(** The ten signals; [hedged] is the text signal 4 reads and [tokens]
    the tokens signal 10 counts. *)
Definition indicators_of (hedged : string) (tokens : list string)
  (text : string) : tally :=
  tallies [ text_1 text; text_2 text; text_3 text; text_4 hedged;
            text_5 text; text_6 text; text_7 text; text_8 text;
            text_9 text; text_10 tokens ].

(** As documented: signals 4 and 10 are not among those the
    specification notes as case-folded. *)
Definition indicators (text : string) : tally :=
  indicators_of text (alphanumeric_runs text) text.


End Platform.

(** *** 4.2 ImageHeuristicScorer *)

Definition generator_sizes : list (Z * Z) :=
  [ (512, 512); (1024, 1024); (768, 768); (1792, 1024); (1024, 1792);
    (1024, 576); (576, 1024) ].

Definition listed (width height : Z) : bool :=
  existsb (fun '(w, h) => (width =? w) && (height =? h))%bool
          generator_sizes.

Definition image_1 (width height : Z) : tally :=
  if (listed width height || listed height width)%bool
  then to_ai 3 else nothing.

Definition divisible (n d : Z) : bool := n mod d =? 0.

Definition image_2 (width height : Z) : tally :=
  if ((divisible width 128 && divisible height 128)
      || (divisible width 64 && divisible height 64))%bool
  then to_ai 2 else to_human 1.

Definition fixed_ratios : list float :=
  [ 1.0; 1.5; 0.67; 1.77; 0.56; 1.91 ]%float.

Definition image_3 (width height : Z) : tally :=
  let ratio := if 0 <? height then Py.quotient width height else 1%float in
  if existsb (fun fixed => (abs (ratio - fixed) <? 0.05)%float) fixed_ratios
  then to_ai 1 else nothing.

(** An image without pixels has no bytes-per-pixel. *)
Definition image_4 (file_size width height : Z) : tally :=
  if 0 <? width * height then
    let bytes_per_pixel := Py.quotient file_size (width * height) in
    if ((2.0 <=? bytes_per_pixel) && (bytes_per_pixel <=? 4.0))%float%bool
    then to_ai 1 else nothing
  else nothing.

(** [extrema] is [None] when the extraction fails. *)
Definition image_5 (extrema : option (list (Z * Z))) : tally :=
  match extrema with
  | None => nothing
  | Some channels =>
      let average_range :=
        Py.quotient (Py.sum (map (fun '(lo, hi) => hi - lo) channels)) 3 in
      plus
        (if (200 <? average_range)%float then to_ai 2
         else if (average_range <? 150)%float then to_human 1
         else nothing)
        (if existsb (fun '(lo, hi) => (lo =? 0) || (hi =? 255))%bool channels
         then to_ai 1 else nothing)
  end.

(** [tags] is [None] when the metadata cannot be read. *)
Definition image_6 (tags : option (list Z)) : tally :=
  match tags with
  | None => to_ai 1
  | Some tags => if 5 <? Py.len_list tags then to_human 3 else to_ai 2
  end.

Definition scores (file_size width height : Z)
  (extrema : option (list (Z * Z))) (tags : option (list Z)) : tally :=
  tallies [ image_1 width height; image_2 width height;
            image_3 width height; image_4 file_size width height;
            image_5 extrema; image_6 tags ].

End Spec.

(** ** Inputs used below *)

Module Inputs.

(** Fifty times ["test"], separated by single spaces. *)
Definition fifty_tests : string := Py.join " " (repeat "test" 50).

(** Fifty underscores and fifty hyphens: punctuation only. *)
Definition underscores : string := Py.join "" (repeat "_" 50).
Definition hyphens : string := Py.join "" (repeat "-" 50).

(** [all(P(c) for c in s)] *)
Fixpoint all_chars (P : ascii -> bool) (s : string) : bool :=
  match s with
  | EmptyString => true
  | String c r => (P c && all_chars P r)%bool
  end.

(** A C library whose [pow] gives a square (the only power the handler
    takes) as the product rounded once. *)
Definition pow (x y : float) : float := (x * x)%float.

(** A 512 x 512 image of one gray level, without metadata. *)
Definition gray512 : Image.PILImage :=
  {| Image.size := (512, 512);
     Image.getextrema := Some [(128, 128); (128, 128); (128, 128)];
     Image.getexif := Some [] |}.

Definition png (contents : list Byte.byte) : Image.UploadFile :=
  {| Image.content_type := Some "image/png"; Image.contents := contents |}.

(** The 1789 bytes of a file holding that image (their values play no
    part), and one byte more than 5 MiB. *)
Definition gray_bytes : list Byte.byte := repeat Byte.x00 1789.
Definition oversized : list Byte.byte :=
  repeat Byte.x00 (Z.to_nat (5 * 1024 * 1024 + 1)).

(** A decoder that knows one file, and the printing of an
    [HTTPException] as "status: detail". *)
Definition pillow (contents : list Byte.byte) : string + Image.PILImage :=
  if Py.len_list contents =? 1789 then inr gray512
  else inl "cannot identify image file".
Definition str_status_detail (status_code : Z) (detail : string) : string :=
  (if status_code =? 400 then "400" else "500") ++ ": " ++ detail.

End Inputs.

(** ** More inputs *)

Module Samples.

(** Thirteen times "wow" and two exclamation marks: one signal on each
    side. *)
Definition wows : string := Py.join " " (repeat "wow" 13) ++ "!!".

(** Sixty spaces. *)
Definition blank : string := Py.join "" (repeat " " 60).


(** Three times "May", capitalised. *)
Definition hedged : string :=
  "It May be so and he May go and she May do that now ok".


(** A photograph of 1920 x 1280 pixels whose metadata was removed, and a
    thumbnail of 100 x 100 pixels with full contrast and six tags. *)
Definition stripped_photo : Image.PILImage :=
  {| Image.size := (1920, 1280);
     Image.getextrema := Some [(12, 240); (9, 231); (15, 244)];
     Image.getexif := Some [] |}.

Definition thumbnail : Image.PILImage :=
  {| Image.size := (100, 100);
     Image.getextrema := Some [(0, 255); (0, 255); (0, 255)];
     Image.getexif := Some [271; 272; 274; 282; 283; 306] |}.

(** A snapshot of 100 x 130 pixels with little contrast and six tags. *)
Definition snapshot : Image.PILImage :=
  {| Image.size := (100, 130);
     Image.getextrema := Some [(60, 180); (62, 171); (58, 175)];
     Image.getexif := Some [271; 272; 274; 282; 283; 306] |}.

(** A decoder that reads a file of 1789 bytes as the given image and
    nothing else. *)
Definition decoder (image : Image.PILImage) (contents : list Byte.byte)
  : string + Image.PILImage :=
  if Py.len_list contents =? 1789 then inr image
  else inl "cannot identify image file".

End Samples.

(** ** The confidence as an integer function

    [int(x * 100)] and the whole end of the handlers, computed on the
    number of units of 2^-1074 of the floats involved. *)

Module Percent.

(** The value a non-negative number of units of 2^-1120 rounds to: the
    format cannot represent less than 2^46 such units. *)
Definition RVg (N : Z) : Z :=
  let n := Z.max (Binary64.digits N - 53) 46 in Binary64.rne N n * 2 ^ n.

(** [int(x * 100)] for a float [x] of [v] units; 7036874417766400 * 2^-46
    is 100. *)
Definition percent (v : Z) : Z := RVg (v * 7036874417766400) / 2 ^ 1120.

(** The probability after the jitter and the clamp, in units. *)
Definition clamped (vp vj : Z) : Z :=
  Z.max 0 (Z.min (2 ^ 1074) (Binary64.RVs (vp + vj))).

(** The response of [respond] to a probability of [vp] units and a
    jitter of [vj] units. *)
Definition response (vp vj lo hi : Z) : AnalysisResponse :=
  let vc := clamped vp vj in
  if 2 ^ 1073 <? vc then
    {| status := "ai-generated";
       confidence := Z.max lo (Z.min hi (percent vc)) |}
  else
    {| status := "real";
       confidence :=
         Z.max lo (Z.min hi (percent (Binary64.RVs (2 ^ 1074 - vc)))) |}.

End Percent.

(** * Properties *)

(** ** Binary64 arithmetic *)

Module Binary64Facts.
Import Binary64.

(** *** Digits *)

Lemma digits2_pos_log2 (p : positive) :
  Z.pos (digits2_pos p) = digits (Z.pos p).
Proof.
  unfold digits.
  induction p as [p IH | p IH | ]; simpl digits2_pos; try reflexivity;
    rewrite Pos2Z.inj_succ, IH.
  - change (Z.pos p~1) with (2 * Z.pos p + 1).
    rewrite Z.log2_succ_double by lia. lia.
  - change (Z.pos p~0) with (2 * Z.pos p).
    rewrite Z.log2_double by lia. lia.
Qed.

Lemma digits_bounds (n : Z) :
  0 < n -> 2 ^ (digits n - 1) <= n < 2 ^ digits n.
Proof.
  intros H. unfold digits.
  replace (Z.log2 n + 1 - 1) with (Z.log2 n) by lia.
  replace (Z.log2 n + 1) with (Z.succ (Z.log2 n)) by lia.
  apply Z.log2_spec; assumption.
Qed.

Lemma digits_unique (n d : Z) :
  2 ^ (d - 1) <= n < 2 ^ d -> 1 <= d -> digits n = d.
Proof.
  intros H Hd. unfold digits.
  rewrite (Z.log2_unique n (d - 1)); try lia.
  replace (Z.succ (d - 1)) with d by lia. exact H.
Qed.

Lemma digits_pos (n : Z) : 0 < n -> 1 <= digits n.
Proof. intros H. unfold digits. pose proof (Z.log2_nonneg n). lia. Qed.

Lemma digits_le_of_lt (n k : Z) : 0 < n -> n < 2 ^ k -> digits n <= k.
Proof.
  intros Hn H. unfold digits.
  assert (Z.log2 n < k) by (apply Z.log2_lt_pow2; assumption). lia.
Qed.

Lemma digits_ge_of_le (n k : Z) : 0 <= k -> 2 ^ k <= n -> k + 1 <= digits n.
Proof.
  intros Hk H. unfold digits.
  assert (0 < n) by (pose proof (Z.pow_pos_nonneg 2 k); lia).
  assert (k <= Z.log2 n) by (apply Z.log2_le_pow2; assumption). lia.
Qed.

Lemma digits_mono (a b : Z) : 0 < a -> a <= b -> digits a <= digits b.
Proof.
  intros Ha H. unfold digits. pose proof (Z.log2_le_mono a b H). lia.
Qed.

Lemma digits_mul_pow2 (n k : Z) :
  0 < n -> 0 <= k -> digits (n * 2 ^ k) = digits n + k.
Proof.
  intros Hn Hk. unfold digits. rewrite Z.log2_mul_pow2 by lia. lia.
Qed.

(** *** Shifting a mantissa to the right *)

Lemma iter_pos_nat {A : Type} (f : A -> A) (p : positive) (x : A) :
  iter_pos f p x = Nat.iter (Pos.to_nat p) f x.
Proof.
  revert x. induction p as [p IH | p IH | ]; intros x; simpl iter_pos.
  - rewrite !IH, Pos2Nat.inj_xI.
    replace (S (2 * Pos.to_nat p))%nat
      with (Pos.to_nat p + (Pos.to_nat p + 1))%nat by lia.
    rewrite !Nat.iter_add. reflexivity.
  - rewrite !IH, Pos2Nat.inj_xO.
    replace (2 * Pos.to_nat p)%nat
      with (Pos.to_nat p + Pos.to_nat p)%nat by lia.
    rewrite Nat.iter_add. reflexivity.
  - reflexivity.
Qed.

Lemma shr_1_spec (m : Z) (r s : bool) :
  0 <= m ->
  shr_1 {| shr_m := m; shr_r := r; shr_s := s |}
  = {| shr_m := m / 2; shr_r := Z.odd m; shr_s := r || s |}.
Proof.
  intros Hm. rewrite <- Z.div2_div.
  destruct m as [ | [p | p | ] | p]; try reflexivity; lia.
Qed.

Lemma sticky_step (m k : Z) :
  0 <= m -> 0 <= k ->
  Z.odd (m / 2 ^ k) || negb (m mod 2 ^ k =? 0)
  = negb (m mod 2 ^ (k + 1) =? 0).
Proof.
  intros Hm Hk.
  assert (Hp : 0 < 2 ^ k) by (apply Z.pow_pos_nonneg; lia).
  rewrite Z.pow_add_r, Z.pow_1_r by lia.
  rewrite Z.rem_mul_r by lia.
  pose proof (Z.mod_pos_bound m (2 ^ k) Hp) as Hr.
  pose proof (Z.mod_pos_bound (m / 2 ^ k) 2 ltac:(lia)) as Hb.
  rewrite (Zodd_mod (m / 2 ^ k)).
  destruct (Z.eqb_spec ((m / 2 ^ k) mod 2) 1) as [E1 | E1];
    destruct (Z.eqb_spec (m mod 2 ^ k) 0) as [E2 | E2];
    destruct (Z.eqb_spec (m mod 2 ^ k + 2 ^ k * ((m / 2 ^ k) mod 2)) 0)
      as [E3 | E3]; simpl; try reflexivity; exfalso; nia.
Qed.

Lemma iter_shr_1 (m : Z) (k : nat) :
  0 <= m ->
  Nat.iter (S k) shr_1 {| shr_m := m; shr_r := false; shr_s := false |}
  = shifted m k.
Proof.
  intros Hm. induction k as [ | k IH].
  - change (Nat.iter 1 shr_1 ?x) with (shr_1 x).
    rewrite shr_1_spec by assumption. unfold shifted.
    simpl Z.of_nat. rewrite Z.pow_0_r, Z.div_1_r, Z.mod_1_r. reflexivity.
  - change (Nat.iter (S (S k)) shr_1 ?x) with (shr_1 (Nat.iter (S k) shr_1 x)).
    rewrite IH. unfold shifted.
    assert (Hp : 0 < 2 ^ (Z.of_nat k + 1)) by (apply Z.pow_pos_nonneg; lia).
    rewrite shr_1_spec by (apply Z.div_pos; lia).
    rewrite sticky_step by lia.
    rewrite Z.div_div by lia.
    replace (Z.of_nat (S k)) with (Z.of_nat k + 1) by lia.
    replace (2 ^ (Z.of_nat k + 1) * 2) with (2 ^ (Z.of_nat k + 1 + 1))
      by (rewrite (Z.pow_add_r 2 (Z.of_nat k + 1) 1), Z.pow_1_r; lia).
    reflexivity.
Qed.

(** *** Rounding to nearest, ties to even, on integers *)

Ltac rne_cases :=
  unfold rne;
  repeat match goal with
         | |- context [Z.ltb ?a ?b] => destruct (Z.ltb_spec a b)
         | |- context [Z.even ?a] => destruct (Z.even a) eqn:?
         end.

Lemma rne_0_r (M : Z) : rne M 0 = M.
Proof.
  unfold rne. rewrite Z.pow_0_r, Z.mod_1_r, Z.div_1_r. reflexivity.
Qed.

Lemma rne_shifted (M : Z) (k : nat) :
  0 <= M ->
  round_nearest_even (shr_m (shifted M k)) (loc_of_shr_record (shifted M k))
  = rne M (Z.of_nat k + 1).
Proof.
  intros HM. unfold shifted, rne.
  set (n := Z.of_nat k).
  assert (Hn : 0 <= n) by lia.
  assert (Hp : 0 < 2 ^ n) by (apply Z.pow_pos_nonneg; lia).
  rewrite (Z.pow_add_r 2 n 1), Z.pow_1_r by lia.
  rewrite (Z.rem_mul_r M (2 ^ n) 2) by lia.
  pose proof (Z.mod_pos_bound M (2 ^ n) Hp) as Hr.
  pose proof (Z.mod_pos_bound (M / 2 ^ n) 2 ltac:(lia)) as Hb.
  rewrite (Zodd_mod (M / 2 ^ n)).
  destruct (Z.eqb_spec ((M / 2 ^ n) mod 2) 1) as [E1 | E1];
    destruct (Z.eqb_spec (M mod 2 ^ n) 0) as [E2 | E2];
    cbv beta iota delta [loc_of_shr_record round_nearest_even shr_m negb];
    repeat match goal with
           | |- context [Z.ltb ?a ?b] => destruct (Z.ltb_spec a b)
           end; try reflexivity; exfalso; nia.
Qed.

Lemma pow2_pos (n : Z) : 0 <= n -> 0 < 2 ^ n.
Proof. intros H. apply Z.pow_pos_nonneg; lia. Qed.

Section RneFacts.
Variable n : Z.
Hypothesis Hn : 0 <= n.

Lemma rne_between (M : Z) : M / 2 ^ n <= rne M n <= M / 2 ^ n + 1.
Proof.
  pose proof (pow2_pos n Hn) as pow_pos.
  rne_cases; lia.
Qed.

Lemma rne_mono (M1 M2 : Z) : M1 <= M2 -> rne M1 n <= rne M2 n.
Proof.
  pose proof (pow2_pos n Hn) as pow_pos.
  intros H.
  pose proof (Z.div_mod M1 (2 ^ n) ltac:(lia)) as D1.
  pose proof (Z.div_mod M2 (2 ^ n) ltac:(lia)) as D2.
  pose proof (Z.mod_pos_bound M1 (2 ^ n) pow_pos) as R1.
  pose proof (Z.mod_pos_bound M2 (2 ^ n) pow_pos) as R2.
  assert (Hq : M1 / 2 ^ n <= M2 / 2 ^ n) by (apply Z.div_le_mono; lia).
  assert (Hq' : M1 / 2 ^ n = M2 / 2 ^ n \/ M1 / 2 ^ n + 1 <= M2 / 2 ^ n) by lia.
  unfold rne.
  destruct Hq' as [Hq' | Hq'].
  - rewrite <- Hq' in *.
    repeat match goal with
           | |- context [Z.ltb ?a ?b] => destruct (Z.ltb_spec a b)
           | |- context [Z.even ?a] => destruct (Z.even a)
           end; lia.
  - repeat match goal with
           | |- context [Z.ltb ?a ?b] => destruct (Z.ltb_spec a b)
           | |- context [Z.even ?a] => destruct (Z.even a)
           end; lia.
Qed.

Lemma rne_scale (M d : Z) : 0 <= d -> rne (M * 2 ^ d) (n + d) = rne M n.
Proof.
  pose proof (pow2_pos n Hn) as pow_pos.
  intros Hd.
  assert (Hp : 0 < 2 ^ d) by (apply Z.pow_pos_nonneg; lia).
  unfold rne.
  rewrite Z.pow_add_r by lia.
  rewrite Z.div_mul_cancel_r by lia.
  rewrite Z.mul_mod_distr_r by lia.
  pose proof (Z.mod_pos_bound M (2 ^ n) pow_pos) as R.
  repeat match goal with
         | |- context [Z.ltb ?a ?b] => destruct (Z.ltb_spec a b)
         end; try reflexivity; exfalso; nia.
Qed.

Lemma rne_le_pow (M j : Z) : 0 <= j -> M < 2 ^ (n + j) -> rne M n <= 2 ^ j.
Proof.
  pose proof (pow2_pos n Hn) as pow_pos.
  intros Hj H. rewrite Z.pow_add_r in H by lia.
  assert (M / 2 ^ n < 2 ^ j) by (apply Z.div_lt_upper_bound; lia).
  pose proof (rne_between M). lia.
Qed.

Lemma rne_ge_pow (M j : Z) : 0 <= j -> 2 ^ (n + j) <= M -> 2 ^ j <= rne M n.
Proof.
  pose proof (pow2_pos n Hn) as pow_pos.
  intros Hj H. rewrite Z.pow_add_r in H by lia.
  assert (2 ^ j <= M / 2 ^ n) by (apply Z.div_le_lower_bound; lia).
  pose proof (rne_between M). lia.
Qed.

Lemma rne_nonneg (M : Z) : 0 <= M -> 0 <= rne M n.
Proof.
  pose proof (pow2_pos n Hn) as pow_pos.
  intros H. pose proof (rne_between M).
  assert (0 <= M / 2 ^ n) by (apply Z.div_pos; lia). lia.
Qed.

End RneFacts.

(** *** The rounding of [SpecFloat] in terms of [rne] *)

Lemma fexp64_eq (k : Z) : fexp64 k = Z.max (k - 53) (-1074).
Proof. reflexivity. Qed.

Lemma Zdigits2_pos (M : Z) : 0 < M -> Zdigits2 M = digits M.
Proof.
  intros H. destruct M as [ | p | p]; try lia.
  simpl Zdigits2. apply digits2_pos_log2.
Qed.

Lemma shr_exact (M E n : Z) :
  0 <= M -> 0 <= n ->
  let '(mrs, e) := shr {| shr_m := M; shr_r := false; shr_s := false |} E n in
  round_nearest_even (shr_m mrs) (loc_of_shr_record mrs) = rne M n
  /\ e = E + n.
Proof.
  intros HM Hn. destruct n as [ | p | p]; try lia.
  - simpl. rewrite rne_0_r. split; [reflexivity | lia].
  - unfold shr. rewrite iter_pos_nat.
    destruct (Pos2Nat.is_succ p) as [k Hk]. rewrite Hk.
    rewrite iter_shr_1 by assumption. rewrite rne_shifted by assumption.
    replace (Z.of_nat k + 1) with (Z.pos p) by lia. split; reflexivity.
Qed.

Lemma shr_fexp_small (m e : Z) :
  0 <= m < 2 ^ 53 -> -1074 <= e ->
  shr_fexp prec emax m e loc_Exact
  = ({| shr_m := m; shr_r := false; shr_s := false |}, e).
Proof.
  intros Hm He. unfold shr_fexp. rewrite fexp64_eq.
  assert (Hd : Zdigits2 m <= 53).
  { destruct (Z.eq_dec m 0) as [-> | Hz]; [simpl; lia | ].
    rewrite Zdigits2_pos by lia. apply digits_le_of_lt; lia. }
  simpl shr_record_of_loc. unfold shr.
  destruct (Z.max (Zdigits2 m + e - 53) (-1074) - e) eqn:E; try reflexivity.
  lia.
Qed.

Lemma shr_fexp_carry (e : Z) :
  -1074 <= e ->
  shr_fexp prec emax (2 ^ 53) e loc_Exact
  = ({| shr_m := 2 ^ 52; shr_r := false; shr_s := false |}, e + 1).
Proof.
  intros He. unfold shr_fexp. rewrite fexp64_eq.
  change (Zdigits2 (2 ^ 53)) with 54.
  replace (Z.max (54 + e - 53) (-1074) - e) with 1 by lia.
  reflexivity.
Qed.

Lemma binary_round_aux_spec (s : bool) (M E : Z) :
  0 < M ->
  E <= fexp64 (digits M + E) ->
  fexp64 (digits M + E) + 1 <= 971 ->
  binary_round_aux prec emax s M E loc_Exact
  = rounded s (rne M (fexp64 (digits M + E) - E)) (fexp64 (digits M + E)).
Proof.
  intros HM HE Hmax.
  set (e1 := fexp64 (digits M + E)) in *.
  assert (He1 : digits M + E - 53 <= e1 /\ -1074 <= e1)
    by (unfold e1; rewrite fexp64_eq; lia).
  set (n := e1 - E).
  set (m1 := rne M n).
  assert (Hm1 : 0 <= m1 <= 2 ^ 53).
  { split; [apply rne_nonneg; lia | ].
    pose proof (digits_bounds M HM) as [_ Hlt].
    pose proof (digits_pos M HM).
    destruct (Z_le_gt_dec n (digits M)) as [Hle | Hgt].
    - transitivity (2 ^ (digits M - n)).
      + apply rne_le_pow; try lia.
        replace (n + (digits M - n)) with (digits M) by lia. exact Hlt.
      + apply Z.pow_le_mono_r; lia.
    - transitivity (2 ^ 0); [ | simpl; lia].
      apply rne_le_pow; try lia. rewrite Z.add_0_r.
      eapply Z.lt_le_trans; [exact Hlt | apply Z.pow_le_mono_r; lia]. }
  unfold binary_round_aux.
  unfold shr_fexp at 1. rewrite (Zdigits2_pos M HM). simpl shr_record_of_loc.
  change (fexp prec emax (digits M + E) - E) with n.
  pose proof (shr_exact M E n ltac:(lia) ltac:(lia)) as Hshr.
  destruct (shr {| shr_m := M; shr_r := false; shr_s := false |} E n)
    as [mrs e'].
  cbv beta iota. destruct Hshr as [-> ->]. fold m1.
  replace (E + n) with e1 by lia.
  unfold rounded.
  destruct (Z.eqb_spec m1 0) as [Hz | Hz].
  - rewrite Hz. rewrite shr_fexp_small by lia. reflexivity.
  - destruct (Z.ltb_spec m1 (2 ^ 53)) as [Hlt | Hge].
    + rewrite shr_fexp_small by lia. simpl shr_m.
      destruct m1 as [ | p | p]; try lia.
      replace (e1 <=? emax - prec) with true
        by (symmetry; apply Z.leb_le; change (emax - prec) with 971; lia).
      reflexivity.
    + replace m1 with (2 ^ 53) by lia.
      rewrite shr_fexp_carry by lia. simpl shr_m.
      replace (e1 + 1 <=? emax - prec) with true
        by (symmetry; apply Z.leb_le; change (emax - prec) with 971; lia).
      reflexivity.
Qed.

(** *** Values *)

Lemma V_rounded (s : bool) (m1 e1 : Z) :
  0 <= m1 <= 2 ^ 53 -> -1074 <= e1 ->
  V (rounded s m1 e1) = Some (cond_Zopp s (m1 * 2 ^ (e1 + 1074))).
Proof.
  intros Hm He. unfold rounded.
  destruct (Z.eqb_spec m1 0) as [-> | Hz]; [destruct s; reflexivity | ].
  destruct (Z.ltb_spec m1 (2 ^ 53)) as [Hlt | Hge]; unfold V.
  - rewrite Z2Pos.id by lia. reflexivity.
  - replace m1 with (2 ^ 53) by lia.
    rewrite Z2Pos.id by (simpl; lia).
    replace (e1 + 1 + 1074) with ((e1 + 1074) + 1) by lia.
    rewrite Z.pow_add_r by lia.
    do 2 f_equal. change (2 ^ 53) with (2 ^ 52 * 2 ^ 1). ring.
Qed.

Lemma iter_xO (m d : positive) :
  Z.pos (Pos.iter xO m d) = Z.pos m * 2 ^ Z.pos d.
Proof.
  induction d as [ | d IH] using Pos.peano_ind.
  - simpl. lia.
  - rewrite Pos.iter_succ, Pos2Z.inj_xO, IH, Pos2Z.inj_succ, Z.pow_succ_r by lia.
    ring.
Qed.

Lemma shl_align_spec (m : positive) (e e' : Z) :
  shl_align m e e'
  = if e' <? e then (Z.to_pos (Z.pos m * 2 ^ (e - e')), e') else (m, e).
Proof.
  unfold shl_align.
  destruct (Z.ltb_spec e' e) as [H | H].
  - destruct (e' - e) as [ | d | d] eqn:E; try lia.
    replace (e - e') with (Z.pos d) by lia.
    rewrite <- iter_xO. reflexivity.
  - destruct (e' - e) as [ | d | d] eqn:E; try lia; reflexivity.
Qed.

Lemma binary_round_V (s : bool) (m : positive) (e : Z) :
  -1074 <= e -> digits (Z.pos m) + e <= 1023 ->
  V (binary_round prec emax s m e)
  = Some (cond_Zopp s (RV (Z.pos m * 2 ^ (e + 1074)))).
Proof.
  intros He Hk. unfold binary_round.
  rewrite digits2_pos_log2, shl_align_spec.
  change (fexp prec emax) with fexp64.
  set (e1 := fexp64 (digits (Z.pos m) + e)).
  assert (He1 : e1 = Z.max (digits (Z.pos m) + e - 53) (-1074))
    by apply fexp64_eq.
  pose proof (digits_pos (Z.pos m) ltac:(lia)) as Hd.
  assert (HRV : forall M' e',
             0 < M' -> -1074 <= e' <= e1 ->
             M' * 2 ^ (e' + 1074) = Z.pos m * 2 ^ (e + 1074) ->
             RV (Z.pos m * 2 ^ (e + 1074))
             = rne M' (e1 - e') * 2 ^ (e1 + 1074)).
  { intros M' e' HM' He' Heq. unfold RV.
    rewrite digits_mul_pow2 by lia.
    replace (Z.max (digits (Z.pos m) + (e + 1074) - 53) 0) with (e1 + 1074)
      by lia.
    rewrite <- Heq.
    replace (e1 + 1074) with ((e1 - e') + (e' + 1074)) at 1 by lia.
    rewrite rne_scale by lia. reflexivity. }
  assert (Hround : forall M' e',
             0 < M' -> -1074 <= e' <= e1 ->
             digits M' + e' = digits (Z.pos m) + e ->
             M' * 2 ^ (e' + 1074) = Z.pos m * 2 ^ (e + 1074) ->
             V (binary_round_aux prec emax s M' e' loc_Exact)
             = Some (cond_Zopp s (RV (Z.pos m * 2 ^ (e + 1074))))).
  { intros M' e' HM' He' Hdig Heq.
    rewrite binary_round_aux_spec; rewrite ?Hdig; fold e1; try lia.
    rewrite V_rounded; try lia.
    - rewrite (HRV M' e') by assumption. reflexivity.
    - split; [apply rne_nonneg; lia | ].
      pose proof (digits_bounds M' HM') as [_ Hlt].
      pose proof (digits_pos M' HM').
      destruct (Z_le_gt_dec (e1 - e') (digits M')) as [Hle | Hgt].
      + transitivity (2 ^ (digits M' - (e1 - e'))).
        * apply rne_le_pow; try lia.
          replace (e1 - e' + (digits M' - (e1 - e'))) with (digits M') by lia.
          exact Hlt.
        * apply Z.pow_le_mono_r; lia.
      + exfalso. lia. }
  destruct (Z.ltb_spec e1 e) as [Hlt | Hge].
  - assert (Hpos : 0 < Z.pos m * 2 ^ (e - e1))
      by (pose proof (Z.pow_pos_nonneg 2 (e - e1)); nia).
    apply Hround; rewrite ?Z2Pos.id by assumption; try lia.
    + rewrite digits_mul_pow2 by lia. lia.
    + rewrite <- Z.mul_assoc, <- Z.pow_add_r by lia.
      do 2 f_equal. lia.
  - apply Hround; lia.
Qed.

(** *** Rounding is monotone and leaves the format's numbers alone *)

Lemma RV_0 : RV 0 = 0.
Proof. reflexivity. Qed.

Lemma RV_nonneg (N : Z) : 0 <= N -> 0 <= RV N.
Proof.
  intros H. unfold RV.
  set (n := Z.max (digits N - 53) 0).
  pose proof (rne_nonneg n ltac:(lia) N H).
  pose proof (Z.pow_pos_nonneg 2 n ltac:(lia) ltac:(lia)). nia.
Qed.

Lemma RV_mono (N1 N2 : Z) : 0 <= N1 <= N2 -> RV N1 <= RV N2.
Proof.
  intros [H1 H12].
  destruct (Z.eq_dec N1 0) as [-> | Hz].
  { rewrite RV_0. apply RV_nonneg. lia. }
  assert (HN1 : 0 < N1) by lia. assert (HN2 : 0 < N2) by lia.
  pose proof (digits_mono N1 N2 HN1 H12) as Hd.
  pose proof (digits_pos N1 HN1) as Hd1.
  pose proof (digits_bounds N1 HN1) as [_ Hu1].
  pose proof (digits_bounds N2 HN2) as [Hl2 _].
  unfold RV.
  set (n1 := Z.max (digits N1 - 53) 0).
  set (n2 := Z.max (digits N2 - 53) 0).
  assert (Hp1 : 0 < 2 ^ n1) by (apply Z.pow_pos_nonneg; lia).
  assert (Hp2 : 0 < 2 ^ n2) by (apply Z.pow_pos_nonneg; lia).
  destruct (Z.eq_dec n1 n2) as [E | E].
  - rewrite <- E. pose proof (rne_mono n1 ltac:(lia) N1 N2 H12). nia.
  - assert (Hlow : 2 ^ 52 <= rne N2 n2).
    { apply rne_ge_pow; try lia.
      replace (n2 + 52) with (digits N2 - 1) by lia. exact Hl2. }
    assert (Hup : rne N1 n1 <= 2 ^ (digits N1 - n1)).
    { apply rne_le_pow; try lia.
      replace (n1 + (digits N1 - n1)) with (digits N1) by lia. exact Hu1. }
    transitivity (2 ^ (digits N1 - n1) * 2 ^ n1); [nia | ].
    transitivity (2 ^ 52 * 2 ^ n2); [ | nia].
    rewrite <- !Z.pow_add_r by lia.
    apply Z.pow_le_mono_r; lia.
Qed.

Lemma RVs_opp (N : Z) : RVs (- N) = - RVs N.
Proof.
  unfold RVs.
  destruct (Z.ltb_spec (- N) 0), (Z.ltb_spec N 0);
    rewrite ?Z.opp_involutive; try lia.
  replace N with 0 by lia. reflexivity.
Qed.

Lemma RVs_mono (N1 N2 : Z) : N1 <= N2 -> RVs N1 <= RVs N2.
Proof.
  intros H. unfold RVs.
  destruct (Z.ltb_spec N1 0), (Z.ltb_spec N2 0); try lia.
  - pose proof (RV_mono (- N2) (- N1)). lia.
  - pose proof (RV_nonneg (- N1)). pose proof (RV_nonneg N2). lia.
  - apply RV_mono. lia.
Qed.

Lemma valid_finite (s : bool) (m : positive) (e : Z) :
  valid_binary (S754_finite s m e) = true ->
  Z.max (digits (Z.pos m) + e - 53) (-1074) = e /\ e <= 971.
Proof.
  unfold valid_binary, bounded, canonical_mantissa. intros H.
  apply andb_prop in H. destruct H as [H1 H2].
  apply Z.eqb_eq in H1. apply Z.leb_le in H2.
  rewrite digits2_pos_log2 in H1.
  change (fexp prec emax) with fexp64 in H1. rewrite fexp64_eq in H1.
  change (emax - prec) with 971 in H2. split; assumption.
Qed.

Lemma RV_repr (m : positive) (e : Z) :
  Z.max (digits (Z.pos m) + e - 53) (-1074) = e ->
  RV (Z.pos m * 2 ^ (e + 1074)) = Z.pos m * 2 ^ (e + 1074).
Proof.
  intros H. unfold RV.
  rewrite digits_mul_pow2 by lia.
  replace (Z.max (digits (Z.pos m) + (e + 1074) - 53) 0) with (0 + (e + 1074))
    by lia.
  rewrite rne_scale by lia. rewrite rne_0_r. rewrite Z.add_0_l. reflexivity.
Qed.

Lemma RVs_repr (x : spec_float) (a : Z) :
  valid_binary x = true -> V x = Some a -> RVs a = a.
Proof.
  intros Hv Ha. destruct x as [s | s | | s m e]; try discriminate.
  - injection Ha as <-. reflexivity.
  - apply valid_finite in Hv. destruct Hv as [Hc _].
    pose proof (RV_repr m e Hc) as HR.
    assert (0 < Z.pos m * 2 ^ (e + 1074))
      by (pose proof (Z.pow_pos_nonneg 2 (e + 1074)); nia).
    unfold V in Ha. set (X := Z.pos m * 2 ^ (e + 1074)) in *.
    injection Ha as <-.
    destruct s; unfold cond_Zopp.
    + rewrite RVs_opp. unfold RVs.
      destruct (Z.ltb_spec X 0); lia.
    + unfold RVs.
      destruct (Z.ltb_spec X 0); lia.
Qed.

(** *** Comparison *)

Lemma canonical_lt (m1 m2 : positive) (e1 e2 : Z) :
  Z.max (digits (Z.pos m1) + e1 - 53) (-1074) = e1 ->
  Z.max (digits (Z.pos m2) + e2 - 53) (-1074) = e2 ->
  e1 < e2 ->
  Z.pos m1 * 2 ^ (e1 + 1074) < Z.pos m2 * 2 ^ (e2 + 1074).
Proof.
  intros H1 H2 H.
  pose proof (digits_bounds (Z.pos m1) ltac:(lia)) as [_ U1].
  pose proof (digits_bounds (Z.pos m2) ltac:(lia)) as [L2 _].
  assert (D1 : digits (Z.pos m1) <= 53) by lia.
  assert (D2 : digits (Z.pos m2) = 53) by lia.
  rewrite D2 in L2. change (53 - 1) with 52 in L2.
  assert (U1' : Z.pos m1 < 2 ^ 53).
  { eapply Z.lt_le_trans; [exact U1 | apply Z.pow_le_mono_r; lia]. }
  assert (P1 : 0 < 2 ^ (e1 + 1074)) by (apply Z.pow_pos_nonneg; lia).
  assert (P2 : 2 * 2 ^ (e1 + 1074) <= 2 ^ (e2 + 1074)).
  { rewrite <- Z.pow_succ_r by lia. apply Z.pow_le_mono_r; lia. }
  change (2 ^ 53) with (2 * 2 ^ 52) in U1'. nia.
Qed.

Lemma compare_V (x y : spec_float) (a b : Z) :
  valid_binary x = true -> valid_binary y = true ->
  V x = Some a -> V y = Some b ->
  SFcompare x y = Some (a ?= b).
Proof.
  intros Hx Hy Ha Hb.
  destruct x as [sx | sx | | sx mx ex]; try discriminate;
    destruct y as [sy | sy | | sy my ey]; try discriminate;
    try (apply valid_finite in Hx; destruct Hx as [Cx _];
         assert (Px : 0 < Z.pos mx * 2 ^ (ex + 1074))
           by (pose proof (Z.pow_pos_nonneg 2 (ex + 1074)); nia));
    try (apply valid_finite in Hy; destruct Hy as [Cy _];
         assert (Py : 0 < Z.pos my * 2 ^ (ey + 1074))
           by (pose proof (Z.pow_pos_nonneg 2 (ey + 1074)); nia));
    unfold V in Ha, Hb.
  - injection Ha as <-; injection Hb as <-. reflexivity.
  - set (Y := Z.pos my * 2 ^ (ey + 1074)) in *.
    injection Ha as <-; injection Hb as <-.
    unfold SFcompare. f_equal.
    destruct sy; unfold cond_Zopp; symmetry;
      [apply Z.compare_gt_iff | apply Z.compare_lt_iff]; lia.
  - set (X := Z.pos mx * 2 ^ (ex + 1074)) in *.
    injection Ha as <-; injection Hb as <-.
    unfold SFcompare. f_equal.
    destruct sx; unfold cond_Zopp; symmetry;
      [apply Z.compare_lt_iff | apply Z.compare_gt_iff]; lia.
  - assert (Hcmp : match ex ?= ey with
                   | Lt => Lt
                   | Gt => Gt
                   | Eq => Pos.compare_cont Eq mx my
                   end
                   = (Z.pos mx * 2 ^ (ex + 1074) ?= Z.pos my * 2 ^ (ey + 1074))).
    { destruct (Z.compare_spec ex ey) as [E | E | E]; symmetry.
      - subst ey. change (Pos.compare_cont Eq mx my) with (Z.pos mx ?= Z.pos my).
        assert (0 < 2 ^ (ex + 1074)) by (apply Z.pow_pos_nonneg; lia).
        destruct (Z.compare_spec (Z.pos mx) (Z.pos my));
          [apply Z.compare_eq_iff | apply Z.compare_lt_iff
           | apply Z.compare_gt_iff]; nia.
      - apply Z.compare_lt_iff. apply canonical_lt; assumption.
      - apply Z.compare_gt_iff. apply canonical_lt; assumption. }
    set (X := Z.pos mx * 2 ^ (ex + 1074)) in *.
    set (Y := Z.pos my * 2 ^ (ey + 1074)) in *.
    injection Ha as <-; injection Hb as <-.
    unfold SFcompare. f_equal.
    destruct sx, sy; unfold cond_Zopp.
    + rewrite Z.compare_opp, (Z.compare_antisym X Y), <- Hcmp.
      destruct (ex ?= ey); reflexivity.
    + symmetry. apply Z.compare_lt_iff. lia.
    + symmetry. apply Z.compare_gt_iff. lia.
    + exact Hcmp.
Qed.

(** *** Addition and subtraction round the exact result *)

Lemma binary_normalize_V (M E : Z) :
  -1074 <= E -> Z.abs M * 2 ^ (E + 1074) < 2 ^ 2097 ->
  V (binary_normalize prec emax M E false) = Some (RVs (M * 2 ^ (E + 1074))).
Proof.
  intros HE Hb.
  assert (Hp : 0 < 2 ^ (E + 1074)) by (apply Z.pow_pos_nonneg; lia).
  destruct M as [ | m | m]; unfold binary_normalize.
  - reflexivity.
  - rewrite binary_round_V; try lia.
    + unfold cond_Zopp, RVs.
      destruct (Z.ltb_spec (Z.pos m * 2 ^ (E + 1074)) 0); [nia | reflexivity].
    + assert (digits (Z.pos m * 2 ^ (E + 1074)) <= 2097)
        by (apply digits_le_of_lt; [nia | exact Hb]).
      rewrite digits_mul_pow2 in H by lia. lia.
  - rewrite binary_round_V; try lia.
    + unfold cond_Zopp.
      replace (Z.neg m * 2 ^ (E + 1074)) with (- (Z.pos m * 2 ^ (E + 1074)))
        by lia.
      rewrite RVs_opp. unfold RVs.
      destruct (Z.ltb_spec (Z.pos m * 2 ^ (E + 1074)) 0); [nia | reflexivity].
    + assert (digits (Z.pos m * 2 ^ (E + 1074)) <= 2097)
        by (apply digits_le_of_lt; [nia | exact Hb]).
      rewrite digits_mul_pow2 in H by lia. lia.
Qed.

Lemma aligned_value (s : bool) (m : positive) (e e' : Z) :
  -1074 <= e' <= e ->
  cond_Zopp s (Z.pos (fst (shl_align m e e'))) * 2 ^ (e' + 1074)
  = cond_Zopp s (Z.pos m * 2 ^ (e + 1074)).
Proof.
  intros H. rewrite shl_align_spec.
  assert (Hp : 0 < 2 ^ (e - e')) by (apply Z.pow_pos_nonneg; lia).
  assert (Hm : Z.pos m * 2 ^ (e - e') * 2 ^ (e' + 1074)
               = Z.pos m * 2 ^ (e + 1074)).
  { rewrite <- Z.mul_assoc, <- Z.pow_add_r by lia. do 2 f_equal. lia. }
  destruct (Z.ltb_spec e' e) as [Hlt | Hge]; unfold fst.
  - rewrite Z2Pos.id by nia. destruct s; unfold cond_Zopp; lia.
  - replace e' with e in * by lia. destruct s; unfold cond_Zopp; lia.
Qed.

Lemma SFadd_V (x y : spec_float) (a b : Z) :
  valid_binary x = true -> valid_binary y = true ->
  V x = Some a -> V y = Some b ->
  Z.abs (a + b) < 2 ^ 2097 ->
  V (SFadd prec emax x y) = Some (RVs (a + b)).
Proof.
  intros Hx Hy Ha Hb Hab.
  pose proof (RVs_repr x a Hx Ha) as Ra.
  pose proof (RVs_repr y b Hy Hb) as Rb.
  destruct x as [sx | sx | | sx mx ex]; try discriminate;
    destruct y as [sy | sy | | sy my ey]; try discriminate.
  - injection Ha as <-; injection Hb as <-.
    destruct sx, sy; reflexivity.
  - unfold SFadd. rewrite Hb. injection Ha as <-.
    rewrite Z.add_0_l, Rb. reflexivity.
  - unfold SFadd. rewrite Ha. injection Hb as <-.
    rewrite Z.add_0_r, Ra. reflexivity.
  - apply valid_finite in Hx. apply valid_finite in Hy.
    unfold V in Ha, Hb.
    set (X := Z.pos mx * 2 ^ (ex + 1074)) in *.
    set (Y := Z.pos my * 2 ^ (ey + 1074)) in *.
    injection Ha as Ha. injection Hb as Hb.
    unfold SFadd.
    set (ez := Z.min ex ey).
    assert (Hez : -1074 <= ez <= ex /\ ez <= ey) by lia.
    assert (Hsum : (cond_Zopp sx (Z.pos (fst (shl_align mx ex ez)))
                    + cond_Zopp sy (Z.pos (fst (shl_align my ey ez))))
                   * 2 ^ (ez + 1074) = a + b).
    { rewrite Z.mul_add_distr_r, !aligned_value by lia. fold X Y. lia. }
    rewrite binary_normalize_V.
    + rewrite Hsum. reflexivity.
    + lia.
    + rewrite <- (Z.abs_eq (2 ^ (ez + 1074)))
        by (apply Z.pow_nonneg; lia).
      rewrite <- Z.abs_mul, Hsum. exact Hab.
Qed.

Lemma SFsub_V (x y : spec_float) (a b : Z) :
  valid_binary x = true -> valid_binary y = true ->
  V x = Some a -> V y = Some b ->
  Z.abs (a - b) < 2 ^ 2097 ->
  V (SFsub prec emax x y) = Some (RVs (a - b)).
Proof.
  intros Hx Hy Ha Hb Hab.
  pose proof (RVs_repr x a Hx Ha) as Ra.
  pose proof (RVs_repr y b Hy Hb) as Rb.
  destruct x as [sx | sx | | sx mx ex]; try discriminate;
    destruct y as [sy | sy | | sy my ey]; try discriminate.
  - injection Ha as <-; injection Hb as <-.
    destruct sx, sy; reflexivity.
  - injection Ha as <-. rewrite Z.sub_0_l, RVs_opp, Rb.
    unfold V in Hb. set (Y := Z.pos my * 2 ^ (ey + 1074)) in *.
    injection Hb as <-.
    unfold SFsub, V. fold Y.
    destruct sy; unfold negb, cond_Zopp; f_equal; lia.
  - unfold SFsub. rewrite Ha. injection Hb as <-.
    rewrite Z.sub_0_r, Ra. reflexivity.
  - apply valid_finite in Hx. apply valid_finite in Hy.
    unfold V in Ha, Hb.
    set (X := Z.pos mx * 2 ^ (ex + 1074)) in *.
    set (Y := Z.pos my * 2 ^ (ey + 1074)) in *.
    injection Ha as Ha. injection Hb as Hb.
    unfold SFsub.
    set (ez := Z.min ex ey).
    assert (Hez : -1074 <= ez <= ex /\ ez <= ey) by lia.
    assert (Hsum : (cond_Zopp sx (Z.pos (fst (shl_align mx ex ez)))
                    - cond_Zopp sy (Z.pos (fst (shl_align my ey ez))))
                   * 2 ^ (ez + 1074) = a - b).
    { rewrite Z.mul_sub_distr_r, !aligned_value by lia. fold X Y. lia. }
    rewrite binary_normalize_V.
    + rewrite Hsum. reflexivity.
    + lia.
    + rewrite <- (Z.abs_eq (2 ^ (ez + 1074)))
        by (apply Z.pow_nonneg; lia).
      rewrite <- Z.abs_mul, Hsum. exact Hab.
Qed.

(** *** Multiplying a small number by a hundred stays finite *)

Lemma V_rounded_defined (s : bool) (m e : Z) :
  exists v, V (rounded s m e) = Some v.
Proof.
  unfold rounded. destruct (m =? 0); [ | destruct (m <? 2 ^ 53)];
    eexists; reflexivity.
Qed.

Lemma SFmul_hundred_defined (x : spec_float) (a : Z) :
  valid_binary x = true -> V x = Some a -> 0 <= a <= 2 ^ 1075 ->
  exists v, V (SFmul prec emax x hundred) = Some v.
Proof.
  intros Hx Ha Hr.
  destruct x as [sx | sx | | sx mx ex]; try discriminate.
  - exists 0. reflexivity.
  - apply valid_finite in Hx. destruct Hx as [Cx Ex].
    unfold V in Ha. set (X := Z.pos mx * 2 ^ (ex + 1074)) in *.
    injection Ha as Ha.
    assert (HX : 0 < X)
      by (unfold X; pose proof (Z.pow_pos_nonneg 2 (ex + 1074)); nia).
    destruct sx; unfold cond_Zopp in Ha; [lia | ]. subst a.
    pose proof (digits_bounds (Z.pos mx) ltac:(lia)) as [Lx Ux].
    pose proof (digits_pos (Z.pos mx) ltac:(lia)) as Dx.
    assert (Hsmall : digits (Z.pos mx) + ex <= 2).
    { assert (2 ^ (digits (Z.pos mx) - 1 + (ex + 1074)) <= 2 ^ 1075).
      { rewrite Z.pow_add_r by lia.
        transitivity X; [ | lia]. unfold X.
        apply Z.mul_le_mono_nonneg_r; [apply Z.pow_nonneg | ]; lia. }
      apply Z.pow_le_mono_r_iff in H; lia. }
    unfold SFmul, hundred. unfold xorb.
    set (M := Z.pos (mx * 7036874417766400)).
    assert (HM : M = Z.pos mx * 7036874417766400) by reflexivity.
    assert (HM0 : 0 < M) by lia.
    assert (Dlo : 53 <= digits M).
    { apply (digits_ge_of_le M 52); [lia | ].
      change (2 ^ 52) with 4503599627370496. lia. }
    assert (Dhi : digits M <= digits (Z.pos mx) + 53).
    { apply digits_le_of_lt; [lia | ].
      rewrite Z.pow_add_r by lia.
      change (2 ^ 53) with 9007199254740992. nia. }
    rewrite binary_round_aux_spec; try lia.
    + apply V_rounded_defined.
    + rewrite fexp64_eq. lia.
    + rewrite fexp64_eq. lia.
Qed.

(** *** The same facts on the primitive floats *)

Lemma add_Vf (x y : float) (a b : Z) :
  Vf x = Some a -> Vf y = Some b -> Z.abs (a + b) < 2 ^ 2097 ->
  Vf (x + y) = Some (RVs (a + b)).
Proof.
  intros Ha Hb H. unfold Vf. rewrite add_spec.
  apply SFadd_V; auto using Prim2SF_valid.
Qed.

Lemma sub_Vf (x y : float) (a b : Z) :
  Vf x = Some a -> Vf y = Some b -> Z.abs (a - b) < 2 ^ 2097 ->
  Vf (x - y) = Some (RVs (a - b)).
Proof.
  intros Ha Hb H. unfold Vf. rewrite sub_spec.
  apply SFsub_V; auto using Prim2SF_valid.
Qed.

Lemma ltb_Vf (x y : float) (a b : Z) :
  Vf x = Some a -> Vf y = Some b -> (x <? y)%float = (a <? b).
Proof.
  intros Ha Hb. rewrite ltb_spec. unfold SFltb.
  rewrite (compare_V _ _ a b) by auto using Prim2SF_valid.
  unfold Z.ltb. reflexivity.
Qed.

Lemma leb_Vf (x y : float) (a b : Z) :
  Vf x = Some a -> Vf y = Some b -> (x <=? y)%float = (a <=? b).
Proof.
  intros Ha Hb. rewrite leb_spec. unfold SFleb.
  rewrite (compare_V _ _ a b) by auto using Prim2SF_valid.
  unfold Z.leb. destruct (a ?= b); reflexivity.
Qed.

Lemma mul_hundred_Vf (x : float) (a : Z) :
  Vf x = Some a -> 0 <= a <= 2 ^ 1075 ->
  exists v, Vf (x * 100) = Some v.
Proof.
  intros Ha H. unfold Vf. rewrite mul_spec.
  change (Prim2SF 100) with hundred.
  apply (SFmul_hundred_defined _ a); auto using Prim2SF_valid.
Qed.

(** A float that is not below a finite one and not above another is
    finite. *)
Lemma between_Vf (lo hi x : float) (l h : Z) :
  Vf lo = Some l -> Vf hi = Some h ->
  (lo <=? x)%float = true -> (x <=? hi)%float = true ->
  exists a, Vf x = Some a /\ l <= a <= h.
Proof.
  intros Hl Hh H1 H2.
  destruct (Vf x) as [a | ] eqn:Ha.
  - exists a. split; [reflexivity | ].
    rewrite (leb_Vf lo x l a) in H1 by assumption.
    rewrite (leb_Vf x hi a h) in H2 by assumption.
    apply Z.leb_le in H1. apply Z.leb_le in H2. lia.
  - exfalso. rewrite leb_spec in H1, H2. unfold Vf in *.
    destruct (Prim2SF x) as [s | s | | s m e]; try discriminate;
      destruct (Prim2SF lo) as [s1 | s1 | | s1 m1 e1]; try discriminate;
      destruct (Prim2SF hi) as [s2 | s2 | | s2 m2 e2]; try discriminate;
      destruct s; discriminate.
Qed.

End Binary64Facts.

(** ** The end of the handlers: jitter, clamp, label and confidence *)

Module RespondFacts.
Import Binary64 Binary64Facts.

Lemma Vf_zero : Vf 0 = Some 0.
Proof. reflexivity. Qed.

Lemma Vf_one : Vf 1 = Some (2 ^ 1074).
Proof. vm_compute. reflexivity. Qed.

Lemma Vf_half : Vf 0.5 = Some (2 ^ 1073).
Proof. vm_compute. reflexivity. Qed.

Lemma int_defined (x : float) (v : Z) :
  Vf x = Some v -> exists z, Py.int x = Some z.
Proof.
  unfold Vf, Py.int.
  destruct (Prim2SF x) as [s | s | | s m e]; try discriminate;
    intros _; eexists; reflexivity.
Qed.

(** After the clamp the probability is a finite number of [0, 1],
    whatever came in. *)
Lemma clamp_Vf (x : float) :
  exists a, Vf (Py.fmax 0 (Py.fmin 1 x)) = Some a /\ 0 <= a <= 2 ^ 1074.
Proof.
  unfold Py.fmin.
  destruct (x <? 1)%float eqn:H1.
  - unfold Py.fmax. destruct (0 <? x)%float eqn:H0.
    + destruct (Vf x) as [a | ] eqn:Ha.
      * exists a. split; [reflexivity | ].
        rewrite (ltb_Vf x 1 a (2 ^ 1074) Ha Vf_one) in H1.
        rewrite (ltb_Vf 0 x 0 a Vf_zero Ha) in H0.
        apply Z.ltb_lt in H1. apply Z.ltb_lt in H0. lia.
      * exfalso. rewrite ltb_spec in H1, H0. unfold Vf in Ha.
        destruct (Prim2SF x) as [s | s | | s m e]; try discriminate;
          destruct s; vm_compute in H1, H0; discriminate.
    + exists 0. split; [exact Vf_zero | lia].
  - unfold Py.fmax. change (0 <? 1)%float with true. cbv iota.
    exists (2 ^ 1074). split; [exact Vf_one | lia].
Qed.

Lemma is_ai_true (x : float) (v : Z) :
  Vf x = Some v -> 2 ^ 1073 < v ->
  (0.5 <? Py.fmax 0 (Py.fmin 1 x))%float = true.
Proof.
  intros Hv H. unfold Py.fmin.
  destruct (x <? 1)%float eqn:H1.
  - unfold Py.fmax.
    rewrite (ltb_Vf 0 x 0 v Vf_zero Hv).
    replace (0 <? v) with true by (symmetry; apply Z.ltb_lt; lia).
    rewrite (ltb_Vf 0.5 x (2 ^ 1073) v Vf_half Hv).
    apply Z.ltb_lt. exact H.
  - reflexivity.
Qed.

Lemma is_ai_false (x : float) (v : Z) :
  Vf x = Some v -> v <= 2 ^ 1073 ->
  (0.5 <? Py.fmax 0 (Py.fmin 1 x))%float = false.
Proof.
  intros Hv H. unfold Py.fmin.
  rewrite (ltb_Vf x 1 v (2 ^ 1074) Hv Vf_one).
  replace (v <? 2 ^ 1074) with true by (symmetry; apply Z.ltb_lt; lia).
  unfold Py.fmax. destruct (0 <? x)%float.
  - rewrite (ltb_Vf 0.5 x (2 ^ 1073) v Vf_half Hv).
    apply Z.ltb_ge. exact H.
  - reflexivity.
Qed.

(** [respond] always returns: the clamp keeps the probability finite,
    and so are the products that [int] truncates. *)
Lemma respond_returns (p j : float) (lo hi : Z) :
  exists c,
    respond p j lo hi
    = Returned
        {| status := if (0.5 <? Py.fmax 0 (Py.fmin 1 (p + j)))%float
                     then "ai-generated" else "real";
           confidence := Z.max lo (Z.min hi c) |}.
Proof.
  unfold respond.
  destruct (clamp_Vf (p + j)) as [a [Ha Hr]].
  set (q := Py.fmax 0 (Py.fmin 1 (p + j))) in *.
  destruct (0.5 <? q)%float.
  - destruct (mul_hundred_Vf q a Ha ltac:(lia)) as [v Hv].
    destruct (int_defined _ _ Hv) as [z Hz].
    rewrite Hz. exists z. reflexivity.
  - assert (Hs : Vf (1 - q) = Some (RVs (2 ^ 1074 - a)))
      by (apply sub_Vf; [exact Vf_one | exact Ha | lia]).
    assert (Hb : 0 <= RVs (2 ^ 1074 - a) <= 2 ^ 1074).
    { split.
      - change 0 with (RVs 0). apply RVs_mono. lia.
      - rewrite <- (RVs_repr (Prim2SF 1) (2 ^ 1074)) at 2
          by (auto using Prim2SF_valid, Vf_one).
        apply RVs_mono. lia. }
    destruct (mul_hundred_Vf (1 - q) _ Hs ltac:(lia)) as [v Hv].
    destruct (int_defined _ _ Hv) as [z Hz].
    rewrite Hz. exists z. reflexivity.
Qed.

(** The jitter, a float of [-0.05, 0.05], is finite. *)
Lemma jitter_Vf (jitter : float) :
  (-0.05 <=? jitter)%float = true -> (jitter <=? 0.05)%float = true ->
  exists b, Vf jitter = Some b /\ - units 0.05 <= b <= units 0.05.
Proof.
  apply between_Vf; vm_compute; reflexivity.
Qed.

Lemma units_jitter : 0 <= units 0.05 <= 2 ^ 1074.
Proof. split; vm_compute; discriminate. Qed.

(** A probability that stays above one half with the lowest jitter is
    labelled "ai-generated" with every jitter. *)
Lemma respond_ai (p jitter : float) (lo hi a : Z) :
  Vf p = Some a -> 0 <= a <= 2 ^ 1075 ->
  2 ^ 1073 < RVs (a - units 0.05) ->
  (-0.05 <=? jitter)%float = true -> (jitter <=? 0.05)%float = true ->
  exists c,
    respond p jitter lo hi
    = Returned {| status := "ai-generated";
                  confidence := Z.max lo (Z.min hi c) |}.
Proof.
  intros Ha Hr Hlow J1 J2.
  destruct (jitter_Vf jitter J1 J2) as [b [Hb Hbr]].
  pose proof units_jitter as Hu.
  assert (Hx : Vf (p + jitter) = Some (RVs (a + b)))
    by (apply add_Vf; [exact Ha | exact Hb | lia]).
  assert (Hm : RVs (a - units 0.05) <= RVs (a + b))
    by (apply RVs_mono; lia).
  destruct (respond_returns p jitter lo hi) as [c Hc].
  rewrite (is_ai_true _ _ Hx ltac:(lia)) in Hc.
  exists c. exact Hc.
Qed.

(** A probability that stays at or below one half with the highest
    jitter is labelled "real" with every jitter. *)
Lemma respond_real (p jitter : float) (lo hi a : Z) :
  Vf p = Some a -> 0 <= a <= 2 ^ 1075 ->
  RVs (a + units 0.05) <= 2 ^ 1073 ->
  (-0.05 <=? jitter)%float = true -> (jitter <=? 0.05)%float = true ->
  exists c,
    respond p jitter lo hi
    = Returned {| status := "real";
                  confidence := Z.max lo (Z.min hi c) |}.
Proof.
  intros Ha Hr Hhigh J1 J2.
  destruct (jitter_Vf jitter J1 J2) as [b [Hb Hbr]].
  pose proof units_jitter as Hu.
  assert (Hx : Vf (p + jitter) = Some (RVs (a + b)))
    by (apply add_Vf; [exact Ha | exact Hb | lia]).
  assert (Hm : RVs (a + b) <= RVs (a + units 0.05))
    by (apply RVs_mono; lia).
  destruct (respond_returns p jitter lo hi) as [c Hc].
  rewrite (is_ai_false _ _ Hx ltac:(lia)) in Hc.
  exists c. exact Hc.
Qed.

Lemma band (lo hi c : Z) : lo <= hi -> lo <= Z.max lo (Z.min hi c) <= hi.
Proof. lia. Qed.

End RespondFacts.

(** ** The counters *)

Module TallyFacts.

Ltac split_ifs :=
  repeat match goal with
         | |- context [if ?b then _ else _] => destruct b
         end.

Ltac grows_by_cases :=
  intros t; split_ifs; unfold add_ai, add_human; simpl; lia.

Ltac returns_by_cases :=
  eexists; split; [reflexivity | ];
  split_ifs; unfold add_ai, add_human; simpl; lia.

(** A division by a number other than 0 returns. *)
Lemma truediv_returns (a b : Z) :
  b <> 0 -> Py.truediv a b = Some (Py.quotient a b).
Proof.
  intros H. unfold Py.truediv.
  destruct (Z.eqb_spec b 0); [contradiction | reflexivity].
Qed.

Lemma fdiv_returns (x : float) (n : Z) :
  n <> 0 -> Py.fdiv x n = Some (x / Py.float_of_Z n)%float.
Proof.
  intros H. unfold Py.fdiv.
  destruct (Z.eqb_spec n 0); [contradiction | reflexivity].
Qed.

Lemma variance_of_returns pow (sentence_lengths : list Z) :
  Py.len_list sentence_lengths <> 0 ->
  Text.variance_of pow sentence_lengths
  = Some (Spec.variance pow sentence_lengths).
Proof.
  intros H. unfold Text.variance_of, Spec.variance.
  rewrite (truediv_returns _ _ H), (fdiv_returns _ _ H). reflexivity.
Qed.

Lemma len_list_map {A B : Type} (f : A -> B) (l : list A) :
  Py.len_list (map f l) = Py.len_list l.
Proof. unfold Py.len_list. rewrite length_map. reflexivity. Qed.

Lemma sentence_structure_returns pow ss :
  returns 2 1 (Text.sentence_structure pow ss).
Proof.
  intros t. unfold Text.sentence_structure.
  destruct (Z.leb_spec 3 (Py.len_list ss)) as [H | H].
  - rewrite variance_of_returns by (rewrite len_list_map; lia).
    returns_by_cases.
  - returns_by_cases.
Qed.

Lemma transitions_grows s : grows 2 0 (Text.transitions s).
Proof. unfold Text.transitions. grows_by_cases. Qed.

Lemma repeated_starts_grows ss : grows 2 0 (Text.repeated_starts ss).
Proof. unfold Text.repeated_starts. grows_by_cases. Qed.

Lemma hedging_grows s : grows 1 0 (Text.hedging s).
Proof. unfold Text.hedging. grows_by_cases. Qed.

Lemma pronouns_grows s l : grows 1 2 (Text.pronouns s l).
Proof. unfold Text.pronouns. grows_by_cases. Qed.

Lemma contraction_use_grows s : grows 1 2 (Text.contraction_use s).
Proof. unfold Text.contraction_use. grows_by_cases. Qed.

Lemma expressiveness_grows s : grows 0 1 (Text.expressiveness s).
Proof. unfold Text.expressiveness. grows_by_cases. Qed.

Lemma lists_grows s : grows 1 0 (Text.lists s).
Proof. unfold Text.lists. grows_by_cases. Qed.

Lemma grammar_grows s : grows 0 1 (Text.grammar s).
Proof. unfold Text.grammar. grows_by_cases. Qed.

Lemma vocabulary_returns s : returns 1 1 (Text.vocabulary s).
Proof.
  intros t. unfold Text.vocabulary.
  destruct (Z.ltb_spec 0 (Py.len_list (Py.findall_words s))) as [H | H].
  - rewrite truediv_returns by lia. returns_by_cases.
  - returns_by_cases.
Qed.

(** The ten signals return, and what they leave in the counters. *)
Lemma indicators_returns pow (text : string) :
  exists t, Text.indicators pow text = Some t
            /\ 0 <= ai t <= 11 /\ 0 <= human t <= 8.
Proof.
  unfold Text.indicators.
  set (l := Py.lower text).
  destruct (sentence_structure_returns pow (Text.sentences_of text)
              {| ai := 0; human := 0 |}) as [ss [Hss H0]].
  rewrite Hss. simpl in H0.
  set (t1 := Text.transitions l ss).
  set (t2 := Text.repeated_starts _ t1).
  set (t3 := Text.hedging l t2).
  set (t4 := Text.pronouns text l t3).
  set (t5 := Text.contraction_use text t4).
  set (t6 := Text.expressiveness text t5).
  set (t7 := Text.lists text t6).
  set (t8 := Text.grammar l t7).
  pose proof (transitions_grows l ss) as H1. fold t1 in H1.
  pose proof (repeated_starts_grows (Text.sentences_of text) t1) as H2.
  fold t2 in H2.
  pose proof (hedging_grows l t2) as H3. fold t3 in H3.
  pose proof (pronouns_grows text l t3) as H4. fold t4 in H4.
  pose proof (contraction_use_grows text t4) as H5. fold t5 in H5.
  pose proof (expressiveness_grows text t5) as H6. fold t6 in H6.
  pose proof (lists_grows text t6) as H7. fold t7 in H7.
  pose proof (grammar_grows l t7) as H8. fold t8 in H8.
  destruct (vocabulary_returns l t8) as [t [Ht H9]].
  exists t. split; [exact Ht | lia].
Qed.

Lemma indicators_bounds pow (text : string) (t : tally) :
  Text.indicators pow text = Some t ->
  0 <= ai t <= 11 /\ 0 <= human t <= 8.
Proof.
  intros H. destruct (indicators_returns pow text) as [t' [Ht' Hb]].
  rewrite H in Ht'. injection Ht' as <-. exact Hb.
Qed.

(** The probability is a quotient of the counters, or the default. *)
Lemma text_probability_returns (t : tally) :
  Text.ai_probability t = Some (Spec.probability 0.45 t).
Proof.
  unfold Text.ai_probability, Spec.probability, Py.truediv.
  destruct (ai t + human t =? 0); reflexivity.
Qed.

Lemma image_probability_returns (t : tally) :
  Image.ai_probability t = Some (Spec.probability 0.5 t).
Proof.
  unfold Image.ai_probability, Spec.probability, Py.truediv.
  destruct (ai t + human t =? 0); reflexivity.
Qed.

Lemma dimensions_grows w h : grows 3 0 (Image.dimensions w h).
Proof. unfold Image.dimensions. grows_by_cases. Qed.

Lemma multiples_grows w h : grows 2 1 (Image.multiples w h).
Proof. unfold Image.multiples. grows_by_cases. Qed.

Lemma aspect_returns w h : returns 1 0 (Image.aspect w h).
Proof.
  intros t. unfold Image.aspect.
  destruct (Z.ltb_spec 0 h) as [H | H].
  - rewrite truediv_returns by lia. returns_by_cases.
  - returns_by_cases.
Qed.

Lemma compression_returns n w h : returns 1 0 (Image.compression n w h).
Proof.
  intros t. unfold Image.compression.
  destruct (Z.ltb_spec 0 (w * h)) as [H | H].
  - rewrite truediv_returns by lia. returns_by_cases.
  - returns_by_cases.
Qed.

Lemma colours_grows image : grows 3 1 (Image.colours image).
Proof.
  unfold Image.colours. intros t.
  destruct (Image.getextrema image); [ | lia].
  rewrite truediv_returns by lia.
  split_ifs; unfold add_ai, add_human; simpl; lia.
Qed.

Lemma exif_data_grows image : grows 2 3 (Image.exif_data image).
Proof.
  unfold Image.exif_data. intros t.
  destruct (Image.getexif image);
    split_ifs; unfold add_ai, add_human; simpl; lia.
Qed.

(** Signals 2 and 6 each add to one of the counters. *)
Lemma multiples_adds w h t :
  ai t + human t + 1
  <= ai (Image.multiples w h t) + human (Image.multiples w h t).
Proof.
  unfold Image.multiples. split_ifs; unfold add_ai, add_human; simpl; lia.
Qed.

Lemma exif_data_adds image t :
  ai t + human t + 1
  <= ai (Image.exif_data image t) + human (Image.exif_data image t).
Proof.
  unfold Image.exif_data.
  destruct (Image.getexif image);
    split_ifs; unfold add_ai, add_human; simpl; lia.
Qed.

(** The six signals return, and what they leave in the counters. *)
Lemma scores_returns (file_size : Z) (image : Image.PILImage) :
  exists t, Image.scores file_size image = Some t
            /\ 0 <= ai t <= 12 /\ 0 <= human t <= 5
            /\ 2 <= ai t + human t.
Proof.
  unfold Image.scores. destruct (Image.size image) as [w h].
  set (t0 := Image.dimensions w h _).
  set (t1 := Image.multiples w h t0).
  pose proof (dimensions_grows w h {| ai := 0; human := 0 |}) as H0.
  fold t0 in H0. simpl in H0.
  pose proof (multiples_grows w h t0) as H1. fold t1 in H1.
  pose proof (multiples_adds w h t0) as A1. fold t1 in A1.
  destruct (aspect_returns w h t1) as [t2 [E2 H2]]. rewrite E2.
  destruct (compression_returns file_size w h t2) as [t3 [E3 H3]].
  rewrite E3.
  set (t4 := Image.colours image t3).
  pose proof (colours_grows image t3) as H4. fold t4 in H4.
  pose proof (exif_data_grows image t4) as H5.
  pose proof (exif_data_adds image t4) as A5.
  eexists. split; [reflexivity | lia].
Qed.

Lemma scores_bounds (file_size : Z) (image : Image.PILImage) (t : tally) :
  Image.scores file_size image = Some t ->
  0 <= ai t <= 12 /\ 0 <= human t <= 5 /\ 2 <= ai t + human t.
Proof.
  intros H. destruct (scores_returns file_size image) as [t' [Ht' Hb]].
  rewrite H in Ht'. injection Ht' as <-. exact Hb.
Qed.

End TallyFacts.

(** ** The properties of the specification *)

Import Binary64 Binary64Facts RespondFacts TallyFacts.
Lemma len_gate (text : string) :
  50 <= Py.len text -> (Py.len text <? 50) = false.
Proof. intros H. apply Z.ltb_ge. exact H. Qed.

(** A text of at least 50 characters is scored: no signal raises, and
    the probability of the counters goes to the end of the handler. *)
Lemma analyze_text_scored pow (text : string) (jitter : float) :
  50 <= Py.len text ->
  exists t,
    Text.indicators pow text = Some t
    /\ (0 <= ai t <= 11 /\ 0 <= human t <= 8)
    /\ Text.analyze_text pow text jitter
       = respond (Spec.probability 0.45 t) jitter 60 90.
Proof.
  intros Hlen. destruct (indicators_returns pow text) as [t [Ht Hb]].
  exists t. split; [exact Ht | split; [exact Hb | ]].
  unfold Text.analyze_text.
  rewrite (len_gate text Hlen), Ht, text_probability_returns.
  reflexivity.
Qed.

Lemma analyze_text_of_counters pow (text : string) (jitter : float)
  (t : tally) :
  50 <= Py.len text -> Text.indicators pow text = Some t ->
  Text.analyze_text pow text jitter
  = respond (Spec.probability 0.45 t) jitter 60 90.
Proof.
  intros Hlen Ht. unfold Text.analyze_text.
  rewrite (len_gate text Hlen), Ht, text_probability_returns.
  reflexivity.
Qed.

Lemma analyze_text_returns pow (text : string) (jitter : float) :
  50 <= Py.len text ->
  exists s c,
    Text.analyze_text pow text jitter
    = Returned {| status := s; confidence := Z.max 60 (Z.min 90 c) |}
    /\ (s = "real" \/ s = "ai-generated").
Proof.
  intros Hlen.
  destruct (analyze_text_scored pow text jitter Hlen) as [t [_ [_ Ht]]].
  rewrite Ht.
  destruct (respond_returns (Spec.probability 0.45 t) jitter 60 90)
    as [c Hc].
  rewrite Hc. eexists. exists c. split; [reflexivity | ].
  destruct (0.5 <? _)%float; [right | left]; reflexivity.
Qed.

(** C2. For every text of at least 50 characters and every jitter of
    [-0.05, +0.05], the response of the text scorer has a confidence that
    is an integer of [60, 90], and its status is "real" or
    "ai-generated". *)
Theorem text_confidence_band pow (text : string) (jitter : float) :
  50 <= Py.len text ->
  (-0.05 <=? jitter)%float = true -> (jitter <=? 0.05)%float = true ->
  exists r,
    Text.analyze_text pow text jitter = Returned r
    /\ 60 <= confidence r <= 90
    /\ (status r = "real" \/ status r = "ai-generated").
Proof.
  intros Hlen _ _.
  destruct (analyze_text_returns pow text jitter Hlen) as [s [c [Hc Hs]]].
  rewrite Hc. eexists. split; [reflexivity | ]. simpl. split; [lia | ].
  exact Hs.
Qed.

Lemma text_confidence_band_witness :
  50 <= Py.len Inputs.fifty_tests
  /\ exists r,
       Text.analyze_text Inputs.pow Inputs.fifty_tests 0.02 = Returned r
       /\ 60 <= confidence r <= 90
       /\ (status r = "real" \/ status r = "ai-generated").
Proof.
  split; [vm_compute; discriminate | ].
  apply (text_confidence_band Inputs.pow Inputs.fifty_tests 0.02);
    [vm_compute; discriminate | reflexivity | reflexivity].
Defined.

(** C8. A text shorter than 50 characters is rejected with status 400
    and the message "Text must be at least 50 characters long for
    accurate analysis": the outcome is fixed by the length alone and is
    no response. A text of 50 characters or more is scored, exactly 50
    included. *)
Theorem text_length_gate pow (text : string) (jitter : float) :
  (Py.len text < 50 ->
   Text.analyze_text pow text jitter
   = HTTPException 400
       "Text must be at least 50 characters long for accurate analysis")
  /\ (50 <= Py.len text ->
      exists r, Text.analyze_text pow text jitter = Returned r).
Proof.
  split; intros H.
  - unfold Text.analyze_text.
    replace (Py.len text <? 50) with true
      by (symmetry; apply Z.ltb_lt; exact H).
    reflexivity.
  - destruct (analyze_text_returns pow text jitter H) as [s [c [Hc _]]].
    rewrite Hc. eexists. reflexivity.
Qed.

Lemma text_length_gate_witness :
  Py.len "forty-nine characters: one short of the threshold" = 49
  /\ Text.analyze_text Inputs.pow
       "forty-nine characters: one short of the threshold" 0
     = HTTPException 400
         "Text must be at least 50 characters long for accurate analysis"
  /\ Py.len Inputs.hyphens = 50
  /\ exists r, Text.analyze_text Inputs.pow Inputs.hyphens 0 = Returned r.
Proof.
  split; [reflexivity | split; [ | split]].
  - apply (proj1 (text_length_gate Inputs.pow _ 0)). vm_compute.
    reflexivity.
  - reflexivity.
  - apply (proj2 (text_length_gate Inputs.pow Inputs.hyphens 0)).
    vm_compute. discriminate.
Defined.

(** C9. In the image scorer the two counters add up to 2 at least:
    signal 2 adds 2 to [ai_score] or 1 to [human_score], and signal 6
    adds 3 to [human_score], or 2 or 1 to [ai_score]. The branch
    [total_score == 0] is never taken: the probability is always the
    quotient, never the default 0.5. *)
Theorem image_total_score_positive
  (file_size : Z) (image : Image.PILImage) :
  (forall w h t, Image.multiples w h t = add_ai 2 t
                 \/ Image.multiples w h t = add_human 1 t)
  /\ (forall t, Image.exif_data image t = add_human 3 t
                \/ Image.exif_data image t = add_ai 2 t
                \/ Image.exif_data image t = add_ai 1 t)
  /\ exists t,
       Image.scores file_size image = Some t
       /\ 2 <= ai t + human t
       /\ (ai t + human t =? 0) = false
       /\ Image.ai_probability t
          = Some (Py.quotient (ai t) (ai t + human t)).
Proof.
  split; [ | split].
  - intros w h t. unfold Image.multiples.
    destruct (_ || _)%bool; [left | right]; reflexivity.
  - intros t. unfold Image.exif_data.
    destruct (Image.getexif image); [ | right; right; reflexivity].
    destruct (_ && _)%bool; [left | right; left]; reflexivity.
  - destruct (scores_returns file_size image) as [t [Ht [_ [_ H]]]].
    exists t. split; [exact Ht | split; [exact H | ]].
    assert (E : (ai t + human t =? 0) = false) by (apply Z.eqb_neq; lia).
    split; [exact E | ].
    unfold Image.ai_probability, Py.truediv. rewrite E. reflexivity.
Qed.

Lemma Vf_default : Vf 0.45 = Some (units 0.45).
Proof. vm_compute. reflexivity. Qed.

(** With the default probability the highest jitter gives one half
    exactly: 0.45 + 0.05 rounds to 0.5. *)
Lemma default_stays_real :
  0 <= units 0.45 <= 2 ^ 1075 /\ RVs (units 0.45 + units 0.05) <= 2 ^ 1073.
Proof. repeat split; vm_compute; discriminate. Qed.

(** C4. For every text of at least 50 characters on which no signal
    fires (both counters are 0), the probability before the jitter is
    exactly 0.45; with every jitter of [-0.05, +0.05] the probability
    after the jitter and the clamp does not exceed 0.5, and the label
    returned is "real". *)
Theorem no_signal_text_is_real pow (text : string) (jitter : float)
  (t : tally) :
  50 <= Py.len text ->
  Text.indicators pow text = Some t -> ai t = 0 -> human t = 0 ->
  (-0.05 <=? jitter)%float = true -> (jitter <=? 0.05)%float = true ->
  Text.ai_probability t = Some 0.45%float
  /\ (0.5 <? Py.fmax 0 (Py.fmin 1 (0.45 + jitter)))%float = false
  /\ exists c,
       Text.analyze_text pow text jitter
       = Returned {| status := "real"; confidence := c |}.
Proof.
  intros Hlen Ht Hai Hhuman J1 J2.
  assert (Hp : Text.ai_probability t = Some 0.45%float).
  { unfold Text.ai_probability. rewrite Hai, Hhuman. reflexivity. }
  destruct default_stays_real as [Hr Hhigh].
  split; [exact Hp | split].
  - destruct (jitter_Vf jitter J1 J2) as [b [Hb Hbr]].
    pose proof units_jitter as Hu.
    assert (Hx : Vf (0.45 + jitter) = Some (RVs (units 0.45 + b)))
      by (apply add_Vf; [exact Vf_default | exact Hb | lia]).
    apply (is_ai_false _ _ Hx).
    transitivity (RVs (units 0.45 + units 0.05)); [ | exact Hhigh].
    apply RVs_mono. lia.
  - unfold Text.analyze_text. rewrite (len_gate text Hlen), Ht, Hp.
    destruct (respond_real 0.45 jitter 60 90 (units 0.45)
                Vf_default Hr Hhigh J1 J2) as [c Hc].
    rewrite Hc. eexists. reflexivity.
Qed.

Lemma no_signal_text_is_real_witness :
  Py.len Inputs.hyphens = 50
  /\ Text.indicators Inputs.pow Inputs.hyphens
     = Some {| ai := 0; human := 0 |}
  /\ Text.ai_probability {| ai := 0; human := 0 |} = Some 0.45%float
  /\ (0.5 <? Py.fmax 0 (Py.fmin 1 (0.45 + 0.05)))%float = false
  /\ exists c,
       Text.analyze_text Inputs.pow Inputs.hyphens 0.05
       = Returned {| status := "real"; confidence := c |}.
Proof.
  split; [reflexivity | split; [vm_compute; reflexivity | ]].
  apply (no_signal_text_is_real Inputs.pow Inputs.hyphens 0.05
           {| ai := 0; human := 0 |});
    try reflexivity; vm_compute; (reflexivity || discriminate).
Defined.

Lemma fifty_tests_indicators pow :
  Text.indicators pow Inputs.fifty_tests = Some {| ai := 3; human := 0 |}.
Proof. vm_compute. reflexivity. Qed.

Lemma Vf_certain : Vf (Py.quotient 3 3) = Some (2 ^ 1074).
Proof. vm_compute. reflexivity. Qed.

Lemma certain_stays_ai : 2 ^ 1073 < RVs (2 ^ 1074 - units 0.05).
Proof. vm_compute. reflexivity. Qed.

(** C6. On fifty times "test" separated by spaces, signal 6 (no
    contraction, more than 150 characters) and signal 10 (diversity 1/50,
    below 0.5) each add 1 to [ai_indicators], [human_indicators] stays 0
    (the counters end at 3 and 0), and with every jitter of
    [-0.05, +0.05] the label is "ai-generated" and the confidence lies in
    [60, 90]. *)
Theorem fifty_tests_is_ai pow (jitter : float) :
  (-0.05 <=? jitter)%float = true -> (jitter <=? 0.05)%float = true ->
  (forall t, Text.contraction_use Inputs.fifty_tests t = add_ai 1 t)
  /\ (forall t,
        Text.vocabulary (Py.lower Inputs.fifty_tests) t
        = Some (add_ai 1 t))
  /\ Text.indicators pow Inputs.fifty_tests
     = Some {| ai := 3; human := 0 |}
  /\ exists c,
       Text.analyze_text pow Inputs.fifty_tests jitter
       = Returned {| status := "ai-generated"; confidence := c |}
       /\ 60 <= c <= 90.
Proof.
  intros J1 J2.
  split; [intros t; vm_compute; reflexivity | ].
  split; [intros t; vm_compute; reflexivity | ].
  split; [exact (fifty_tests_indicators pow) | ].
  rewrite (analyze_text_of_counters pow Inputs.fifty_tests jitter _
             ltac:(vm_compute; discriminate) (fifty_tests_indicators pow)).
  change (Spec.probability 0.45 {| ai := 3; human := 0 |})
    with (Py.quotient 3 3).
  destruct (respond_ai (Py.quotient 3 3) jitter 60 90 (2 ^ 1074)
              Vf_certain ltac:(lia) certain_stays_ai J1 J2) as [c Hc].
  rewrite Hc. eexists. split; [reflexivity | lia].
Qed.

Lemma fifty_tests_is_ai_witness :
  exists c,
    Text.analyze_text Inputs.pow Inputs.fifty_tests (-0.05)
    = Returned {| status := "ai-generated"; confidence := c |}
    /\ 60 <= c <= 90.
Proof.
  apply (fifty_tests_is_ai Inputs.pow (-0.05)); reflexivity.
Defined.
(** With a jitter of zero the sum and the clamp are the identity on
    every probability the counters can give. *)
Ltac enum_Z a lo n :=
  lazymatch n with
  | O => exfalso; lia
  | S ?n' =>
      let H := fresh in
      destruct (Z.eq_dec a lo) as [H | H];
      [ subst a
      | let lo' := eval compute in (lo + 1) in enum_Z a lo' n' ]
  end.

Lemma clamp_zero_jitter (default : float) (a h : Z) :
  default = 0.45%float \/ default = 0.5%float ->
  0 <= a <= 12 -> 0 <= h <= 8 ->
  Py.fmax 0 (Py.fmin 1
    (Spec.probability default {| ai := a; human := h |} + 0))
  = Spec.probability default {| ai := a; human := h |}.
Proof.
  intros [-> | ->] Ha Hh;
    enum_Z a 0 13%nat; enum_Z h 0 9%nat; vm_compute; reflexivity.
Qed.

Lemma respond_zero (p : float) (lo hi : Z) :
  Py.fmax 0 (Py.fmin 1 (p + 0)) = p ->
  respond p 0 lo hi = Returned (Spec.response p lo hi).
Proof.
  intros H. destruct (respond_returns p 0 lo hi) as [c Hc].
  revert Hc. unfold respond, Spec.response, Spec.round_down.
  rewrite H.
  destruct (0.5 <? p)%float.
  - destruct (Py.int (p * 100)); [reflexivity | discriminate].
  - destruct (Py.int ((1 - p) * 100)); [reflexivity | discriminate].
Qed.

Lemma analyze_image_decoded
  (open_rgb : list Byte.byte -> string + Image.PILImage)
  (str_http : Z -> string -> string)
  (file : Image.UploadFile) (image : Image.PILImage) (jitter : float) :
  Image.is_image_type (Image.content_type file) = true ->
  Py.len_list (Image.contents file) <= 5 * 1024 * 1024 ->
  open_rgb (Image.contents file) = inr image ->
  exists t,
    Image.scores (Py.len_list (Image.contents file)) image = Some t
    /\ (0 <= ai t <= 12 /\ 0 <= human t <= 5 /\ 2 <= ai t + human t)
    /\ Image.analyze_image open_rgb str_http file jitter
       = respond (Spec.probability 0.5 t) jitter 65 88.
Proof.
  intros Htype Hsize Hopen.
  destruct (scores_returns (Py.len_list (Image.contents file)) image)
    as [t [Ht Hb]].
  exists t. split; [exact Ht | split; [exact Hb | ]].
  unfold Image.analyze_image, Image.load.
  rewrite Htype. simpl negb. cbv iota.
  replace (5 * 1024 * 1024 <? Py.len_list (Image.contents file))
    with false by (symmetry; apply Z.ltb_ge; exact Hsize).
  rewrite Hopen, Ht, image_probability_returns. reflexivity.
Qed.

Lemma analyze_image_of_counters
  (open_rgb : list Byte.byte -> string + Image.PILImage)
  (str_http : Z -> string -> string)
  (file : Image.UploadFile) (image : Image.PILImage) (jitter : float)
  (t : tally) :
  Image.is_image_type (Image.content_type file) = true ->
  Py.len_list (Image.contents file) <= 5 * 1024 * 1024 ->
  open_rgb (Image.contents file) = inr image ->
  Image.scores (Py.len_list (Image.contents file)) image = Some t ->
  (0 <= ai t <= 12 /\ 0 <= human t <= 5 /\ 2 <= ai t + human t)
  /\ Image.analyze_image open_rgb str_http file jitter
     = respond (Spec.probability 0.5 t) jitter 65 88.
Proof.
  intros Htype Hsize Hopen Ht.
  destruct (analyze_image_decoded open_rgb str_http file image jitter
              Htype Hsize Hopen) as [t' [Ht' H]].
  rewrite Ht in Ht'. injection Ht' as <-. exact H.
Qed.

(** C3. For every image that passes validation and decoding (an image/*
    content type, at most 5 MiB, decoded by Pillow) and every jitter of
    [-0.05, +0.05], the response of the image scorer has a confidence that
    is an integer of [65, 88]. *)
Theorem image_confidence_band
  (open_rgb : list Byte.byte -> string + Image.PILImage)
  (str_http : Z -> string -> string)
  (file : Image.UploadFile) (image : Image.PILImage) (jitter : float) :
  Image.is_image_type (Image.content_type file) = true ->
  Py.len_list (Image.contents file) <= 5 * 1024 * 1024 ->
  open_rgb (Image.contents file) = inr image ->
  (-0.05 <=? jitter)%float = true -> (jitter <=? 0.05)%float = true ->
  exists r,
    Image.analyze_image open_rgb str_http file jitter = Returned r
    /\ 65 <= confidence r <= 88.
Proof.
  intros Htype Hsize Hopen _ _.
  destruct (analyze_image_decoded open_rgb str_http file image jitter
              Htype Hsize Hopen) as [t [_ [_ Ht]]].
  rewrite Ht.
  destruct (respond_returns (Spec.probability 0.5 t) jitter 65 88)
    as [c Hc].
  rewrite Hc. eexists. split; [reflexivity | simpl; lia].
Qed.

Lemma image_confidence_band_witness :
  exists r,
    Image.analyze_image Inputs.pillow Inputs.str_status_detail
      (Inputs.png Inputs.gray_bytes) 0.05 = Returned r
    /\ 65 <= confidence r <= 88.
Proof.
  apply (image_confidence_band Inputs.pillow Inputs.str_status_detail
           (Inputs.png Inputs.gray_bytes) Inputs.gray512 0.05);
    try reflexivity; vm_compute; discriminate.
Defined.

Lemma gray_colours (image : Image.PILImage) (v : Z) (t : tally) :
  Image.getextrema image = Some [(v, v); (v, v); (v, v)] ->
  0 < v < 255 ->
  Image.colours image t = add_human 1 t.
Proof.
  intros He Hv. unfold Image.colours. rewrite He.
  cbv beta iota delta [map Py.sum fold_left existsb].
  rewrite !Z.sub_diag.
  change (Py.truediv (0 + 0 + 0 + 0) 3) with (Some (Py.quotient 0 3)).
  cbv beta iota.
  replace (v =? 0) with false by (symmetry; apply Z.eqb_neq; lia).
  replace (v =? 255) with false by (symmetry; apply Z.eqb_neq; lia).
  reflexivity.
Qed.

Lemma gray512_probabilities :
  Vf (Py.quotient 8 9) = Some (units (Py.quotient 8 9))
  /\ Vf (Py.quotient 9 10) = Some (units (Py.quotient 9 10))
  /\ 0 <= units (Py.quotient 8 9) <= 2 ^ 1075
  /\ 0 <= units (Py.quotient 9 10) <= 2 ^ 1075
  /\ 2 ^ 1073 < RVs (units (Py.quotient 8 9) - units 0.05)
  /\ 2 ^ 1073 < RVs (units (Py.quotient 9 10) - units 0.05).
Proof. repeat split; vm_compute; (reflexivity || discriminate). Qed.

(** C7. For a decoded image of exactly 512 x 512 pixels, of one gray level
    that is neither 0 nor 255 (every channel's range is 0), without
    metadata tags, the image scorer counts [ai_score] = 3 (dimension
    match) + 2 (multiples of 128) + 1 (aspect ratio 1.0) + 1 when the
    bytes per pixel lie in [2, 4] + 2 (no metadata) and [human_score] = 1
    (average range below 150); with every jitter of [-0.05, +0.05] the
    label returned is "ai-generated". *)
Theorem gray512_is_ai
  (open_rgb : list Byte.byte -> string + Image.PILImage)
  (str_http : Z -> string -> string)
  (file : Image.UploadFile) (image : Image.PILImage)
  (v : Z) (jitter : float) :
  Image.is_image_type (Image.content_type file) = true ->
  Py.len_list (Image.contents file) <= 5 * 1024 * 1024 ->
  open_rgb (Image.contents file) = inr image ->
  Image.size image = (512, 512) ->
  Image.getextrema image = Some [(v, v); (v, v); (v, v)] ->
  0 < v < 255 ->
  Image.getexif image = Some [] ->
  (-0.05 <=? jitter)%float = true -> (jitter <=? 0.05)%float = true ->
  let file_size := Py.len_list (Image.contents file) in
  let bytes_per_pixel := Py.quotient file_size (512 * 512) in
  Image.scores file_size image
  = Some {| ai := 3 + 2 + 1
                  + (if ((2 <=? bytes_per_pixel)
                         && (bytes_per_pixel <=? 4))%float%bool
                     then 1 else 0)
                  + 2;
            human := 1 |}
  /\ exists c,
       Image.analyze_image open_rgb str_http file jitter
       = Returned {| status := "ai-generated"; confidence := c |}.
Proof.
  intros Htype Hsize Hopen Hdim Hext Hv Hexif J1 J2 file_size bpp.
  assert (Hscores :
            Image.scores file_size image
            = Some {| ai := 3 + 2 + 1
                            + (if ((2 <=? bpp) && (bpp <=? 4))%float%bool
                               then 1 else 0) + 2;
                      human := 1 |}).
  { unfold Image.scores. rewrite Hdim.
    change (Image.dimensions 512 512 ?t) with (add_ai 3 t).
    change (Image.multiples 512 512 ?t) with (add_ai 2 t).
    change (Image.aspect 512 512 ?t) with (Some (add_ai 1 t)).
    cbv beta iota.
    unfold Image.compression.
    change (0 <? 512 * 512) with true. cbv iota.
    change (Py.truediv file_size (512 * 512)) with (Some bpp).
    cbv beta iota.
    rewrite (gray_colours image v _ Hext Hv).
    unfold Image.exif_data. rewrite Hexif.
    destruct ((2 <=? bpp) && (bpp <=? 4))%float%bool; reflexivity. }
  split; [exact Hscores | ].
  destruct (analyze_image_of_counters open_rgb str_http file image jitter
              _ Htype Hsize Hopen Hscores) as [_ Hrun].
  rewrite Hrun.
  destruct gray512_probabilities as [V8 [V9 [R8 [R9 [L8 L9]]]]].
  destruct ((2 <=? bpp) && (bpp <=? 4))%float%bool.
  - change (Spec.probability 0.5 _) with (Py.quotient 9 10).
    destruct (respond_ai _ jitter 65 88 _ V9 R9 L9 J1 J2) as [c Hc].
    rewrite Hc. eexists. reflexivity.
  - change (Spec.probability 0.5 _) with (Py.quotient 8 9).
    destruct (respond_ai _ jitter 65 88 _ V8 R8 L8 J1 J2) as [c Hc].
    rewrite Hc. eexists. reflexivity.
Qed.

Lemma gray512_is_ai_witness :
  Image.scores 1789 Inputs.gray512 = Some {| ai := 8; human := 1 |}
  /\ exists c,
       Image.analyze_image Inputs.pillow Inputs.str_status_detail
         (Inputs.png Inputs.gray_bytes) (-0.05)
       = Returned {| status := "ai-generated"; confidence := c |}.
Proof.
  split; [vm_compute; reflexivity | ].
  apply (gray512_is_ai Inputs.pillow Inputs.str_status_detail
           (Inputs.png Inputs.gray_bytes) Inputs.gray512 128 (-0.05));
    try reflexivity; try (vm_compute; discriminate).
  split; reflexivity.
Defined.

Lemma len_oversized : Py.len_list Inputs.oversized = 5 * 1024 * 1024 + 1.
Proof.
  unfold Py.len_list, Inputs.oversized.
  rewrite repeat_length. apply Z2Nat.id. lia.
Qed.

(** C1, as the code has it. An upload with an image content type whose
    content exceeds 5 MiB is answered with status 400 and no score, but
    the [HTTPException] raised for the size is raised inside the [try]
    block, caught by its [except Exception] and raised again as an
    invalid-image error: the detail is "Invalid image file: " followed by
    the printed exception, not "File size exceeds 5MB limit". *)
Theorem oversized_image_detail
  (open_rgb : list Byte.byte -> string + Image.PILImage)
  (str_http : Z -> string -> string)
  (file : Image.UploadFile) (jitter : float) :
  Image.is_image_type (Image.content_type file) = true ->
  5 * 1024 * 1024 < Py.len_list (Image.contents file) ->
  Image.analyze_image open_rgb str_http file jitter
  = HTTPException 400
      ("Invalid image file: " ++ str_http 400 "File size exceeds 5MB limit")
  /\ "Invalid image file: " ++ str_http 400 "File size exceeds 5MB limit"
     <> "File size exceeds 5MB limit".
Proof.
  intros Htype Hsize. split.
  - unfold Image.analyze_image, Image.load.
    rewrite Htype. simpl negb. cbv iota.
    replace (5 * 1024 * 1024 <? Py.len_list (Image.contents file))
      with true by (symmetry; apply Z.ltb_lt; exact Hsize).
    reflexivity.
  - simpl. discriminate.
Qed.

Lemma oversized_image_detail_witness :
  Image.analyze_image Inputs.pillow Inputs.str_status_detail
    (Inputs.png Inputs.oversized) 0
  = HTTPException 400
      "Invalid image file: 400: File size exceeds 5MB limit".
Proof.
  apply (oversized_image_detail Inputs.pillow Inputs.str_status_detail
           (Inputs.png Inputs.oversized) 0).
  - reflexivity.
  - change (Image.contents (Inputs.png Inputs.oversized))
      with Inputs.oversized.
    rewrite len_oversized. lia.
Defined.

(** A character is one of 256 code points. *)
Ltac by_codes c :=
  unfold Py.isspace, Py.isword, Py.isalnum, Py.isalpha, Py.isnumeric,
    Py.isupper, Py.lower_char, Py.is_sentence_end, Py.in_range;
  destruct c as [[] [] [] [] [] [] [] []]; vm_compute;
  solve [reflexivity | discriminate | intros; discriminate
         | intros; reflexivity].

Lemma lower_char_no_word (c : ascii) :
  negb (Py.isword c) = true -> Py.lower_char c = c.
Proof. by_codes c. Qed.

(** A text without word characters has no word token, also after
    [lower]. *)
Lemma lower_no_word (text : string) :
  Inputs.all_chars (fun c => negb (Py.isword c)) text = true ->
  Inputs.all_chars (fun c => negb (Py.isword c)) (Py.lower text) = true.
Proof.
  induction text as [ | c r IH]; [reflexivity | ].
  simpl. intros H. apply andb_prop in H. destruct H as [Hc Hr].
  rewrite (lower_char_no_word c Hc), Hc, (IH Hr). reflexivity.
Qed.

Lemma pieces_of_separators (sep : ascii -> bool) (s : string) :
  Inputs.all_chars sep s = true ->
  filter Py.nonempty (Py.pieces sep s) = [].
Proof.
  induction s as [ | c r IH]; [reflexivity | ].
  simpl. intros H. apply andb_prop in H. destruct H as [Hc Hr].
  rewrite Hc. simpl. exact (IH Hr).
Qed.

Lemma no_word_no_token (text : string) :
  Inputs.all_chars (fun c => negb (Py.isword c)) text = true ->
  Py.findall_words (Py.lower text) = [].
Proof.
  intros H. unfold Py.findall_words.
  apply pieces_of_separators. apply lower_no_word. exact H.
Qed.

(** C10, as amended. For every text of at least 50 characters that
    contains no word character (no letter, no digit and no underscore),
    the tokenizer finds no token and the vocabulary-diversity signal is
    skipped: the quotient, which would be 0 / 0 and raise
    [ZeroDivisionError], is not computed, the signal returns with both
    counters as they were, and the request is still scored: the handler
    returns a response with a confidence of [60, 90]. *)
Theorem no_word_character_skips_diversity pow (text : string)
  (jitter : float) :
  50 <= Py.len text ->
  Inputs.all_chars (fun c => negb (Py.isword c)) text = true ->
  let words := Py.findall_words (Py.lower text) in
  words = []
  /\ Py.truediv (Py.len_set words) (Py.len_list words) = None
  /\ (forall t, Text.vocabulary (Py.lower text) t = Some t)
  /\ exists r,
       Text.analyze_text pow text jitter = Returned r
       /\ 60 <= confidence r <= 90
       /\ (status r = "real" \/ status r = "ai-generated").
Proof.
  intros Hlen Hno words.
  pose proof (no_word_no_token text Hno) as Hw. fold words in Hw.
  split; [exact Hw | split; [ | split]].
  - rewrite Hw. reflexivity.
  - intros t. unfold Text.vocabulary. fold words. rewrite Hw. reflexivity.
  - destruct (analyze_text_returns pow text jitter Hlen) as [s [c [Hc Hs]]].
    rewrite Hc. eexists. split; [reflexivity | ]. simpl.
    split; [lia | exact Hs].
Qed.

Lemma no_word_character_skips_diversity_witness :
  Py.len Inputs.hyphens = 50
  /\ Py.findall_words (Py.lower Inputs.hyphens) = []
  /\ Py.truediv (Py.len_set (Py.findall_words (Py.lower Inputs.hyphens)))
       (Py.len_list (Py.findall_words (Py.lower Inputs.hyphens)))
     = None
  /\ (forall t, Text.vocabulary (Py.lower Inputs.hyphens) t = Some t)
  /\ exists r,
       Text.analyze_text Inputs.pow Inputs.hyphens 0.01 = Returned r
       /\ 60 <= confidence r <= 90
       /\ (status r = "real" \/ status r = "ai-generated").
Proof.
  split; [reflexivity | ].
  apply (no_word_character_skips_diversity Inputs.pow Inputs.hyphens 0.01);
    [vm_compute; discriminate | reflexivity].
Defined.

(** C10, as stated, fails on fifty underscores: the text has 50
    characters, none of them alphanumeric, yet [\w] matches the
    underscore, the tokenizer finds one token, the diversity is 1/1 and
    signal 10 adds 1 to [human_indicators]. *)
Lemma underscores_have_a_token :
  Py.len Inputs.underscores = 50
  /\ Inputs.all_chars (fun c => negb (Py.isalnum c)) Inputs.underscores
     = true
  /\ Py.findall_words (Py.lower Inputs.underscores) = [Inputs.underscores]
  /\ Text.vocabulary (Py.lower Inputs.underscores) {| ai := 0; human := 0 |}
     = Some {| ai := 0; human := 1 |}.
Proof. repeat split; vm_compute; reflexivity. Qed.

(** ** Further properties of the image handler *)

(** X1. An upload whose declared content type is missing, empty or not
    an image type is rejected with status 400 and the invalid-file-type
    message, whatever its bytes are and whatever the decoder would make of
    them. *)
Theorem non_image_type_rejected
  (open_rgb : list Byte.byte -> string + Image.PILImage)
  (str_http : Z -> string -> string)
  (file : Image.UploadFile) (jitter : float) :
  Image.is_image_type (Image.content_type file) = false ->
  Image.analyze_image open_rgb str_http file jitter
  = HTTPException 400
      "Invalid file type. Please upload an image (JPG, PNG, WebP)".
Proof.
  intros H. unfold Image.analyze_image. rewrite H. reflexivity.
Qed.

Lemma non_image_type_rejected_witness :
  Image.analyze_image Inputs.pillow Inputs.str_status_detail
    {| Image.content_type := Some "text/plain";
       Image.contents := Inputs.gray_bytes |} 0
  = HTTPException 400
      "Invalid file type. Please upload an image (JPG, PNG, WebP)".
Proof.
  apply (non_image_type_rejected Inputs.pillow Inputs.str_status_detail).
  reflexivity.
Defined.

(** X2. An upload with an image content type and at most 5 MiB whose
    bytes Pillow cannot decode is rejected with status 400 and the detail
    "Invalid image file: " followed by the decoder's message. *)
Theorem corrupt_image_rejected
  (open_rgb : list Byte.byte -> string + Image.PILImage)
  (str_http : Z -> string -> string)
  (file : Image.UploadFile) (message : string) (jitter : float) :
  Image.is_image_type (Image.content_type file) = true ->
  Py.len_list (Image.contents file) <= 5 * 1024 * 1024 ->
  open_rgb (Image.contents file) = inl message ->
  Image.analyze_image open_rgb str_http file jitter
  = HTTPException 400 ("Invalid image file: " ++ message).
Proof.
  intros Htype Hsize Hopen. unfold Image.analyze_image, Image.load.
  rewrite Htype. simpl negb. cbv iota.
  replace (5 * 1024 * 1024 <? Py.len_list (Image.contents file))
    with false by (symmetry; apply Z.ltb_ge; exact Hsize).
  rewrite Hopen. reflexivity.
Qed.

Lemma corrupt_image_rejected_witness :
  Image.analyze_image Inputs.pillow Inputs.str_status_detail
    (Inputs.png []) 0
  = HTTPException 400 "Invalid image file: cannot identify image file".
Proof.
  apply (corrupt_image_rejected Inputs.pillow Inputs.str_status_detail
           (Inputs.png []) "cannot identify image file" 0);
    [reflexivity | vm_compute; discriminate | reflexivity].
Defined.

(** X3. The end of both handlers never fails: for every probability and
    every float added to it, a NaN and the infinities included, it returns
    a response whose confidence lies in the band and whose status is
    "real" or "ai-generated". *)
Theorem respond_total (p jitter : float) (lo hi : Z) :
  lo <= hi ->
  exists r,
    respond p jitter lo hi = Returned r
    /\ lo <= confidence r <= hi
    /\ (status r = "real" \/ status r = "ai-generated").
Proof.
  intros H. destruct (respond_returns p jitter lo hi) as [c Hc].
  rewrite Hc. eexists. split; [reflexivity | ]. simpl. split; [lia | ].
  destruct (0.5 <? _)%float; [right | left]; reflexivity.
Qed.

Lemma respond_total_witness :
  exists r,
    respond 0.45 nan 60 90 = Returned r
    /\ 60 <= confidence r <= 90
    /\ (status r = "real" \/ status r = "ai-generated").
Proof.
  apply (respond_total 0.45 nan 60 90). lia.
Defined.

(** ** When the jitter decides the label, and when it cannot *)

Ltac by_vm := vm_compute; (reflexivity || discriminate).

Ltac close_case :=
  first [ exfalso; lia
        | split; [ | split; [split | ]]; by_vm
        | split; by_vm ].

(** A quotient above 0.55 stays above one half with the lowest jitter. *)
Lemma quotient_decided_ai (a h : Z) :
  0 <= a <= 12 -> 0 <= h <= 8 -> 11 * h < 9 * a ->
  Vf (Py.quotient a (a + h)) = Some (units (Py.quotient a (a + h)))
  /\ 0 <= units (Py.quotient a (a + h)) <= 2 ^ 1075
  /\ 2 ^ 1073 < RVs (units (Py.quotient a (a + h)) - units 0.05).
Proof.
  intros Ha Hh Hd.
  enum_Z a 0 13%nat; enum_Z h 0 9%nat; close_case.
Qed.

(** A quotient of at most 0.45 stays at or below one half with the
    highest jitter. *)
Lemma quotient_decided_real (a h : Z) :
  0 <= a <= 12 -> 0 <= h <= 8 -> 0 < a + h -> 11 * a <= 9 * h ->
  Vf (Py.quotient a (a + h)) = Some (units (Py.quotient a (a + h)))
  /\ 0 <= units (Py.quotient a (a + h)) <= 2 ^ 1075
  /\ RVs (units (Py.quotient a (a + h)) + units 0.05) <= 2 ^ 1073.
Proof.
  intros Ha Hh Ht Hd.
  enum_Z a 0 13%nat; enum_Z h 0 9%nat; close_case.
Qed.

(** In between, the highest jitter lifts the quotient above one half
    and the lowest leaves it at or below. *)
Lemma quotient_undecided (a h : Z) :
  0 <= a <= 12 -> 0 <= h <= 8 -> 9 * h < 11 * a -> 9 * a <= 11 * h ->
  (0.5 <? Py.fmax 0 (Py.fmin 1 (Py.quotient a (a + h) + 0.05)))%float = true
  /\ (0.5 <? Py.fmax 0 (Py.fmin 1 (Py.quotient a (a + h) + -0.05)))%float
     = false.
Proof.
  intros Ha Hh H1 H2.
  enum_Z a 0 13%nat; enum_Z h 0 9%nat; close_case.
Qed.

Lemma quotient_of_tally (default : float) (t : tally) :
  0 < ai t + human t ->
  Spec.probability default t = Py.quotient (ai t) (ai t + human t).
Proof.
  intros H. unfold Spec.probability.
  replace (ai t + human t =? 0) with false
    by (symmetry; apply Z.eqb_neq; lia).
  reflexivity.
Qed.

(** The label [respond] gives to the probability of counters outside
    the band. *)
Lemma respond_decided (default : float) (t : tally) (jitter : float)
  (lo hi : Z) :
  0 <= ai t <= 12 -> 0 <= human t <= 8 -> 0 < ai t + human t ->
  (-0.05 <=? jitter)%float = true -> (jitter <=? 0.05)%float = true ->
  (11 * human t < 9 * ai t ->
   exists c,
     respond (Spec.probability default t) jitter lo hi
     = Returned {| status := "ai-generated";
                   confidence := Z.max lo (Z.min hi c) |})
  /\ (11 * ai t <= 9 * human t ->
      exists c,
        respond (Spec.probability default t) jitter lo hi
        = Returned {| status := "real";
                      confidence := Z.max lo (Z.min hi c) |}).
Proof.
  intros Ha Hh Ht J1 J2. rewrite (quotient_of_tally default t Ht).
  split; intros Hd.
  - destruct (quotient_decided_ai (ai t) (human t) Ha Hh Hd)
      as [Hv [Hr Hlow]].
    exact (respond_ai _ jitter lo hi _ Hv Hr Hlow J1 J2).
  - destruct (quotient_decided_real (ai t) (human t) Ha Hh Ht Hd)
      as [Hv [Hr Hhigh]].
    exact (respond_real _ jitter lo hi _ Hv Hr Hhigh J1 J2).
Qed.

Lemma respond_undecided (default : float) (t : tally) (lo hi : Z) :
  0 <= ai t <= 12 -> 0 <= human t <= 8 ->
  9 * human t < 11 * ai t -> 9 * ai t <= 11 * human t ->
  (exists c,
     respond (Spec.probability default t) 0.05 lo hi
     = Returned {| status := "ai-generated";
                   confidence := Z.max lo (Z.min hi c) |})
  /\ (exists c,
        respond (Spec.probability default t) (-0.05) lo hi
        = Returned {| status := "real";
                      confidence := Z.max lo (Z.min hi c) |}).
Proof.
  intros Ha Hh H1 H2.
  rewrite (quotient_of_tally default t ltac:(lia)).
  destruct (quotient_undecided (ai t) (human t) Ha Hh H1 H2) as [Hup Hdown].
  split.
  - destruct (respond_returns (Py.quotient (ai t) (ai t + human t))
                0.05 lo hi) as [c Hc].
    rewrite Hup in Hc. exists c. exact Hc.
  - destruct (respond_returns (Py.quotient (ai t) (ai t + human t))
                (-0.05) lo hi) as [c Hc].
    rewrite Hdown in Hc. exists c. exact Hc.
Qed.

(** X4. In the text scorer the jitter cannot change the label when the
    counters are clear: if [ai_indicators / total] is above 0.55
    (11 * human < 9 * ai) every jitter of [-0.05, +0.05] gives
    "ai-generated", and if it is at most 0.45 (11 * ai <= 9 * human, the
    case of no signal included) every jitter gives "real". *)
Theorem text_label_decided pow (text : string) (jitter : float)
  (t : tally) :
  50 <= Py.len text ->
  Text.indicators pow text = Some t ->
  (-0.05 <=? jitter)%float = true -> (jitter <=? 0.05)%float = true ->
  (11 * human t < 9 * ai t ->
   exists c,
     Text.analyze_text pow text jitter
     = Returned {| status := "ai-generated"; confidence := c |})
  /\ (11 * ai t <= 9 * human t ->
      exists c,
        Text.analyze_text pow text jitter
        = Returned {| status := "real"; confidence := c |}).
Proof.
  intros Hlen Ht J1 J2.
  pose proof (indicators_bounds pow text t Ht) as [Ha Hh].
  rewrite (analyze_text_of_counters pow text jitter t Hlen Ht).
  split; intros Hd.
  - destruct (respond_decided 0.45 t jitter 60 90 ltac:(lia) ltac:(lia)
                ltac:(lia) J1 J2) as [Hai _].
    destruct (Hai Hd) as [c Hc]. rewrite Hc. eexists. reflexivity.
  - destruct (Z.eq_dec (ai t + human t) 0) as [Hz | Hz].
    + unfold Spec.probability. rewrite Hz. simpl Z.eqb. cbv iota.
      destruct default_stays_real as [Hr Hhigh].
      destruct (respond_real 0.45 jitter 60 90 (units 0.45)
                  Vf_default Hr Hhigh J1 J2) as [c Hc].
      rewrite Hc. eexists. reflexivity.
    + destruct (respond_decided 0.45 t jitter 60 90 ltac:(lia) ltac:(lia)
                  ltac:(lia) J1 J2) as [_ Hreal].
      destruct (Hreal Hd) as [c Hc]. rewrite Hc. eexists. reflexivity.
Qed.

Lemma text_label_decided_witness :
  Text.indicators Inputs.pow Inputs.fifty_tests
  = Some {| ai := 3; human := 0 |}
  /\ (exists c,
        Text.analyze_text Inputs.pow Inputs.fifty_tests (-0.05)
        = Returned {| status := "ai-generated"; confidence := c |})
  /\ Text.indicators Inputs.pow Inputs.underscores
     = Some {| ai := 0; human := 1 |}
  /\ (exists c,
        Text.analyze_text Inputs.pow Inputs.underscores 0.05
        = Returned {| status := "real"; confidence := c |}).
Proof.
  split; [vm_compute; reflexivity | split; [ | split]].
  - apply (proj1 (text_label_decided Inputs.pow Inputs.fifty_tests (-0.05)
                    {| ai := 3; human := 0 |}
                    ltac:(vm_compute; discriminate)
                    ltac:(vm_compute; reflexivity) eq_refl eq_refl)).
    vm_compute. reflexivity.
  - vm_compute. reflexivity.
  - apply (proj2 (text_label_decided Inputs.pow Inputs.underscores 0.05
                    {| ai := 0; human := 1 |}
                    ltac:(vm_compute; discriminate)
                    ltac:(vm_compute; reflexivity) eq_refl eq_refl)).
    vm_compute. discriminate.
Defined.

(** X5. In the text scorer the jitter alone decides the label when the
    counters are close: if [ai_indicators / total] lies above 0.45 and at
    most at 0.55, the same text is labelled "ai-generated" with the
    jitter 0.05 and "real" with the jitter -0.05. *)
Theorem text_label_follows_jitter pow (text : string) (t : tally) :
  50 <= Py.len text ->
  Text.indicators pow text = Some t ->
  9 * human t < 11 * ai t -> 9 * ai t <= 11 * human t ->
  (exists c,
     Text.analyze_text pow text 0.05
     = Returned {| status := "ai-generated"; confidence := c |})
  /\ (exists c,
        Text.analyze_text pow text (-0.05)
        = Returned {| status := "real"; confidence := c |}).
Proof.
  intros Hlen Ht H1 H2.
  pose proof (indicators_bounds pow text t Ht) as [Ha Hh].
  rewrite !(analyze_text_of_counters pow text _ t Hlen Ht).
  destruct (respond_undecided 0.45 t 60 90
              ltac:(lia) ltac:(lia) H1 H2) as [[c1 Hc1] [c2 Hc2]].
  rewrite Hc1, Hc2. split; eexists; reflexivity.
Qed.

Lemma text_label_follows_jitter_witness :
  Py.len Samples.wows = 53
  /\ Text.indicators Inputs.pow Samples.wows
     = Some {| ai := 1; human := 1 |}
  /\ (exists c,
        Text.analyze_text Inputs.pow Samples.wows 0.05
        = Returned {| status := "ai-generated"; confidence := c |})
  /\ (exists c,
        Text.analyze_text Inputs.pow Samples.wows (-0.05)
        = Returned {| status := "real"; confidence := c |}).
Proof.
  split; [reflexivity | split; [vm_compute; reflexivity | ]].
  apply (text_label_follows_jitter Inputs.pow Samples.wows
           {| ai := 1; human := 1 |});
    vm_compute; (reflexivity || discriminate).
Defined.

(** X6. In the image scorer the jitter cannot change the label when the
    counters are clear: if [ai_score / total_score] is above 0.55 every
    jitter of [-0.05, +0.05] gives "ai-generated", and if it is at most
    0.45 every jitter gives "real". *)
Theorem image_label_decided
  (open_rgb : list Byte.byte -> string + Image.PILImage)
  (str_http : Z -> string -> string)
  (file : Image.UploadFile) (image : Image.PILImage) (jitter : float)
  (t : tally) :
  Image.is_image_type (Image.content_type file) = true ->
  Py.len_list (Image.contents file) <= 5 * 1024 * 1024 ->
  open_rgb (Image.contents file) = inr image ->
  Image.scores (Py.len_list (Image.contents file)) image = Some t ->
  (-0.05 <=? jitter)%float = true -> (jitter <=? 0.05)%float = true ->
  (11 * human t < 9 * ai t ->
   exists c,
     Image.analyze_image open_rgb str_http file jitter
     = Returned {| status := "ai-generated"; confidence := c |})
  /\ (11 * ai t <= 9 * human t ->
      exists c,
        Image.analyze_image open_rgb str_http file jitter
        = Returned {| status := "real"; confidence := c |}).
Proof.
  intros Htype Hsize Hopen Hscores J1 J2.
  destruct (analyze_image_of_counters open_rgb str_http file image jitter
              t Htype Hsize Hopen Hscores) as [[Ha [Hh Ht]] Hrun].
  rewrite Hrun.
  destruct (respond_decided 0.5 t jitter 65 88 ltac:(lia) ltac:(lia)
              ltac:(lia) J1 J2) as [Hai Hreal].
  split; intros Hd.
  - destruct (Hai Hd) as [c Hc]. rewrite Hc. eexists. reflexivity.
  - destruct (Hreal Hd) as [c Hc]. rewrite Hc. eexists. reflexivity.
Qed.

Lemma image_label_decided_witness :
  Image.scores 1789 Samples.snapshot = Some {| ai := 0; human := 5 |}
  /\ exists c,
       Image.analyze_image (Samples.decoder Samples.snapshot)
         Inputs.str_status_detail (Inputs.png Inputs.gray_bytes) 0.05
       = Returned {| status := "real"; confidence := c |}.
Proof.
  split; [vm_compute; reflexivity | ].
  apply (proj2 (image_label_decided (Samples.decoder Samples.snapshot)
                  Inputs.str_status_detail (Inputs.png Inputs.gray_bytes)
                  Samples.snapshot 0.05 {| ai := 0; human := 5 |} eq_refl
                  ltac:(vm_compute; discriminate) eq_refl
                  ltac:(vm_compute; reflexivity) eq_refl eq_refl)).
  vm_compute. discriminate.
Defined.

(** X7. In the image scorer the jitter alone decides the label when the
    counters are close: if [ai_score / total_score] lies above 0.45 and at
    most at 0.55, the same upload is labelled "ai-generated" with the
    jitter 0.05 and "real" with the jitter -0.05. *)
Theorem image_label_follows_jitter
  (open_rgb : list Byte.byte -> string + Image.PILImage)
  (str_http : Z -> string -> string)
  (file : Image.UploadFile) (image : Image.PILImage) (t : tally) :
  Image.is_image_type (Image.content_type file) = true ->
  Py.len_list (Image.contents file) <= 5 * 1024 * 1024 ->
  open_rgb (Image.contents file) = inr image ->
  Image.scores (Py.len_list (Image.contents file)) image = Some t ->
  9 * human t < 11 * ai t -> 9 * ai t <= 11 * human t ->
  (exists c,
     Image.analyze_image open_rgb str_http file 0.05
     = Returned {| status := "ai-generated"; confidence := c |})
  /\ (exists c,
        Image.analyze_image open_rgb str_http file (-0.05)
        = Returned {| status := "real"; confidence := c |}).
Proof.
  intros Htype Hsize Hopen Hscores H1 H2.
  destruct (analyze_image_of_counters open_rgb str_http file image 0.05
              t Htype Hsize Hopen Hscores) as [[Ha [Hh _]] Hup].
  destruct (analyze_image_of_counters open_rgb str_http file image (-0.05)
              t Htype Hsize Hopen Hscores) as [_ Hdown].
  rewrite Hup, Hdown.
  destruct (respond_undecided 0.5 t 65 88 ltac:(lia) ltac:(lia) H1 H2)
    as [[c1 Hc1] [c2 Hc2]].
  rewrite Hc1, Hc2. split; eexists; reflexivity.
Qed.

Lemma image_label_follows_jitter_witness :
  Image.scores 1789 Samples.thumbnail = Some {| ai := 4; human := 4 |}
  /\ (exists c,
        Image.analyze_image (Samples.decoder Samples.thumbnail)
          Inputs.str_status_detail (Inputs.png Inputs.gray_bytes) 0.05
        = Returned {| status := "ai-generated"; confidence := c |})
  /\ (exists c,
        Image.analyze_image (Samples.decoder Samples.thumbnail)
          Inputs.str_status_detail (Inputs.png Inputs.gray_bytes) (-0.05)
        = Returned {| status := "real"; confidence := c |}).
Proof.
  split; [vm_compute; reflexivity | ].
  apply (image_label_follows_jitter (Samples.decoder Samples.thumbnail)
           Inputs.str_status_detail (Inputs.png Inputs.gray_bytes)
           Samples.thumbnail {| ai := 4; human := 4 |});
    try reflexivity; vm_compute; (reflexivity || discriminate).
Defined.

(** ** Images that the dimensions alone decide *)

Lemma image_ai_from_counters
  (open_rgb : list Byte.byte -> string + Image.PILImage)
  (str_http : Z -> string -> string)
  (file : Image.UploadFile) (image : Image.PILImage) (jitter : float)
  (t : tally) :
  Image.is_image_type (Image.content_type file) = true ->
  Py.len_list (Image.contents file) <= 5 * 1024 * 1024 ->
  open_rgb (Image.contents file) = inr image ->
  Image.scores (Py.len_list (Image.contents file)) image = Some t ->
  (-0.05 <=? jitter)%float = true -> (jitter <=? 0.05)%float = true ->
  11 * human t < 9 * ai t ->
  exists c,
    Image.analyze_image open_rgb str_http file jitter
    = Returned {| status := "ai-generated"; confidence := c |}.
Proof.
  intros Htype Hsize Hopen Hscores J1 J2 Hd.
  destruct (analyze_image_of_counters open_rgb str_http file image jitter
              t Htype Hsize Hopen Hscores) as [[Ha [Hh Ht]] Hrun].
  rewrite Hrun.
  destruct (respond_decided 0.5 t jitter 65 88 ltac:(lia) ltac:(lia)
              ltac:(lia) J1 J2) as [Hai _].
  destruct (Hai Hd) as [c Hc]. rewrite Hc. eexists. reflexivity.
Qed.

Ltac split_bools :=
  repeat match goal with
         | H : (_ || _)%bool = true |- _ =>
             apply orb_prop in H; destruct H as [H | H]
         | H : (_ && _)%bool = true |- _ =>
             let H1 := fresh in
             let H2 := fresh in
             apply andb_prop in H; destruct H as [H1 H2]
         | H : (_ =? _) = true |- _ => apply Z.eqb_eq in H
         | H : false = true |- _ => discriminate H
         end.

(** With a listed size the first three signals all fire. *)
Lemma listed_size_signals (w h : Z) (t : tally) :
  (Image.pair_in (w, h) Image.common_ai_dimensions
   || Image.pair_in (h, w) Image.common_ai_dimensions)%bool = true ->
  Image.aspect w h (Image.multiples w h (Image.dimensions w h t))
  = Some (add_ai 1 (add_ai 2 (add_ai 3 t))).
Proof.
  intros H.
  unfold Image.pair_in, Image.common_ai_dimensions in H. simpl in H.
  split_bools; subst; reflexivity.
Qed.

(** X8. An upload decoded to an image whose size is one of the listed
    generator sizes, in either orientation, is labelled "ai-generated"
    with every jitter of [-0.05, +0.05], whatever its pixels, its
    metadata and its file size: the size, the multiples-of-64 and the
    aspect-ratio signals give 6 to [ai_score], and [human_score] cannot
    exceed 4. *)
Theorem listed_size_is_ai
  (open_rgb : list Byte.byte -> string + Image.PILImage)
  (str_http : Z -> string -> string)
  (file : Image.UploadFile) (image : Image.PILImage)
  (w h : Z) (jitter : float) :
  Image.is_image_type (Image.content_type file) = true ->
  Py.len_list (Image.contents file) <= 5 * 1024 * 1024 ->
  open_rgb (Image.contents file) = inr image ->
  Image.size image = (w, h) ->
  (Image.pair_in (w, h) Image.common_ai_dimensions
   || Image.pair_in (h, w) Image.common_ai_dimensions)%bool = true ->
  (-0.05 <=? jitter)%float = true -> (jitter <=? 0.05)%float = true ->
  exists t,
    Image.scores (Py.len_list (Image.contents file)) image = Some t
    /\ 6 <= ai t /\ human t <= 4
    /\ exists c,
         Image.analyze_image open_rgb str_http file jitter
         = Returned {| status := "ai-generated"; confidence := c |}.
Proof.
  intros Htype Hsize Hopen Hdim Hlisted J1 J2.
  set (n := Py.len_list (Image.contents file)) in *.
  assert (Hb : exists t, Image.scores n image = Some t
                         /\ 6 <= ai t /\ human t <= 4).
  { unfold Image.scores. rewrite Hdim.
    rewrite (listed_size_signals w h _ Hlisted).
    set (t2 := add_ai 1 _).
    destruct (compression_returns n w h t2) as [t3 [E3 H3]]. rewrite E3.
    pose proof (colours_grows image t3) as H4.
    pose proof (exif_data_grows image (Image.colours image t3)) as H5.
    eexists. split; [reflexivity | ].
    simpl in H3. lia. }
  destruct Hb as [t [Ht [Hai Hhuman]]].
  exists t. split; [exact Ht | split; [exact Hai | split; [exact Hhuman | ]]].
  apply (image_ai_from_counters open_rgb str_http file image jitter t
           Htype Hsize Hopen Ht J1 J2).
  lia.
Qed.

Lemma listed_size_is_ai_witness :
  exists t,
    Image.scores (Py.len_list (Image.contents (Inputs.png Inputs.gray_bytes)))
      Inputs.gray512 = Some t
    /\ 6 <= ai t /\ human t <= 4
    /\ exists c,
         Image.analyze_image Inputs.pillow Inputs.str_status_detail
           (Inputs.png Inputs.gray_bytes) (-0.05)
         = Returned {| status := "ai-generated"; confidence := c |}.
Proof.
  apply (listed_size_is_ai Inputs.pillow Inputs.str_status_detail
           (Inputs.png Inputs.gray_bytes) Inputs.gray512 512 512 (-0.05));
    try reflexivity; vm_compute; discriminate.
Defined.

(** X9. An upload decoded to an image whose width and height are both
    multiples of 64 and that carries at most five metadata tags, or whose
    metadata cannot be read, is labelled "ai-generated" with every jitter
    of [-0.05, +0.05], whatever its pixels and its file size:
    [ai_score] is 3 at least and [human_score] 1 at most. *)
Theorem multiples_of_64_without_metadata_is_ai
  (open_rgb : list Byte.byte -> string + Image.PILImage)
  (str_http : Z -> string -> string)
  (file : Image.UploadFile) (image : Image.PILImage)
  (w h : Z) (jitter : float) :
  Image.is_image_type (Image.content_type file) = true ->
  Py.len_list (Image.contents file) <= 5 * 1024 * 1024 ->
  open_rgb (Image.contents file) = inr image ->
  Image.size image = (w, h) ->
  w mod 64 = 0 -> h mod 64 = 0 ->
  (Image.getexif image = None
   \/ exists tags, Image.getexif image = Some tags /\ Py.len_list tags <= 5) ->
  (-0.05 <=? jitter)%float = true -> (jitter <=? 0.05)%float = true ->
  exists t,
    Image.scores (Py.len_list (Image.contents file)) image = Some t
    /\ 3 <= ai t /\ human t <= 1
    /\ exists c,
         Image.analyze_image open_rgb str_http file jitter
         = Returned {| status := "ai-generated"; confidence := c |}.
Proof.
  intros Htype Hsize Hopen Hdim Hw Hh Hexif J1 J2.
  set (n := Py.len_list (Image.contents file)) in *.
  assert (Hb : exists t, Image.scores n image = Some t
                         /\ 3 <= ai t /\ human t <= 1).
  { unfold Image.scores. rewrite Hdim.
    set (t0 := Image.dimensions w h _).
    pose proof (dimensions_grows w h {| ai := 0; human := 0 |}) as H0.
    fold t0 in H0. simpl in H0.
    assert (H1 : Image.multiples w h t0 = add_ai 2 t0).
    { unfold Image.multiples. rewrite Hw, Hh. simpl Z.eqb.
      rewrite orb_true_r. reflexivity. }
    rewrite H1.
    destruct (aspect_returns w h (add_ai 2 t0)) as [t2 [E2 H2]].
    rewrite E2. simpl in H2.
    destruct (compression_returns n w h t2) as [t3 [E3 H3]]. rewrite E3.
    set (t4 := Image.colours image t3).
    pose proof (colours_grows image t3) as H4. fold t4 in H4.
    assert (H5 : Image.exif_data image t4 = add_ai 1 t4
                 \/ Image.exif_data image t4 = add_ai 2 t4).
    { unfold Image.exif_data.
      destruct Hexif as [-> | [tags [-> Hlen]]]; [left; reflexivity | ].
      right.
      replace (5 <? Py.len_list tags) with false
        by (symmetry; apply Z.ltb_ge; exact Hlen).
      rewrite andb_false_r. reflexivity. }
    eexists. split; [reflexivity | ].
    destruct H5 as [-> | ->]; simpl; lia. }
  destruct Hb as [t [Ht [Hai Hhuman]]].
  exists t. split; [exact Ht | split; [exact Hai | split; [exact Hhuman | ]]].
  apply (image_ai_from_counters open_rgb str_http file image jitter t
           Htype Hsize Hopen Ht J1 J2).
  lia.
Qed.

Lemma multiples_of_64_without_metadata_is_ai_witness :
  Image.scores 1789 Samples.stripped_photo
  = Some {| ai := 7; human := 0 |}
  /\ exists t,
       Image.scores
         (Py.len_list (Image.contents (Inputs.png Inputs.gray_bytes)))
         Samples.stripped_photo = Some t
       /\ 3 <= ai t /\ human t <= 1
       /\ exists c,
            Image.analyze_image (Samples.decoder Samples.stripped_photo)
              Inputs.str_status_detail (Inputs.png Inputs.gray_bytes)
              (-0.05)
            = Returned {| status := "ai-generated"; confidence := c |}.
Proof.
  split; [vm_compute; reflexivity | ].
  apply (multiples_of_64_without_metadata_is_ai
           (Samples.decoder Samples.stripped_photo)
           Inputs.str_status_detail (Inputs.png Inputs.gray_bytes)
           Samples.stripped_photo 1920 1280 (-0.05));
    try reflexivity; try (vm_compute; discriminate).
  right. exists []. split; [reflexivity | vm_compute; discriminate].
Defined.

Lemma prefix_append (s t : string) : prefix s (s ++ t) = true.
Proof.
  apply prefix_correct.
  induction s as [ | a s IH]; simpl.
  - destruct t; reflexivity.
  - rewrite IH. reflexivity.
Qed.

(** X10. Once the framework has bound an upload to the handler's
    parameter, [analyze_image] has three outcomes and no other: a
    response whose confidence lies in [65, 88] and whose status is "real"
    or "ai-generated", the error 400 with the invalid-file-type message,
    or the error 400 with a detail that starts with "Invalid image
    file: ". The handler raises no other status code, and no exception
    of the scoring (a division by zero, a conversion of a NaN) escapes
    it. *)
Theorem analyze_image_outcomes
  (open_rgb : list Byte.byte -> string + Image.PILImage)
  (str_http : Z -> string -> string)
  (file : Image.UploadFile) (jitter : float) :
  (exists r,
     Image.analyze_image open_rgb str_http file jitter = Returned r
     /\ 65 <= confidence r <= 88
     /\ (status r = "real" \/ status r = "ai-generated"))
  \/ Image.analyze_image open_rgb str_http file jitter
     = HTTPException 400
         "Invalid file type. Please upload an image (JPG, PNG, WebP)"
  \/ (exists detail,
        Image.analyze_image open_rgb str_http file jitter
        = HTTPException 400 detail
        /\ prefix "Invalid image file: " detail = true).
Proof.
  unfold Image.analyze_image, Image.load.
  destruct (Image.is_image_type (Image.content_type file));
    [ | right; left; reflexivity].
  simpl negb. cbv iota.
  destruct (5 * 1024 * 1024 <? Py.len_list (Image.contents file)).
  - right; right. eexists. split; [reflexivity | apply prefix_append].
  - destruct (open_rgb (Image.contents file)) as [message | image].
    + right; right. eexists. split; [reflexivity | apply prefix_append].
    + left.
      destruct (scores_returns (Py.len_list (Image.contents file)) image)
        as [t [Ht _]].
      rewrite Ht, image_probability_returns.
      destruct (respond_returns (Spec.probability 0.5 t) jitter 65 88)
        as [c Hc].
      rewrite Hc. eexists. split; [reflexivity | ]. simpl.
      split; [lia | ].
      destruct (0.5 <? _)%float; [right | left]; reflexivity.
Qed.

(** ** Blank texts and texts without sentence punctuation *)

Module BlankFacts.

Lemma all_chars_impl (P Q : ascii -> bool) (s : string) :
  (forall c, P c = true -> Q c = true) ->
  Inputs.all_chars P s = true -> Inputs.all_chars Q s = true.
Proof.
  intros HPQ. induction s as [ | c r IH]; [reflexivity | ].
  simpl. intros H. apply andb_prop in H. destruct H as [Hc Hr].
  rewrite (HPQ c Hc), (IH Hr). reflexivity.
Qed.

Lemma space_not_upper (c : ascii) :
  Py.isspace c = true -> Py.isupper c = false.
Proof. by_codes c. Qed.

Lemma space_not_word (c : ascii) :
  Py.isspace c = true -> negb (Py.isword c) = true.
Proof. by_codes c. Qed.

Lemma space_not_sentence_end (c : ascii) :
  Py.isspace c = true -> negb (Py.is_sentence_end c) = true.
Proof. by_codes c. Qed.

Lemma lower_blank (s : string) :
  Inputs.all_chars Py.isspace s = true -> Py.lower s = s.
Proof.
  induction s as [ | c r IH]; [reflexivity | ].
  simpl. intros H. apply andb_prop in H. destruct H as [Hc Hr].
  unfold Py.lower_char. rewrite (space_not_upper c Hc), (IH Hr).
  reflexivity.
Qed.

(** A prefix of a string made of one class of characters is made of
    that class. *)
Lemma prefix_all_chars (P : ascii -> bool) (s sub : string) :
  prefix sub s = true -> Inputs.all_chars P s = true ->
  Inputs.all_chars P sub = true.
Proof.
  revert sub. induction s as [ | c r IH]; intros sub Hp Hs.
  - destruct sub; [reflexivity | discriminate].
  - destruct sub as [ | a sub']; [reflexivity | ].
    simpl in Hp. destruct (ascii_dec a c) as [-> | _]; [ | discriminate].
    simpl in Hs. apply andb_prop in Hs. destruct Hs as [Hc Hr].
    simpl. rewrite Hc, (IH sub' Hp Hr). reflexivity.
Qed.

Lemma prefix_blank (s sub : string) :
  Inputs.all_chars Py.isspace s = true ->
  Inputs.all_chars Py.isspace sub = false ->
  prefix sub s = false.
Proof.
  intros Hs Hsub. destruct (prefix sub s) eqn:Hp; [ | reflexivity].
  rewrite (prefix_all_chars Py.isspace s sub Hp Hs) in Hsub. discriminate.
Qed.

Lemma count_from_blank (s sub : string) (skip : nat) :
  Inputs.all_chars Py.isspace s = true ->
  Inputs.all_chars Py.isspace sub = false ->
  Py.count_from sub s skip = 0.
Proof.
  revert skip. induction s as [ | c r IH]; intros skip Hs Hsub.
  - reflexivity.
  - assert (Hr : Inputs.all_chars Py.isspace r = true).
    { simpl in Hs. apply andb_prop in Hs. exact (proj2 Hs). }
    cbn [Py.count_from]. destruct skip as [ | k].
    + rewrite (prefix_blank _ sub Hs Hsub). apply IH; assumption.
    + apply IH; assumption.
Qed.

(** A blank string holds no occurrence of a pattern that is not blank. *)
Lemma count_blank (s sub : string) :
  Inputs.all_chars Py.isspace s = true ->
  Inputs.all_chars Py.isspace sub = false ->
  Py.count s sub = 0.
Proof.
  intros Hs Hsub. unfold Py.count.
  destruct sub; [discriminate | ]. apply count_from_blank; assumption.
Qed.

Lemma contains_blank (s sub : string) :
  Inputs.all_chars Py.isspace s = true ->
  Inputs.all_chars Py.isspace sub = false ->
  Py.contains sub s = false.
Proof.
  intros Hs Hsub. induction s as [ | c r IH].
  - cbn [Py.contains]. rewrite (prefix_blank "" sub eq_refl Hsub).
    reflexivity.
  - assert (Hr : Inputs.all_chars Py.isspace r = true).
    { simpl in Hs. apply andb_prop in Hs. exact (proj2 Hs). }
    cbn [Py.contains]. rewrite (prefix_blank _ sub Hs Hsub), (IH Hr).
    reflexivity.
Qed.

(** Without a separator the split gives the string back. *)
Lemma re_split_runs_whole (sep : ascii -> bool) (s : string) (in_run : bool) :
  Inputs.all_chars (fun c => negb (sep c)) s = true ->
  Py.re_split_runs sep s in_run = [s].
Proof.
  revert in_run. induction s as [ | c r IH]; intros in_run H.
  - reflexivity.
  - simpl in H. apply andb_prop in H. destruct H as [Hc Hr].
    cbn [Py.re_split_runs].
    apply negb_true_iff in Hc. rewrite Hc, (IH false Hr). reflexivity.
Qed.

Lemma lstrip_blank (s : string) :
  Inputs.all_chars Py.isspace s = true -> Py.lstrip s = EmptyString.
Proof.
  induction s as [ | c r IH]; [reflexivity | ].
  simpl. intros H. apply andb_prop in H. destruct H as [Hc Hr].
  rewrite Hc. exact (IH Hr).
Qed.

Lemma sentences_of_blank (s : string) :
  Inputs.all_chars Py.isspace s = true -> Text.sentences_of s = [].
Proof.
  intros H. unfold Text.sentences_of, Py.re_split_sentences.
  rewrite re_split_runs_whole
    by (apply (all_chars_impl Py.isspace); [ | exact H];
        exact space_not_sentence_end).
  simpl. unfold Py.strip. rewrite (lstrip_blank s H). reflexivity.
Qed.

(** Without sentence punctuation there is one sentence at most. *)
Lemma sentences_of_unpunctuated (s : string) :
  Inputs.all_chars (fun c => negb (Py.is_sentence_end c)) s = true ->
  Text.sentences_of s = [] \/ Text.sentences_of s = [Py.strip s].
Proof.
  intros H. unfold Text.sentences_of, Py.re_split_sentences.
  rewrite (re_split_runs_whole _ s false H).
  simpl. destruct (Py.nonempty (Py.strip s)); [right | left]; reflexivity.
Qed.

Lemma filter_none {A : Type} (f : A -> bool) (l : list A) :
  (forall x, In x l -> f x = false) -> filter f l = [].
Proof.
  induction l as [ | x l IH]; intros H; [reflexivity | ].
  simpl. rewrite (H x (or_introl eq_refl)).
  apply IH. intros y Hy. apply H. right. exact Hy.
Qed.

(** The counters of a blank text: the two length rules and nothing
    else. *)
Lemma indicators_blank pow (text : string) :
  Inputs.all_chars Py.isspace text = true ->
  Text.indicators pow text
  = Some {| ai := (if 200 <? Py.len text then 1 else 0)
                  + (if 150 <? Py.len text then 1 else 0);
            human := 0 |}.
Proof.
  intros H. unfold Text.indicators.
  rewrite (lower_blank text H), (sentences_of_blank text H).
  change (Text.sentence_structure pow [] ?t) with (Some t).
  cbv beta iota.
  change (Text.repeated_starts [] ?t) with t.
  assert (Hcount : forall sub,
             Inputs.all_chars Py.isspace sub = false ->
             Py.count text sub = 0)
    by (intros sub; apply count_blank; exact H).
  assert (Hin : forall sub,
             Inputs.all_chars Py.isspace sub = false ->
             Py.contains sub text = false)
    by (intros sub; apply contains_blank; exact H).
  assert (H2 : forall t, Text.transitions text t = t).
  { intros t. unfold Text.transitions.
    rewrite filter_none; [reflexivity | ].
    intros x Hx. apply Hin. unfold Text.formal_transitions in Hx.
    simpl in Hx.
    repeat (destruct Hx as [<- | Hx]; [reflexivity | ]). contradiction. }
  assert (H4 : forall t, Text.hedging text t = t).
  { intros t. unfold Text.hedging, Text.hedging_words. cbn [map].
    rewrite !Hcount by reflexivity. reflexivity. }
  assert (H5 : forall t,
             Text.pronouns text text t
             = if 200 <? Py.len text then add_ai 1 t else t).
  { intros t. unfold Text.pronouns.
    rewrite !Hcount by reflexivity. reflexivity. }
  assert (H6 : forall t,
             Text.contraction_use text t
             = if 150 <? Py.len text then add_ai 1 t else t).
  { intros t. unfold Text.contraction_use, Text.contractions. cbn [map].
    rewrite !Hcount by reflexivity. reflexivity. }
  assert (H7 : forall t, Text.expressiveness text t = t).
  { intros t. unfold Text.expressiveness.
    rewrite !Hcount by reflexivity. reflexivity. }
  assert (H8 : forall t, Text.lists text t = t).
  { intros t. unfold Text.lists.
    rewrite !Hcount by reflexivity. reflexivity. }
  assert (H9 : forall t, Text.grammar text t = t).
  { intros t. unfold Text.grammar.
    rewrite !Hin by reflexivity. reflexivity. }
  assert (H10 : forall t, Text.vocabulary text t = Some t).
  { intros t. unfold Text.vocabulary, Py.findall_words.
    rewrite pieces_of_separators
      by (apply (all_chars_impl Py.isspace); [ | exact H];
          exact space_not_word).
    reflexivity. }
  rewrite H2, H4, H5, H6, H7, H8, H9, H10.
  destruct (200 <? Py.len text), (150 <? Py.len text); reflexivity.
Qed.

End BlankFacts.

(** X11. A blank text (white space only, as [str.isspace] has it) of
    at least 50 characters fires no signal but the two length rules: the
    counters are [ai_indicators] = 1 above 150 characters, 2 above 200,
    and [human_indicators] = 0. With every jitter of [-0.05, +0.05] a
    blank text of more than 150 characters is labelled "ai-generated", a
    shorter one "real". *)
Theorem blank_text_label pow (text : string) (jitter : float) :
  50 <= Py.len text ->
  Inputs.all_chars Py.isspace text = true ->
  (-0.05 <=? jitter)%float = true -> (jitter <=? 0.05)%float = true ->
  Text.indicators pow text
  = Some {| ai := (if 200 <? Py.len text then 1 else 0)
                  + (if 150 <? Py.len text then 1 else 0);
            human := 0 |}
  /\ exists c,
       Text.analyze_text pow text jitter
       = Returned {| status := if 150 <? Py.len text
                               then "ai-generated" else "real";
                     confidence := c |}.
Proof.
  intros Hlen Hblank J1 J2.
  pose proof (BlankFacts.indicators_blank pow text Hblank) as Hind.
  split; [exact Hind | ].
  rewrite (analyze_text_of_counters pow text jitter _ Hlen Hind).
  destruct (Z.ltb_spec 150 (Py.len text)) as [H150 | H150].
  - set (t := {| ai := _; human := 0 |}).
    assert (Ht : 1 <= ai t <= 2 /\ human t = 0)
      by (unfold t; simpl; destruct (200 <? Py.len text); lia).
    destruct (respond_decided 0.45 t jitter 60 90 ltac:(lia) ltac:(lia)
                ltac:(lia) J1 J2) as [Hai _].
    destruct (Hai ltac:(lia)) as [c Hc]. rewrite Hc. eexists. reflexivity.
  - replace (200 <? Py.len text) with false
      by (symmetry; apply Z.ltb_ge; lia).
    change (Spec.probability 0.45 {| ai := 0 + 0; human := 0 |})
      with 0.45%float.
    destruct default_stays_real as [Hr Hhigh].
    destruct (respond_real 0.45 jitter 60 90 (units 0.45)
                Vf_default Hr Hhigh J1 J2) as [c Hc].
    rewrite Hc. eexists. reflexivity.
Qed.

Lemma blank_text_label_witness :
  Py.len Samples.blank = 60
  /\ Text.indicators Inputs.pow Samples.blank
     = Some {| ai := 0; human := 0 |}
  /\ exists c,
       Text.analyze_text Inputs.pow Samples.blank 0.05
       = Returned {| status := "real"; confidence := c |}.
Proof.
  split; [reflexivity | ].
  apply (blank_text_label Inputs.pow Samples.blank 0.05);
    try reflexivity; vm_compute; discriminate.
Defined.

(** X12. A text without ".", "!" and "?" is one sentence at most, so
    neither the sentence-length signal (1), which computes no variance,
    nor the repeated-opening signal (3) changes a counter, whatever the
    words are. *)
Theorem unpunctuated_text_sentence_signals pow (text : string)
  (t : tally) :
  Inputs.all_chars (fun c => negb (Py.is_sentence_end c)) text = true ->
  (Text.sentences_of text = [] \/ Text.sentences_of text = [Py.strip text])
  /\ Text.sentence_structure pow (Text.sentences_of text) t = Some t
  /\ Text.repeated_starts (Text.sentences_of text) t = t.
Proof.
  intros H.
  pose proof (BlankFacts.sentences_of_unpunctuated text H) as Hs.
  split; [exact Hs | ].
  destruct Hs as [-> | ->]; split; try reflexivity.
  unfold Text.repeated_starts. cbn [fold_left]. unfold Text.record_start.
  destruct (2 <=? Py.len_list (Py.split (Py.strip text))); reflexivity.
Qed.

Lemma unpunctuated_text_sentence_signals_witness :
  Text.sentences_of Inputs.fifty_tests = [Inputs.fifty_tests]
  /\ Text.sentence_structure Inputs.pow
       (Text.sentences_of Inputs.fifty_tests)
       {| ai := 0; human := 0 |} = Some {| ai := 0; human := 0 |}
  /\ Text.repeated_starts (Text.sentences_of Inputs.fifty_tests)
       {| ai := 0; human := 0 |} = {| ai := 0; human := 0 |}.
Proof.
  split; [vm_compute; reflexivity | ].
  apply (unpunctuated_text_sentence_signals Inputs.pow Inputs.fifty_tests
           {| ai := 0; human := 0 |}).
  vm_compute. reflexivity.
Defined.

Ltac total_by_cases :=
  intros; split_ifs; unfold add_ai, add_human; simpl; lia.

(** What the signals that divide leave in the counters. *)
Lemma sentence_structure_cases pow ss t :
  exists t',
    Text.sentence_structure pow ss t = Some t'
    /\ (t' = t \/ t' = add_ai 2 t \/ t' = add_human 1 t).
Proof.
  unfold Text.sentence_structure.
  destruct (Z.leb_spec 3 (Py.len_list ss)) as [H | H].
  - rewrite variance_of_returns by (rewrite len_list_map; lia).
    eexists. split; [reflexivity | ].
    destruct (_ <? _)%float; [right; left | right; right]; reflexivity.
  - eexists. split; [reflexivity | left; reflexivity].
Qed.

Lemma vocabulary_cases s t :
  exists t',
    Text.vocabulary s t = Some t'
    /\ (t' = t \/ t' = add_human 1 t \/ t' = add_ai 1 t).
Proof.
  unfold Text.vocabulary.
  destruct (Z.ltb_spec 0 (Py.len_list (Py.findall_words s))) as [H | H].
  - rewrite truediv_returns by lia.
    eexists. split; [reflexivity | ].
    destruct (0.7 <? _)%float; [right; left; reflexivity | ].
    destruct (_ <? 0.5)%float; [right; right | left]; reflexivity.
  - eexists. split; [reflexivity | left; reflexivity].
Qed.

Lemma aspect_cases w h t :
  exists t', Image.aspect w h t = Some t' /\ (t' = t \/ t' = add_ai 1 t).
Proof.
  unfold Image.aspect.
  destruct (Z.ltb_spec 0 h) as [H | H];
    [rewrite truediv_returns by lia | ];
    (eexists; split; [reflexivity | ]);
    destruct (existsb _ _); [right | left | right | left]; reflexivity.
Qed.

Lemma compression_cases n w h t :
  exists t',
    Image.compression n w h t = Some t' /\ (t' = t \/ t' = add_ai 1 t).
Proof.
  unfold Image.compression.
  destruct (Z.ltb_spec 0 (w * h)) as [H | H].
  - rewrite truediv_returns by lia.
    eexists. split; [reflexivity | ].
    destruct (_ && _)%bool; [right | left]; reflexivity.
  - eexists. split; [reflexivity | left; reflexivity].
Qed.

Lemma indicators_total pow (text : string) (t : tally) :
  Text.indicators pow text = Some t -> ai t + human t <= 15.
Proof.
  assert (S2 : forall s t,
             ai (Text.transitions s t) + human (Text.transitions s t)
             <= ai t + human t + 2)
    by (unfold Text.transitions; total_by_cases).
  assert (S3 : forall ss t,
             ai (Text.repeated_starts ss t)
             + human (Text.repeated_starts ss t) <= ai t + human t + 2)
    by (unfold Text.repeated_starts; total_by_cases).
  assert (S4 : forall s t,
             ai (Text.hedging s t) + human (Text.hedging s t)
             <= ai t + human t + 1)
    by (unfold Text.hedging; total_by_cases).
  assert (S5 : forall s l t,
             ai (Text.pronouns s l t) + human (Text.pronouns s l t)
             <= ai t + human t + 2)
    by (unfold Text.pronouns; total_by_cases).
  assert (S6 : forall s t,
             ai (Text.contraction_use s t)
             + human (Text.contraction_use s t) <= ai t + human t + 2)
    by (unfold Text.contraction_use; total_by_cases).
  assert (S7 : forall s t,
             ai (Text.expressiveness s t) + human (Text.expressiveness s t)
             <= ai t + human t + 1)
    by (unfold Text.expressiveness; total_by_cases).
  assert (S8 : forall s t,
             ai (Text.lists s t) + human (Text.lists s t)
             <= ai t + human t + 1)
    by (unfold Text.lists; total_by_cases).
  assert (S9 : forall s t,
             ai (Text.grammar s t) + human (Text.grammar s t)
             <= ai t + human t + 1)
    by (unfold Text.grammar; total_by_cases).
  unfold Text.indicators.
  set (l := Py.lower text). set (ss := Text.sentences_of text).
  set (t0 := {| ai := 0; human := 0 |}).
  destruct (sentence_structure_cases pow ss t0) as [t1 [E1 C1]].
  rewrite E1.
  set (t2 := Text.transitions l t1).
  set (t3 := Text.repeated_starts ss t2).
  set (t4 := Text.hedging l t3).
  set (t5 := Text.pronouns text l t4).
  set (t6 := Text.contraction_use text t5).
  set (t7 := Text.expressiveness text t6).
  set (t8 := Text.lists text t7).
  set (t9 := Text.grammar l t8).
  destruct (vocabulary_cases l t9) as [t10 [E10 C10]].
  rewrite E10. intros Ht. injection Ht as <-.
  assert (B1 : ai t1 + human t1 <= 2)
    by (destruct C1 as [-> | [-> | ->]]; simpl; lia).
  pose proof (S2 l t1) as B2. fold t2 in B2.
  pose proof (S3 ss t2) as B3. fold t3 in B3.
  pose proof (S4 l t3) as B4. fold t4 in B4.
  pose proof (S5 text l t4) as B5. fold t5 in B5.
  pose proof (S6 text t5) as B6. fold t6 in B6.
  pose proof (S7 text t6) as B7. fold t7 in B7.
  pose proof (S8 text t7) as B8. fold t8 in B8.
  pose proof (S9 l t8) as B9. fold t9 in B9.
  assert (B10 : ai t10 + human t10 <= ai t9 + human t9 + 1)
    by (destruct C10 as [-> | [-> | ->]]; simpl; lia).
  lia.
Qed.

Lemma scores_total (file_size : Z) (image : Image.PILImage) (t : tally) :
  Image.scores file_size image = Some t -> ai t + human t <= 13.
Proof.
  assert (S1 : forall w h t,
             ai (Image.dimensions w h t) + human (Image.dimensions w h t)
             <= ai t + human t + 3)
    by (unfold Image.dimensions; total_by_cases).
  assert (S2 : forall w h t,
             ai (Image.multiples w h t) + human (Image.multiples w h t)
             <= ai t + human t + 2)
    by (unfold Image.multiples; total_by_cases).
  assert (S5 : forall t,
             ai (Image.colours image t) + human (Image.colours image t)
             <= ai t + human t + 3).
  { intros t'. unfold Image.colours.
    destruct (Image.getextrema image); [ | lia].
    rewrite truediv_returns by lia.
    split_ifs; unfold add_ai, add_human; simpl; lia. }
  assert (S6 : forall t,
             ai (Image.exif_data image t) + human (Image.exif_data image t)
             <= ai t + human t + 3).
  { intros t'. unfold Image.exif_data.
    destruct (Image.getexif image);
      split_ifs; unfold add_ai, add_human; simpl; lia. }
  unfold Image.scores. destruct (Image.size image) as [w h].
  set (t0 := {| ai := 0; human := 0 |}).
  set (t1 := Image.dimensions w h t0).
  set (t2 := Image.multiples w h t1).
  destruct (aspect_cases w h t2) as [t3 [E3 C3]]. rewrite E3.
  destruct (compression_cases file_size w h t3) as [t4 [E4 C4]].
  rewrite E4.
  set (t5 := Image.colours image t4).
  intros Ht. injection Ht as <-.
  pose proof (S1 w h t0) as B1. fold t1 in B1.
  pose proof (S2 w h t1) as B2. fold t2 in B2.
  assert (B3 : ai t3 + human t3 <= ai t2 + human t2 + 1)
    by (destruct C3 as [-> | ->]; simpl; lia).
  assert (B4 : ai t4 + human t4 <= ai t3 + human t3 + 1)
    by (destruct C4 as [-> | ->]; simpl; lia).
  pose proof (S5 t4) as B5. fold t5 in B5.
  pose proof (S6 t5) as B6.
  simpl in B1. lia.
Qed.

(** X13. For every text the ten signals return (none of their divisions
    is by zero) and the counters are bounded: [ai_indicators] lies in
    [0, 11], [human_indicators] in [0, 8], and since four signals add to
    one side or to the other, never to both, their sum is at most 15. *)
Theorem text_counters_bounded pow (text : string) :
  exists t,
    Text.indicators pow text = Some t
    /\ 0 <= ai t <= 11
    /\ 0 <= human t <= 8
    /\ ai t + human t <= 15.
Proof.
  destruct (indicators_returns pow text) as [t [Ht [Ha Hh]]].
  pose proof (indicators_total pow text t Ht) as Hsum.
  exists t. split; [exact Ht | split; [exact Ha | split; [exact Hh | ]]].
  exact Hsum.
Qed.

(** X14. For every image and file size the six signals return (none
    of their divisions is by zero) and the counters are bounded:
    [ai_score] lies in [0, 12], [human_score] in [0, 5], and their sum
    in [2, 13]. *)
Theorem image_counters_bounded (file_size : Z) (image : Image.PILImage) :
  exists t,
    Image.scores file_size image = Some t
    /\ 0 <= ai t <= 12
    /\ 0 <= human t <= 5
    /\ 2 <= ai t + human t <= 13.
Proof.
  destruct (scores_returns file_size image) as [t [Ht [Ha [Hh Hlow]]]].
  pose proof (scores_total file_size image t Ht) as Hsum.
  exists t. split; [exact Ht | split; [exact Ha | split; [exact Hh | ]]].
  split; [exact Hlow | exact Hsum].
Qed.

(** ** The confidence *)

Module PercentFacts.
Import Percent.

Lemma RVg_nonneg (N : Z) : 0 <= N -> 0 <= RVg N.
Proof.
  intros H. unfold RVg.
  set (n := Z.max (digits N - 53) 46).
  pose proof (rne_nonneg n ltac:(lia) N H).
  pose proof (pow2_pos n ltac:(lia)). nia.
Qed.

Lemma RVg_mono (N1 N2 : Z) : 0 <= N1 <= N2 -> RVg N1 <= RVg N2.
Proof.
  intros [H1 H12].
  destruct (Z.eq_dec N1 0) as [-> | Hz].
  { change (RVg 0) with 0. apply RVg_nonneg. lia. }
  assert (HN1 : 0 < N1) by lia. assert (HN2 : 0 < N2) by lia.
  pose proof (digits_mono N1 N2 HN1 H12) as Hd.
  pose proof (digits_pos N1 HN1) as Hd1.
  pose proof (digits_bounds N1 HN1) as [_ Hu1].
  pose proof (digits_bounds N2 HN2) as [Hl2 _].
  unfold RVg.
  set (n1 := Z.max (digits N1 - 53) 46).
  set (n2 := Z.max (digits N2 - 53) 46).
  pose proof (pow2_pos n1 ltac:(lia)) as Hp1.
  pose proof (pow2_pos n2 ltac:(lia)) as Hp2.
  destruct (Z.eq_dec n1 n2) as [E | E].
  - rewrite <- E. pose proof (rne_mono n1 ltac:(lia) N1 N2 H12). nia.
  - assert (Hlow : 2 ^ 52 <= rne N2 n2).
    { apply rne_ge_pow; try lia.
      replace (n2 + 52) with (digits N2 - 1) by lia. exact Hl2. }
    assert (Hup : rne N1 n1 * 2 ^ n1 <= 2 ^ (52 + n2)).
    { destruct (Z_le_gt_dec n1 (digits N1)) as [Hle | Hgt].
      - transitivity (2 ^ (digits N1 - n1) * 2 ^ n1).
        + apply Z.mul_le_mono_nonneg_r; [lia | ].
          apply rne_le_pow; try lia.
          replace (n1 + (digits N1 - n1)) with (digits N1) by lia.
          exact Hu1.
        + rewrite <- Z.pow_add_r by lia. apply Z.pow_le_mono_r; lia.
      - transitivity (2 ^ 0 * 2 ^ n1).
        + apply Z.mul_le_mono_nonneg_r; [lia | ].
          apply rne_le_pow; try lia. rewrite Z.add_0_r.
          eapply Z.lt_le_trans; [exact Hu1 | apply Z.pow_le_mono_r; lia].
        + rewrite <- Z.pow_add_r by lia. apply Z.pow_le_mono_r; lia. }
    transitivity (2 ^ (52 + n2)); [exact Hup | ].
    rewrite Z.pow_add_r by lia. nia.
Qed.

Lemma percent_mono (v1 v2 : Z) : 0 <= v1 <= v2 -> percent v1 <= percent v2.
Proof.
  intros H. unfold percent.
  apply Z.div_le_mono; [apply pow2_pos; lia | ].
  apply RVg_mono. lia.
Qed.

(** [int] of a positive finite float. *)
Lemma int_finite (y : float) (m : positive) (e : Z) :
  Prim2SF y = S754_finite false m e -> -1120 <= e ->
  Py.int y = Some (Z.pos m * 2 ^ (e + 1120) / 2 ^ 1120).
Proof.
  intros Hy He. unfold Py.int. rewrite Hy. f_equal.
  destruct (Z.leb_spec 0 e) as [H | H].
  - rewrite Z.pow_add_r by lia.
    rewrite Z.mul_assoc, Z.div_mul by (apply Z.pow_nonzero; lia).
    reflexivity.
  - assert (E : 2 ^ 1120 = 2 ^ (- e) * 2 ^ (e + 1120)).
    { rewrite <- Z.pow_add_r by lia. f_equal. lia. }
    rewrite E, Z.div_mul_cancel_r by (apply Z.pow_nonzero; lia).
    reflexivity.
Qed.

Lemma int_rounded (y : float) (m1 e1 : Z) :
  Prim2SF y = rounded false m1 e1 ->
  0 <= m1 <= 2 ^ 53 -> -1120 <= e1 ->
  Py.int y = Some (m1 * 2 ^ (e1 + 1120) / 2 ^ 1120).
Proof.
  intros Hy Hm He. unfold rounded in Hy.
  destruct (Z.eqb_spec m1 0) as [-> | Hz].
  - unfold Py.int. rewrite Hy. reflexivity.
  - destruct (Z.ltb_spec m1 (2 ^ 53)) as [Hlt | Hge].
    + rewrite (int_finite y _ _ Hy He).
      rewrite Z2Pos.id by lia. reflexivity.
    + rewrite (int_finite y _ _ Hy ltac:(lia)).
      replace m1 with (2 ^ 53) by lia.
      rewrite Z2Pos.id by (simpl; lia).
      replace (e1 + 1 + 1120) with (1 + (e1 + 1120)) by lia.
      rewrite (Z.pow_add_r 2 1 (e1 + 1120)) by lia.
      rewrite Z.mul_assoc. reflexivity.
Qed.

(** [int(x * 100)] is [percent] of the units of [x]. *)
Lemma int_mul_hundred (x : float) (v : Z) :
  Vf x = Some v -> 0 <= v <= 2 ^ 1075 ->
  Py.int (x * 100) = Some (percent v).
Proof.
  intros Hv Hr. unfold Vf in Hv.
  pose proof (Prim2SF_valid x) as Hx.
  pose proof (mul_spec x 100) as Hmul.
  change (Prim2SF 100) with hundred in Hmul.
  destruct (Prim2SF x) as [sx | sx | | sx mx ex] eqn:Ex; try discriminate.
  - injection Hv as <-. unfold Py.int. rewrite Hmul. reflexivity.
  - apply valid_finite in Hx. destruct Hx as [Cx Ex'].
    unfold V in Hv. set (X := Z.pos mx * 2 ^ (ex + 1074)) in *.
    injection Hv as Hv.
    assert (HX : 0 < X)
      by (unfold X; pose proof (pow2_pos (ex + 1074)); nia).
    destruct sx; unfold cond_Zopp in Hv; [lia | ]. subst v.
    pose proof (digits_bounds (Z.pos mx) ltac:(lia)) as [Lx Ux].
    pose proof (digits_pos (Z.pos mx) ltac:(lia)) as Dx.
    assert (Hsmall : digits (Z.pos mx) + ex <= 2).
    { assert (2 ^ (digits (Z.pos mx) - 1 + (ex + 1074)) <= 2 ^ 1075).
      { rewrite Z.pow_add_r by lia.
        transitivity X; [ | lia]. unfold X.
        apply Z.mul_le_mono_nonneg_r; [apply Z.pow_nonneg | ]; lia. }
      apply Z.pow_le_mono_r_iff in H; lia. }
    unfold SF64mul, SFmul, hundred in Hmul. unfold xorb in Hmul.
    set (M := Z.pos (mx * 7036874417766400)) in *.
    assert (HM : M = Z.pos mx * 7036874417766400) by reflexivity.
    assert (HM0 : 0 < M) by lia.
    assert (Dlo : 53 <= digits M).
    { apply (digits_ge_of_le M 52); [lia | ].
      change (2 ^ 52) with 4503599627370496. lia. }
    assert (Dhi : digits M <= digits (Z.pos mx) + 53).
    { apply digits_le_of_lt; [lia | ].
      rewrite Z.pow_add_r by lia.
      change (2 ^ 53) with 9007199254740992. nia. }
    set (E := ex + -46) in *.
    assert (He1 : fexp64 (digits M + E) = Z.max (digits M + E - 53) (-1074))
      by apply fexp64_eq.
    rewrite binary_round_aux_spec in Hmul by lia.
    set (e1 := fexp64 (digits M + E)) in *.
    set (m1 := rne M (e1 - E)) in *.
    assert (Hm1 : 0 <= m1 <= 2 ^ 53).
    { split; [apply rne_nonneg; lia | ].
      pose proof (digits_bounds M HM0) as [_ Hlt].
      transitivity (2 ^ (digits M - (e1 - E))).
      - apply rne_le_pow; try lia.
        replace (e1 - E + (digits M - (e1 - E))) with (digits M) by lia.
        exact Hlt.
      - apply Z.pow_le_mono_r; lia. }
    rewrite (int_rounded _ m1 e1 Hmul Hm1 ltac:(lia)).
    f_equal. unfold percent. f_equal.
    unfold RVg.
    assert (HN : X * 7036874417766400 = M * 2 ^ (ex + 1074))
      by (unfold X; lia).
    rewrite HN, digits_mul_pow2 by lia.
    assert (Hn : Z.max (digits M + (ex + 1074) - 53) 46 = e1 + 1120)
      by (unfold E in *; lia).
    rewrite Hn.
    assert (Hrne : rne (M * 2 ^ (ex + 1074)) (e1 + 1120) = m1).
    { replace (e1 + 1120) with ((e1 - E) + (ex + 1074))
        by (unfold E; lia).
      apply rne_scale; unfold E in *; lia. }
    rewrite Hrne. reflexivity.
Qed.

End PercentFacts.

Module ConfidenceFacts.
Import Percent PercentFacts.

Lemma clamp_units (x : float) (vx : Z) :
  Vf x = Some vx ->
  Vf (Py.fmax 0 (Py.fmin 1 x)) = Some (Z.max 0 (Z.min (2 ^ 1074) vx)).
Proof.
  intros Hx. unfold Py.fmin.
  rewrite (ltb_Vf x 1 vx (2 ^ 1074) Hx Vf_one).
  assert (P : 0 < 2 ^ 1074) by (apply pow2_pos; lia).
  destruct (Z.ltb_spec vx (2 ^ 1074)) as [H1 | H1]; unfold Py.fmax.
  - rewrite (ltb_Vf 0 x 0 vx Vf_zero Hx).
    destruct (Z.ltb_spec 0 vx) as [H0 | H0].
    + rewrite Hx. f_equal. lia.
    + rewrite Vf_zero. f_equal. lia.
  - rewrite (ltb_Vf 0 1 0 (2 ^ 1074) Vf_zero Vf_one).
    destruct (Z.ltb_spec 0 (2 ^ 1074)) as [H0 | H0]; [ | lia].
    rewrite Vf_one. f_equal. lia.
Qed.

Lemma clamped_bounds (vp vj : Z) : 0 <= clamped vp vj <= 2 ^ 1074.
Proof.
  assert (P : 0 < 2 ^ 1074) by (apply pow2_pos; lia).
  unfold clamped. lia.
Qed.

Lemma clamped_mono (vp v1 v2 : Z) :
  v1 <= v2 -> clamped vp v1 <= clamped vp v2.
Proof.
  intros H. unfold clamped.
  pose proof (RVs_mono (vp + v1) (vp + v2) ltac:(lia)). lia.
Qed.

Lemma RVs_one : RVs (2 ^ 1074) = 2 ^ 1074.
Proof. vm_compute. reflexivity. Qed.

Lemma rest_bounds (vc : Z) :
  0 <= vc <= 2 ^ 1074 -> 0 <= RVs (2 ^ 1074 - vc) <= 2 ^ 1074.
Proof.
  intros H.
  pose proof (RVs_mono 0 (2 ^ 1074 - vc) ltac:(lia)) as H0.
  pose proof (RVs_mono (2 ^ 1074 - vc) (2 ^ 1074) ltac:(lia)) as H1.
  change (RVs 0) with 0 in H0. rewrite RVs_one in H1. lia.
Qed.

(** [respond] on floats of known units. *)
Lemma respond_units (p j : float) (lo hi vp vj : Z) :
  Vf p = Some vp -> Vf j = Some vj -> Z.abs (vp + vj) < 2 ^ 2097 ->
  respond p j lo hi = Returned (response vp vj lo hi).
Proof.
  intros Hp Hj H. unfold respond, response. cbv zeta.
  pose proof (clamp_units _ _ (add_Vf p j vp vj Hp Hj H)) as Hc.
  fold (clamped vp vj) in Hc.
  pose proof (clamped_bounds vp vj) as Hb.
  set (q := Py.fmax 0 (Py.fmin 1 (p + j))) in *.
  set (vc := clamped vp vj) in *.
  assert (P : 2 ^ 1074 < 2 ^ 1075) by (apply Z.pow_lt_mono_r; lia).
  rewrite (ltb_Vf 0.5 q (2 ^ 1073) vc Vf_half Hc).
  destruct (2 ^ 1073 <? vc).
  - rewrite (int_mul_hundred q vc Hc) by lia. reflexivity.
  - pose proof (rest_bounds vc Hb) as Hr.
    assert (Hs : Vf (1 - q) = Some (RVs (2 ^ 1074 - vc))).
    { apply sub_Vf; [exact Vf_one | exact Hc | ].
      assert (2 ^ 1074 < 2 ^ 2097) by (apply Z.pow_lt_mono_r; lia). lia. }
    rewrite (int_mul_hundred (1 - q) _ Hs) by lia. reflexivity.
Qed.

Section Jitter.

Variables (vp vj lo hi : Z).
Hypothesis band_ok : lo <= hi.
Hypothesis jitter_ok : - units 0.05 <= vj <= units 0.05.

(** Counters that agree: the confidence is the upper end of the band. *)
Lemma response_highest_ai :
  2 ^ 1073 < clamped vp (- units 0.05) ->
  hi <= percent (clamped vp (- units 0.05)) ->
  response vp vj lo hi = {| status := "ai-generated"; confidence := hi |}.
Proof.
  intros Hd Hc. unfold response. cbv zeta.
  pose proof (clamped_mono vp _ _ (proj1 jitter_ok)) as Hm.
  pose proof (clamped_bounds vp (- units 0.05)) as Hb.
  pose proof (percent_mono _ _ (conj (proj1 Hb) Hm)) as Hpm.
  replace (2 ^ 1073 <? clamped vp vj) with true
    by (symmetry; apply Z.ltb_lt; lia).
  f_equal. lia.
Qed.

Lemma response_highest_real :
  clamped vp (units 0.05) <= 2 ^ 1073 ->
  hi <= percent (RVs (2 ^ 1074 - clamped vp (units 0.05))) ->
  response vp vj lo hi = {| status := "real"; confidence := hi |}.
Proof.
  intros Hd Hc. unfold response. cbv zeta.
  pose proof (clamped_mono vp _ _ (proj2 jitter_ok)) as Hm.
  pose proof (clamped_bounds vp (units 0.05)) as Hb.
  pose proof (rest_bounds _ Hb) as Hr.
  pose proof (RVs_mono (2 ^ 1074 - clamped vp (units 0.05))
                (2 ^ 1074 - clamped vp vj) ltac:(lia)) as Hrm.
  pose proof (percent_mono _ _ (conj (proj1 Hr) Hrm)) as Hpm.
  replace (2 ^ 1073 <? clamped vp vj) with false
    by (symmetry; apply Z.ltb_ge; lia).
  f_equal. lia.
Qed.

(** Counters that are close: the confidence is the lower end of the
    band, whatever the label. *)
Lemma response_lowest :
  percent (clamped vp (units 0.05)) <= lo ->
  percent (RVs (2 ^ 1074 - clamped vp (- units 0.05))) <= lo ->
  exists s,
    response vp vj lo hi = {| status := s; confidence := lo |}.
Proof.
  intros Hu Hl. unfold response. cbv zeta.
  pose proof (clamped_mono vp _ _ (proj1 jitter_ok)) as Hm1.
  pose proof (clamped_mono vp _ _ (proj2 jitter_ok)) as Hm2.
  pose proof (clamped_bounds vp vj) as Hb.
  pose proof (rest_bounds _ Hb) as Hr.
  destruct (2 ^ 1073 <? clamped vp vj); eexists; f_equal.
  - pose proof (percent_mono _ _ (conj (proj1 Hb) Hm2)). lia.
  - pose proof (RVs_mono (2 ^ 1074 - clamped vp vj)
                  (2 ^ 1074 - clamped vp (- units 0.05)) ltac:(lia)) as Hrm.
    pose proof (percent_mono _ _ (conj (proj1 Hr) Hrm)). lia.
Qed.

Lemma response_lowest_real :
  clamped vp (units 0.05) <= 2 ^ 1073 ->
  percent (RVs (2 ^ 1074 - clamped vp (- units 0.05))) <= lo ->
  response vp vj lo hi = {| status := "real"; confidence := lo |}.
Proof.
  intros Hd Hl. unfold response. cbv zeta.
  pose proof (clamped_mono vp _ _ (proj1 jitter_ok)) as Hm1.
  pose proof (clamped_mono vp _ _ (proj2 jitter_ok)) as Hm2.
  pose proof (clamped_bounds vp vj) as Hb.
  pose proof (rest_bounds _ Hb) as Hr.
  pose proof (RVs_mono (2 ^ 1074 - clamped vp vj)
                (2 ^ 1074 - clamped vp (- units 0.05)) ltac:(lia)) as Hrm.
  pose proof (percent_mono _ _ (conj (proj1 Hr) Hrm)).
  replace (2 ^ 1073 <? clamped vp vj) with false
    by (symmetry; apply Z.ltb_ge; lia).
  f_equal. lia.
Qed.

End Jitter.

Lemma jitter_sum (vp vj : Z) :
  0 <= vp <= 2 ^ 1075 -> - units 0.05 <= vj <= units 0.05 ->
  Z.abs (vp + vj) < 2 ^ 2097.
Proof.
  intros Hp Hj. pose proof units_jitter as Hu.
  assert (2 ^ 1074 < 2 ^ 1075) by (apply Z.pow_lt_mono_r; lia).
  assert (2 * 2 ^ 1075 < 2 ^ 2097).
  { change (2 * 2 ^ 1075) with (2 ^ 1 * 2 ^ 1075).
    rewrite <- Z.pow_add_r by lia. apply Z.pow_lt_mono_r; lia. }
  lia.
Qed.

(** The quotient of counters on one side only is 1 or 0. *)
Lemma quotient_all_ai (a : Z) :
  1 <= a <= 12 -> Vf (Py.quotient a (a + 0)) = Some (2 ^ 1074).
Proof. intros Ha. enum_Z a 1 12%nat; by_vm. Qed.

Lemma quotient_all_human (h : Z) :
  1 <= h <= 8 -> Vf (Py.quotient 0 (0 + h)) = Some 0.
Proof. intros Hh. enum_Z h 1 8%nat; by_vm. Qed.

Lemma one_side_checks :
  (2 ^ 1073 < clamped (2 ^ 1074) (- units 0.05)
   /\ 90 <= percent (clamped (2 ^ 1074) (- units 0.05)))
  /\ (clamped 0 (units 0.05) <= 2 ^ 1073
      /\ 90 <= percent (RVs (2 ^ 1074 - clamped 0 (units 0.05)))).
Proof. split; split; by_vm. Qed.

(** The probability of counters on one side only gets the upper end of
    the band with every jitter. *)
Lemma respond_one_side (default : float) (t : tally) (jitter : float)
  (lo hi : Z) :
  0 <= ai t <= 12 -> 0 <= human t <= 8 -> lo <= hi <= 90 ->
  (-0.05 <=? jitter)%float = true -> (jitter <=? 0.05)%float = true ->
  (human t = 0 -> 0 < ai t ->
   respond (Spec.probability default t) jitter lo hi
   = Returned {| status := "ai-generated"; confidence := hi |})
  /\ (ai t = 0 -> 0 < human t ->
      respond (Spec.probability default t) jitter lo hi
      = Returned {| status := "real"; confidence := hi |}).
Proof.
  intros Ha Hh Hb J1 J2.
  destruct (jitter_Vf jitter J1 J2) as [vj [Hj Hr]].
  destruct one_side_checks as [[A1 A2] [R1 R2]].
  assert (P : 0 < 2 ^ 1074 < 2 ^ 1075)
    by (split; [apply pow2_pos | apply Z.pow_lt_mono_r]; lia).
  split; intros Hz Hpos.
  - rewrite (quotient_of_tally default t ltac:(lia)), Hz.
    rewrite (respond_units _ jitter lo hi (2 ^ 1074) vj
               (quotient_all_ai (ai t) ltac:(lia)) Hj
               (jitter_sum (2 ^ 1074) vj ltac:(lia) Hr)).
    f_equal. apply response_highest_ai; lia.
  - rewrite (quotient_of_tally default t ltac:(lia)), Hz.
    rewrite (respond_units _ jitter lo hi 0 vj
               (quotient_all_human (human t) ltac:(lia)) Hj
               (jitter_sum 0 vj ltac:(lia) Hr)).
    f_equal. apply response_highest_real; lia.
Qed.

(** Close counters: both ends of the jitter leave the percentage at or
    below 60. *)
Lemma quotient_close (a h : Z) :
  0 <= a <= 12 -> 0 <= h <= 8 -> 9 * h < 11 * a -> 9 * a <= 11 * h ->
  Vf (Py.quotient a (a + h)) = Some (units (Py.quotient a (a + h)))
  /\ 0 <= units (Py.quotient a (a + h)) <= 2 ^ 1075
  /\ percent (clamped (units (Py.quotient a (a + h))) (units 0.05)) <= 60
  /\ percent (RVs (2 ^ 1074
                   - clamped (units (Py.quotient a (a + h))) (- units 0.05)))
     <= 60.
Proof.
  intros Ha Hh H1 H2.
  enum_Z a 0 13%nat; enum_Z h 0 9%nat;
    first [ exfalso; lia
          | split; [ | split; [split | split]]; by_vm ].
Qed.

Lemma default_checks :
  clamped (units 0.45) (units 0.05) <= 2 ^ 1073
  /\ percent (RVs (2 ^ 1074 - clamped (units 0.45) (- units 0.05))) <= 60.
Proof. split; by_vm. Qed.

Lemma respond_close (default : float) (t : tally) (jitter : float)
  (lo hi : Z) :
  0 <= ai t <= 12 -> 0 <= human t <= 8 -> 60 <= lo <= hi ->
  9 * human t < 11 * ai t -> 9 * ai t <= 11 * human t ->
  (-0.05 <=? jitter)%float = true -> (jitter <=? 0.05)%float = true ->
  exists s,
    respond (Spec.probability default t) jitter lo hi
    = Returned {| status := s; confidence := lo |}.
Proof.
  intros Ha Hh Hb H1 H2 J1 J2.
  destruct (jitter_Vf jitter J1 J2) as [vj [Hj Hr]].
  rewrite (quotient_of_tally default t ltac:(lia)).
  destruct (quotient_close (ai t) (human t) Ha Hh H1 H2)
    as [Hv [Hrange [Hu Hl]]].
  rewrite (respond_units _ jitter lo hi _ vj Hv Hj
             (jitter_sum _ _ Hrange Hr)).
  assert (L : exists s,
             response (units (Py.quotient (ai t) (ai t + human t))) vj lo hi
             = {| status := s; confidence := lo |})
    by (apply response_lowest; lia).
  destruct L as [s Hs]. exists s. rewrite Hs. reflexivity.
Qed.

End ConfidenceFacts.

Import Percent PercentFacts ConfidenceFacts.

(** X15. In the text scorer, counters on one side only give the highest
    confidence with every jitter of [-0.05, +0.05]: a text of at least 50
    characters with [human_indicators = 0 < ai_indicators] is answered
    "ai-generated" with confidence 90 exactly, and one with
    [ai_indicators = 0 < human_indicators] is answered "real" with
    confidence 90 exactly. *)
Theorem text_one_sided_confidence pow (text : string) (jitter : float)
  (t : tally) :
  50 <= Py.len text ->
  Text.indicators pow text = Some t ->
  (-0.05 <=? jitter)%float = true -> (jitter <=? 0.05)%float = true ->
  (human t = 0 -> 0 < ai t ->
   Text.analyze_text pow text jitter
   = Returned {| status := "ai-generated"; confidence := 90 |})
  /\ (ai t = 0 -> 0 < human t ->
      Text.analyze_text pow text jitter
      = Returned {| status := "real"; confidence := 90 |}).
Proof.
  intros Hlen Ht J1 J2.
  pose proof (indicators_bounds pow text t Ht) as [Ha Hh].
  rewrite (analyze_text_of_counters pow text jitter t Hlen Ht).
  apply respond_one_side; (assumption || lia).
Qed.

Lemma text_one_sided_confidence_witness :
  Text.indicators Inputs.pow Inputs.fifty_tests
  = Some {| ai := 3; human := 0 |}
  /\ Text.analyze_text Inputs.pow Inputs.fifty_tests (-0.05)
     = Returned {| status := "ai-generated"; confidence := 90 |}
  /\ Text.indicators Inputs.pow Inputs.underscores
     = Some {| ai := 0; human := 1 |}
  /\ Text.analyze_text Inputs.pow Inputs.underscores 0.05
     = Returned {| status := "real"; confidence := 90 |}.
Proof.
  split; [vm_compute; reflexivity | split; [ | split]].
  - apply (proj1 (text_one_sided_confidence Inputs.pow Inputs.fifty_tests
                    (-0.05) {| ai := 3; human := 0 |}
                    ltac:(vm_compute; discriminate)
                    ltac:(vm_compute; reflexivity) eq_refl eq_refl));
      vm_compute; reflexivity.
  - vm_compute. reflexivity.
  - apply (proj2 (text_one_sided_confidence Inputs.pow Inputs.underscores
                    0.05 {| ai := 0; human := 1 |}
                    ltac:(vm_compute; discriminate)
                    ltac:(vm_compute; reflexivity) eq_refl eq_refl));
      vm_compute; reflexivity.
Defined.

(** X16. In the text scorer, close counters give the lowest confidence
    with every jitter of [-0.05, +0.05]: a text of at least 50 characters
    that fires no signal is answered "real" with confidence 60 exactly,
    and one whose [ai_indicators / total] lies above 0.45 and at most at
    0.55 is answered with confidence 60 exactly, whichever label the
    jitter gives it. *)
Theorem text_close_confidence pow (text : string) (jitter : float)
  (t : tally) :
  50 <= Py.len text ->
  Text.indicators pow text = Some t ->
  (-0.05 <=? jitter)%float = true -> (jitter <=? 0.05)%float = true ->
  (ai t + human t = 0 ->
   Text.analyze_text pow text jitter
   = Returned {| status := "real"; confidence := 60 |})
  /\ (9 * human t < 11 * ai t -> 9 * ai t <= 11 * human t ->
      exists s,
        Text.analyze_text pow text jitter
        = Returned {| status := s; confidence := 60 |}).
Proof.
  intros Hlen Ht J1 J2.
  pose proof (indicators_bounds pow text t Ht) as [Ha Hh].
  rewrite (analyze_text_of_counters pow text jitter t Hlen Ht).
  split.
  - intros Hz. unfold Spec.probability. rewrite Hz. simpl Z.eqb. cbv iota.
    destruct (jitter_Vf jitter J1 J2) as [vj [Hj Hr]].
    destruct default_stays_real as [Hrange _].
    destruct default_checks as [Hreal Hlow].
    rewrite (respond_units 0.45 jitter 60 90 (units 0.45) vj
               Vf_default Hj (jitter_sum _ _ Hrange Hr)).
    f_equal. apply response_lowest_real; (assumption || lia).
  - intros H1 H2. apply respond_close; (assumption || lia).
Qed.

Lemma text_close_confidence_witness :
  Text.indicators Inputs.pow Inputs.hyphens
  = Some {| ai := 0; human := 0 |}
  /\ Text.analyze_text Inputs.pow Inputs.hyphens (-0.05)
     = Returned {| status := "real"; confidence := 60 |}
  /\ Text.indicators Inputs.pow Samples.wows
     = Some {| ai := 1; human := 1 |}
  /\ exists s,
       Text.analyze_text Inputs.pow Samples.wows 0.05
       = Returned {| status := s; confidence := 60 |}.
Proof.
  split; [vm_compute; reflexivity | split; [ | split]].
  - apply (proj1 (text_close_confidence Inputs.pow Inputs.hyphens (-0.05)
                    {| ai := 0; human := 0 |}
                    ltac:(vm_compute; discriminate)
                    ltac:(vm_compute; reflexivity) eq_refl eq_refl)).
    vm_compute. reflexivity.
  - vm_compute. reflexivity.
  - apply (proj2 (text_close_confidence Inputs.pow Samples.wows 0.05
                    {| ai := 1; human := 1 |}
                    ltac:(vm_compute; discriminate)
                    ltac:(vm_compute; reflexivity) eq_refl eq_refl));
      vm_compute; (reflexivity || discriminate).
Defined.

(** X17. In the image scorer, counters on one side only give the highest
    confidence with every jitter of [-0.05, +0.05]: a decoded upload with
    [human_score = 0] is answered "ai-generated" with confidence 88
    exactly, and one with [ai_score = 0] is answered "real" with
    confidence 88 exactly. *)
Theorem image_one_sided_confidence
  (open_rgb : list Byte.byte -> string + Image.PILImage)
  (str_http : Z -> string -> string)
  (file : Image.UploadFile) (image : Image.PILImage) (jitter : float)
  (t : tally) :
  Image.is_image_type (Image.content_type file) = true ->
  Py.len_list (Image.contents file) <= 5 * 1024 * 1024 ->
  open_rgb (Image.contents file) = inr image ->
  Image.scores (Py.len_list (Image.contents file)) image = Some t ->
  (-0.05 <=? jitter)%float = true -> (jitter <=? 0.05)%float = true ->
  (human t = 0 ->
   Image.analyze_image open_rgb str_http file jitter
   = Returned {| status := "ai-generated"; confidence := 88 |})
  /\ (ai t = 0 ->
      Image.analyze_image open_rgb str_http file jitter
      = Returned {| status := "real"; confidence := 88 |}).
Proof.
  intros Htype Hsize Hopen Hscores J1 J2.
  destruct (analyze_image_of_counters open_rgb str_http file image jitter
              t Htype Hsize Hopen Hscores) as [[Ha [Hh Ht]] Hrun].
  rewrite Hrun.
  destruct (respond_one_side 0.5 t jitter 65 88 ltac:(lia) ltac:(lia)
              ltac:(lia) J1 J2) as [Hai Hreal].
  split; intros Hz; [apply Hai | apply Hreal]; lia.
Qed.

Lemma image_one_sided_confidence_witness :
  Image.scores 1789 Samples.stripped_photo
  = Some {| ai := 7; human := 0 |}
  /\ Image.analyze_image (Samples.decoder Samples.stripped_photo)
       Inputs.str_status_detail (Inputs.png Inputs.gray_bytes) (-0.05)
     = Returned {| status := "ai-generated"; confidence := 88 |}
  /\ Image.scores 1789 Samples.snapshot = Some {| ai := 0; human := 5 |}
  /\ Image.analyze_image (Samples.decoder Samples.snapshot)
       Inputs.str_status_detail (Inputs.png Inputs.gray_bytes) 0.05
     = Returned {| status := "real"; confidence := 88 |}.
Proof.
  split; [vm_compute; reflexivity | split; [ | split]].
  - apply (proj1 (image_one_sided_confidence
                    (Samples.decoder Samples.stripped_photo)
                    Inputs.str_status_detail (Inputs.png Inputs.gray_bytes)
                    Samples.stripped_photo (-0.05)
                    {| ai := 7; human := 0 |} eq_refl
                    ltac:(vm_compute; discriminate) eq_refl
                    ltac:(vm_compute; reflexivity) eq_refl eq_refl)).
    vm_compute. reflexivity.
  - vm_compute. reflexivity.
  - apply (proj2 (image_one_sided_confidence
                    (Samples.decoder Samples.snapshot)
                    Inputs.str_status_detail (Inputs.png Inputs.gray_bytes)
                    Samples.snapshot 0.05
                    {| ai := 0; human := 5 |} eq_refl
                    ltac:(vm_compute; discriminate) eq_refl
                    ltac:(vm_compute; reflexivity) eq_refl eq_refl)).
    vm_compute. reflexivity.
Defined.

(** X18. In the image scorer, close counters give the lowest confidence
    with every jitter of [-0.05, +0.05]: a decoded upload whose
    [ai_score / total_score] lies above 0.45 and at most at 0.55 is
    answered with confidence 65 exactly, whichever label the jitter gives
    it. *)
Theorem image_close_confidence
  (open_rgb : list Byte.byte -> string + Image.PILImage)
  (str_http : Z -> string -> string)
  (file : Image.UploadFile) (image : Image.PILImage) (jitter : float)
  (t : tally) :
  Image.is_image_type (Image.content_type file) = true ->
  Py.len_list (Image.contents file) <= 5 * 1024 * 1024 ->
  open_rgb (Image.contents file) = inr image ->
  Image.scores (Py.len_list (Image.contents file)) image = Some t ->
  (-0.05 <=? jitter)%float = true -> (jitter <=? 0.05)%float = true ->
  9 * human t < 11 * ai t -> 9 * ai t <= 11 * human t ->
  exists s,
    Image.analyze_image open_rgb str_http file jitter
    = Returned {| status := s; confidence := 65 |}.
Proof.
  intros Htype Hsize Hopen Hscores J1 J2 H1 H2.
  destruct (analyze_image_of_counters open_rgb str_http file image jitter
              t Htype Hsize Hopen Hscores) as [[Ha [Hh Ht]] Hrun].
  rewrite Hrun.
  apply respond_close; (assumption || lia).
Qed.

Lemma image_close_confidence_witness :
  Image.scores 1789 Samples.thumbnail = Some {| ai := 4; human := 4 |}
  /\ exists s,
       Image.analyze_image (Samples.decoder Samples.thumbnail)
         Inputs.str_status_detail (Inputs.png Inputs.gray_bytes) 0.05
       = Returned {| status := s; confidence := 65 |}.
Proof.
  split; [vm_compute; reflexivity | ].
  apply (image_close_confidence (Samples.decoder Samples.thumbnail)
           Inputs.str_status_detail (Inputs.png Inputs.gray_bytes)
           Samples.thumbnail 0.05 {| ai := 4; human := 4 |});
    try reflexivity; vm_compute; (reflexivity || discriminate).
Defined.

(** ** The response without jitter *)

(** Without jitter the float computation of the confidence agrees with
    the integer quotient, for all counters the scorers can reach. *)
Lemma response_of_counters (a h lo hi : Z) :
  0 <= a <= 12 -> 0 <= h <= 8 -> 0 < a + h ->
  Spec.response (Py.quotient a (a + h)) lo hi
  = {| status := if h <? a then "ai-generated" else "real";
       confidence := Z.max lo (Z.min hi (100 * Z.max a h / (a + h))) |}.
Proof.
  intros Ha Hh Ht.
  enum_Z a 0 13%nat; enum_Z h 0 9%nat;
    first [ exfalso; lia | vm_compute; reflexivity ].
Qed.

Lemma respond_of_counters (default : float) (t : tally) (lo hi : Z) :
  default = 0.45%float \/ default = 0.5%float ->
  0 <= ai t <= 12 -> 0 <= human t <= 8 -> 0 < ai t + human t ->
  respond (Spec.probability default t) 0 lo hi
  = Returned
      {| status := if human t <? ai t then "ai-generated" else "real";
         confidence :=
           Z.max lo (Z.min hi (100 * Z.max (ai t) (human t)
                               / (ai t + human t))) |}.
Proof.
  intros Hd Ha Hh Ht. destruct t as [a h]. simpl in Ha, Hh, Ht.
  rewrite respond_zero by (apply clamp_zero_jitter; assumption).
  rewrite (quotient_of_tally default {| ai := a; human := h |} Ht).
  simpl ai. simpl human.
  rewrite (response_of_counters a h lo hi Ha Hh Ht). reflexivity.
Qed.

(** X19. With the jitter at 0 the text scorer computes its answer in
    integers: for a text of at least 50 characters that fires a signal,
    the label is "ai-generated" exactly when [ai_indicators] exceeds
    [human_indicators], and the confidence is the share of the larger
    counter in percent, rounded down and moved into [60, 90]; the floats
    of the source never round it elsewhere. *)
Theorem text_zero_jitter_response pow (text : string) (t : tally) :
  50 <= Py.len text ->
  Text.indicators pow text = Some t ->
  0 < ai t + human t ->
  Text.analyze_text pow text 0
  = Returned
      {| status := if human t <? ai t then "ai-generated" else "real";
         confidence :=
           Z.max 60 (Z.min 90 (100 * Z.max (ai t) (human t)
                               / (ai t + human t))) |}.
Proof.
  intros Hlen Hind Ht.
  pose proof (indicators_bounds pow text t Hind) as [Ha Hh].
  rewrite (analyze_text_of_counters pow text 0 t Hlen Hind).
  apply respond_of_counters; [left; reflexivity | lia | lia | lia].
Qed.

Lemma text_zero_jitter_response_witness :
  Text.indicators Inputs.pow Samples.wows
  = Some {| ai := 1; human := 1 |}
  /\ Text.analyze_text Inputs.pow Samples.wows 0
     = Returned {| status := "real"; confidence := 60 |}.
Proof.
  split; [vm_compute; reflexivity | ].
  apply (text_zero_jitter_response Inputs.pow Samples.wows
           {| ai := 1; human := 1 |});
    vm_compute; (reflexivity || discriminate).
Defined.

(** X20. With the jitter at 0 the image scorer computes its answer in
    integers: for every decoded upload the label is "ai-generated"
    exactly when [ai_score] exceeds [human_score], and the confidence is
    the share of the larger counter in percent, rounded down and moved
    into [65, 88]. *)
Theorem image_zero_jitter_response
  (open_rgb : list Byte.byte -> string + Image.PILImage)
  (str_http : Z -> string -> string)
  (file : Image.UploadFile) (image : Image.PILImage) (t : tally) :
  Image.is_image_type (Image.content_type file) = true ->
  Py.len_list (Image.contents file) <= 5 * 1024 * 1024 ->
  open_rgb (Image.contents file) = inr image ->
  Image.scores (Py.len_list (Image.contents file)) image = Some t ->
  Image.analyze_image open_rgb str_http file 0
  = Returned
      {| status := if human t <? ai t then "ai-generated" else "real";
         confidence :=
           Z.max 65 (Z.min 88 (100 * Z.max (ai t) (human t)
                               / (ai t + human t))) |}.
Proof.
  intros Htype Hsize Hopen Hscores.
  destruct (analyze_image_of_counters open_rgb str_http file image 0
              t Htype Hsize Hopen Hscores) as [[Ha [Hh Ht]] Hrun].
  rewrite Hrun.
  apply respond_of_counters; [right; reflexivity | lia | lia | lia].
Qed.

Lemma image_zero_jitter_response_witness :
  Image.scores 1789 Inputs.gray512 = Some {| ai := 8; human := 1 |}
  /\ Image.analyze_image Inputs.pillow Inputs.str_status_detail
       (Inputs.png Inputs.gray_bytes) 0
     = Returned {| status := "ai-generated"; confidence := 88 |}.
Proof.
  split; [vm_compute; reflexivity | ].
  apply (image_zero_jitter_response Inputs.pillow Inputs.str_status_detail
           (Inputs.png Inputs.gray_bytes) Inputs.gray512
           {| ai := 8; human := 1 |});
    try reflexivity; vm_compute; (reflexivity || discriminate).
Defined.

(** ** The code against the documented signals *)

Module SpecFacts.




Lemma plus_assoc (a b c : tally) :
  Spec.plus (Spec.plus a b) c = Spec.plus a (Spec.plus b c).
Proof. unfold Spec.plus. simpl. rewrite !Z.add_assoc. reflexivity. Qed.


(** *** Sentences *)




(** *** Phrases and markers *)









(** *** Repeated openers: the [dict] of the code counts occurrences *)













(** *** The ten signals together *)


End SpecFacts.

(** *** The six signals of the image scorer *)

Module ImageSpecFacts.
Import SpecFacts.










End ImageSpecFacts.

(** *** A jitter of zero, of either sign *)







